(** * chat-room (blather): server_funcs.c, bl_server.c, bl_client.c

    A shallow embedding of the chat server's service functions, of one pass
    of its main loop and of one pass of each of the client's two workers.
    C functions that take [server_t *server] become computations in a state
    monad whose state holds the server record and the part of the operating
    system the code talks to (descriptors, FIFO contents, files).  The
    reader thread of the client has a state of its own: the client's
    globals and the operating system at its end of the FIFOs.  A
    computation ends in one of four ways: it returns, the process exits
    through [check_fail], it blocks for ever in a system call, or it reads
    or writes outside an array.

    [log_printf] and [dbg_printf] only write diagnostics and are left out;
    where their arguments call a function of the server, the call is kept.
    Names are strings; the bounds MAXNAME and MAXLINE of the C buffers are
    not modelled. *)

From Stdlib Require Import ZArith String Ascii List Lia Bool.
From stdpp Require Import base decidable list numbers strings pretty.

Open Scope string_scope.
Open Scope list_scope.
Open Scope Z_scope.

(** ** blather.h *)

(** The header is not among the sources.  The constants the code takes
    from it are parameters of the development; the records below have the
    fields the sources use. *)
Class blather_h := {
  MAXCLIENTS : Z;      (* capacity of server_t.client[] *)
  sizeof_join_t : Z;
  sizeof_mesg_t : Z;
  sizeof_who_t : Z;
}.

(** [mesg_kind_t]; [BL_other] stands for any other integer stored in the
    [kind] field, such as the 0 left by [memset]. *)
Inductive mesg_kind_t :=
| BL_MESG
| BL_JOINED
| BL_DEPARTED
| BL_SHUTDOWN
| BL_DISCONNECTED
| BL_PING
| BL_other (code : Z).

Record mesg_t := {
  kind : mesg_kind_t;
  mesg_name : string;
  body : string;
}.

Record join_t := {
  join_name : string;
  join_to_client_fname : string;
  join_to_server_fname : string;
}.

Record client_t := {
  name : string;
  to_client_fd : Z;
  to_server_fd : Z;
  to_client_fname : string;
  to_server_fname : string;
  data_ready : Z;
  last_contact_time : Z;
}.

Record server_t := {
  server_name : string;
  join_fd : Z;
  join_ready : Z;
  n_clients : Z;
  client : list client_t;     (* client[MAXCLIENTS]; entries from n_clients on are not live *)
  log_fd : Z;
}.

Record who_t := {
  who_n_clients : Z;
  names : list string;
}.

(** [struct pollfd] of <poll.h>. *)
Record pollfd := {
  fd : Z;
  events : Z;
  revents : Z;
}.

(** <poll.h>: the values Linux and the BSDs give the two flags. *)
Definition POLLIN : Z := 1.
Definition POLLNVAL : Z := 32.

(** [memset(&x, 0, sizeof(x))] *)
Definition zero_mesg : mesg_t := {| kind := BL_other 0; mesg_name := ""; body := "" |}.
Definition zero_join : join_t :=
  {| join_name := ""; join_to_client_fname := ""; join_to_server_fname := "" |}.
Definition zero_client : client_t :=
  {| name := ""; to_client_fd := 0; to_server_fd := 0; to_client_fname := "";
     to_server_fname := ""; data_ready := 0; last_contact_time := 0 |}.
Definition zero_pollfd : pollfd := {| fd := 0; events := 0; revents := 0 |}.

(** Field assignments. *)
Definition set_kind (k : mesg_kind_t) (m : mesg_t) : mesg_t :=
  {| kind := k; mesg_name := mesg_name m; body := body m |}.
Definition set_mesg_name (s : string) (m : mesg_t) : mesg_t :=
  {| kind := kind m; mesg_name := s; body := body m |}.
Definition set_body (s : string) (m : mesg_t) : mesg_t :=
  {| kind := kind m; mesg_name := mesg_name m; body := s |}.

Definition set_name (s : string) (c : client_t) : client_t :=
  {| name := s; to_client_fd := to_client_fd c; to_server_fd := to_server_fd c;
     to_client_fname := to_client_fname c; to_server_fname := to_server_fname c;
     data_ready := data_ready c; last_contact_time := last_contact_time c |}.
Definition set_to_client_fd (v : Z) (c : client_t) : client_t :=
  {| name := name c; to_client_fd := v; to_server_fd := to_server_fd c;
     to_client_fname := to_client_fname c; to_server_fname := to_server_fname c;
     data_ready := data_ready c; last_contact_time := last_contact_time c |}.
Definition set_to_server_fd (v : Z) (c : client_t) : client_t :=
  {| name := name c; to_client_fd := to_client_fd c; to_server_fd := v;
     to_client_fname := to_client_fname c; to_server_fname := to_server_fname c;
     data_ready := data_ready c; last_contact_time := last_contact_time c |}.
Definition set_to_client_fname (s : string) (c : client_t) : client_t :=
  {| name := name c; to_client_fd := to_client_fd c; to_server_fd := to_server_fd c;
     to_client_fname := s; to_server_fname := to_server_fname c;
     data_ready := data_ready c; last_contact_time := last_contact_time c |}.
Definition set_to_server_fname (s : string) (c : client_t) : client_t :=
  {| name := name c; to_client_fd := to_client_fd c; to_server_fd := to_server_fd c;
     to_client_fname := to_client_fname c; to_server_fname := s;
     data_ready := data_ready c; last_contact_time := last_contact_time c |}.
Definition set_data_ready (v : Z) (c : client_t) : client_t :=
  {| name := name c; to_client_fd := to_client_fd c; to_server_fd := to_server_fd c;
     to_client_fname := to_client_fname c; to_server_fname := to_server_fname c;
     data_ready := v; last_contact_time := last_contact_time c |}.
Definition set_last_contact_time (v : Z) (c : client_t) : client_t :=
  {| name := name c; to_client_fd := to_client_fd c; to_server_fd := to_server_fd c;
     to_client_fname := to_client_fname c; to_server_fname := to_server_fname c;
     data_ready := data_ready c; last_contact_time := v |}.

Definition set_server_name (v : string) (s : server_t) : server_t :=
  {| server_name := v; join_fd := join_fd s; join_ready := join_ready s;
     n_clients := n_clients s; client := client s; log_fd := log_fd s |}.
Definition set_join_fd (v : Z) (s : server_t) : server_t :=
  {| server_name := server_name s; join_fd := v; join_ready := join_ready s;
     n_clients := n_clients s; client := client s; log_fd := log_fd s |}.
Definition set_join_ready (v : Z) (s : server_t) : server_t :=
  {| server_name := server_name s; join_fd := join_fd s; join_ready := v;
     n_clients := n_clients s; client := client s; log_fd := log_fd s |}.
Definition set_n_clients (v : Z) (s : server_t) : server_t :=
  {| server_name := server_name s; join_fd := join_fd s; join_ready := join_ready s;
     n_clients := v; client := client s; log_fd := log_fd s |}.
Definition set_client (l : list client_t) (s : server_t) : server_t :=
  {| server_name := server_name s; join_fd := join_fd s; join_ready := join_ready s;
     n_clients := n_clients s; client := l; log_fd := log_fd s |}.

Definition set_fd (v : Z) (p : pollfd) : pollfd :=
  {| fd := v; events := events p; revents := revents p |}.
Definition set_events (v : Z) (p : pollfd) : pollfd :=
  {| fd := fd p; events := v; revents := revents p |}.
Definition set_revents (v : Z) (p : pollfd) : pollfd :=
  {| fd := fd p; events := events p; revents := v |}.

(** ** The process and its environment *)

(** What the server process can observe of the operating system. *)
Record os_t := {
  files : list string;             (* paths present in the file system *)
  open_fds : list Z;               (* descriptors open in the process *)
  join_in : list (Z * join_t);     (* unread join records, by descriptor, oldest first *)
  mesg_in : list (Z * mesg_t);     (* unread message records, by descriptor, oldest first *)
  wr_err : list Z;                 (* open descriptors on which write() reports an error *)
  cl_err : list Z;                 (* open descriptors on which close() reports an error *)
  written : list (Z * mesg_t);     (* records written so far, oldest first *)
  polled : list (list pollfd * Z); (* arguments of the poll() calls so far, oldest first *)
  signalled : bool;                (* a signal is pending *)
  clock : Z;                       (* what time(NULL) returns *)
}.

Record state := {
  srv : server_t;
  os : os_t;
}.

(** How a computation over a state [S] ends. *)
Inductive outcome (S A : Type) :=
| Done (a : A) (st : S)    (* returned [a] *)
| Exit (st : S)            (* the process was ended by check_fail *)
| Hang (st : S)            (* blocked for ever *)
| Fault (st : S).          (* access outside an array *)
Arguments Done {S A} a st.
Arguments Exit {S A} st.
Arguments Hang {S A} st.
Arguments Fault {S A} st.

Definition M (S A : Type) : Type := S -> outcome S A.

Definition ret {S A} (a : A) : M S A := fun st => Done a st.

Definition bind {S A B} (m : M S A) (k : A -> M S B) : M S B :=
  fun st =>
    match m st with
    | Done a st' => k a st'
    | Exit st' => Exit st'
    | Hang st' => Hang st'
    | Fault st' => Fault st'
    end.

Notation "x <- m ;; k" := (bind m (fun x => k))
  (at level 20, m at level 99, k at level 200, only parsing).
Notation "' pat <- m ;; k" := (bind m (fun x => match x with pat => k end))
  (at level 20, pat pattern, m at level 99, k at level 200, only parsing).
Notation "m ;; k" := (bind m (fun _ => k))
  (at level 100, k at level 200, only parsing, right associativity).

Definition gets {S A} (f : S -> A) : M S A := fun st => Done (f st) st.
Definition modify {S} (f : S -> S) : M S unit := fun st => Done tt (f st).

(** The state a computation leaves behind, however it ends. *)
Definition final {S A} (o : outcome S A) : S :=
  match o with
  | Done _ st | Exit st | Hang st | Fault st => st
  end.

(** [for (int i = i0; cond(i); ++i) a = body(i, a);] with the locals the
    body updates in [a].  The test is evaluated before every iteration, as
    in C.  [fuel] bounds the number of iterations; a loop that wants more
    is reported as [Hang]. *)
Fixpoint for_loop {S A} (fuel : nat) (i : Z) (cond : Z -> S -> bool)
    (body : Z -> A -> M S A) (a : A) : M S A :=
  fun st =>
    if cond i st then
      match fuel with
      | O => Hang st
      | Datatypes.S k => (a' <- body i a ;; for_loop k (i + 1) cond body a') st
      end
    else Done a st.

(** [for (int i = i0; i < bound; ++i)] with [bound] read from the state
    at each test.  The fuel is the distance to the bound on entry, which
    is enough for every loop of the sources: none of them raises its
    bound. *)
Definition for_lt {S A} (i0 : Z) (bound : S -> Z) (body : Z -> A -> M S A) (a : A) : M S A :=
  fun st => for_loop (Z.to_nat (bound st - i0)) i0 (fun i st' => i <? bound st') body a st.

Definition on_srv (f : server_t -> server_t) (st : state) : state :=
  {| srv := f (srv st); os := os st |}.
Definition on_os (f : os_t -> os_t) (st : state) : state :=
  {| srv := srv st; os := f (os st) |}.

Definition set_files (v : list string) (o : os_t) : os_t :=
  {| files := v; open_fds := open_fds o; join_in := join_in o; mesg_in := mesg_in o;
     wr_err := wr_err o; cl_err := cl_err o; written := written o; polled := polled o;
     signalled := signalled o; clock := clock o |}.
Definition set_open_fds (v : list Z) (o : os_t) : os_t :=
  {| files := files o; open_fds := v; join_in := join_in o; mesg_in := mesg_in o;
     wr_err := wr_err o; cl_err := cl_err o; written := written o; polled := polled o;
     signalled := signalled o; clock := clock o |}.
Definition set_join_in (v : list (Z * join_t)) (o : os_t) : os_t :=
  {| files := files o; open_fds := open_fds o; join_in := v; mesg_in := mesg_in o;
     wr_err := wr_err o; cl_err := cl_err o; written := written o; polled := polled o;
     signalled := signalled o; clock := clock o |}.
Definition set_mesg_in (v : list (Z * mesg_t)) (o : os_t) : os_t :=
  {| files := files o; open_fds := open_fds o; join_in := join_in o; mesg_in := v;
     wr_err := wr_err o; cl_err := cl_err o; written := written o; polled := polled o;
     signalled := signalled o; clock := clock o |}.
Definition set_written (v : list (Z * mesg_t)) (o : os_t) : os_t :=
  {| files := files o; open_fds := open_fds o; join_in := join_in o; mesg_in := mesg_in o;
     wr_err := wr_err o; cl_err := cl_err o; written := v; polled := polled o;
     signalled := signalled o; clock := clock o |}.
Definition set_polled (v : list (list pollfd * Z)) (o : os_t) : os_t :=
  {| files := files o; open_fds := open_fds o; join_in := join_in o; mesg_in := mesg_in o;
     wr_err := wr_err o; cl_err := cl_err o; written := written o; polled := v;
     signalled := signalled o; clock := clock o |}.
Definition set_signalled (v : bool) (o : os_t) : os_t :=
  {| files := files o; open_fds := open_fds o; join_in := join_in o; mesg_in := mesg_in o;
     wr_err := wr_err o; cl_err := cl_err o; written := written o; polled := polled o;
     signalled := v; clock := clock o |}.

(** *** Arrays

    [a[i]] and [a[i] = x] on a C array held as a list: an index outside
    the array is a [Fault]. *)
Definition arr_get {S A} (a : list A) (i : Z) : M S A :=
  fun st =>
    if i <? 0 then Fault st
    else match a !! Z.to_nat i with
         | Some x => Done x st
         | None => Fault st
         end.

Definition arr_upd {S A} (a : list A) (i : Z) (f : A -> A) : M S (list A) :=
  fun st =>
    if i <? 0 then Fault st
    else match a !! Z.to_nat i with
         | Some x => Done (<[Z.to_nat i := f x]> a) st
         | None => Fault st
         end.

(** [server->client[p]] read and written through a pointer to element [p]. *)
Definition load (p : Z) : M state client_t :=
  a <- gets (fun st => client (srv st)) ;; arr_get a p.

Definition store (p : Z) (f : client_t -> client_t) : M state unit :=
  a <- gets (fun st => client (srv st)) ;;
  a' <- arr_upd a p f ;;
  modify (on_srv (set_client a')).

(** *** System calls *)

(** The lowest descriptor not in use, which is what open() returns. *)
Definition lowest_free (used : list Z) : Z :=
  default (Z.of_nat (length used))
    (List.find (fun k => negb (bool_decide (k ∈ used))) (seqZ 0 (Z.of_nat (length used)))).

(** [open(path, O_RDWR)]: without O_CREAT the path has to exist. *)
Definition sys_open (path : string) : M state Z :=
  fun st =>
    if bool_decide (path ∈ files (os st)) then
      let new := lowest_free (open_fds (os st)) in
      Done new (on_os (set_open_fds (new :: open_fds (os st))) st)
    else Done (-1) st.

(** [close(d)]: an unknown descriptor is an error (EBADF); on a descriptor
    listed in [cl_err] the call reports an error (EIO, EINTR) after
    releasing the descriptor, as Linux does. *)
Definition sys_close (d : Z) : M state Z :=
  fun st =>
    if bool_decide (d ∈ open_fds (os st)) then
      Done (if bool_decide (d ∈ cl_err (os st)) then -1 else 0)
           (on_os (set_open_fds (List.filter (fun x => negb (x =? d)) (open_fds (os st)))) st)
    else Done (-1) st.

(** [remove(path)] *)
Definition sys_remove (path : string) : M state Z :=
  fun st =>
    if bool_decide (path ∈ files (os st)) then
      Done 0 (on_os (set_files (List.filter (fun p => negb (String.eqb p path)) (files (os st)))) st)
    else Done (-1) st.

(** [mkfifo(path, perms)] *)
Definition sys_mkfifo (path : string) : M state Z :=
  fun st =>
    if bool_decide (path ∈ files (os st)) then Done (-1) st
    else Done 0 (on_os (set_files (files (os st) ++ [path])) st).

(** [write(d, mesg, sizeof(mesg_t))] *)
Definition sys_write `{blather_h} (d : Z) (mesg : mesg_t) : M state Z :=
  fun st =>
    if bool_decide (d ∈ open_fds (os st)) && negb (bool_decide (d ∈ wr_err (os st))) then
      Done sizeof_mesg_t (on_os (set_written (written (os st) ++ [(d, mesg)])) st)
    else Done (-1) st.

(** The oldest record queued on descriptor [d], and the queue without it. *)
Fixpoint take_first {A} (d : Z) (q : list (Z * A)) : option (A * list (Z * A)) :=
  match q with
  | [] => None
  | (d', x) :: q' =>
      if d' =? d then Some (x, q')
      else match take_first d q' with
           | Some (y, r) => Some (y, (d', x) :: r)
           | None => None
           end
  end.

(** [read(d, &join, sizeof(join_t))]: returns the byte count and the
    buffer.  The FIFOs are opened O_RDWR, so an empty one never reports
    end of file: the read blocks. *)
Definition sys_read_join `{blather_h} (d : Z) (buf : join_t) : M state (Z * join_t) :=
  fun st =>
    if bool_decide (d ∈ open_fds (os st)) then
      match take_first d (join_in (os st)) with
      | Some (j, rest) => Done (sizeof_join_t, j) (on_os (set_join_in rest) st)
      | None => Hang st
      end
    else Done (-1, buf) st.

(** [read(d, &mesg, sizeof(mesg_t))] *)
Definition sys_read_mesg `{blather_h} (d : Z) (buf : mesg_t) : M state (Z * mesg_t) :=
  fun st =>
    if bool_decide (d ∈ open_fds (os st)) then
      match take_first d (mesg_in (os st)) with
      | Some (m, rest) => Done (sizeof_mesg_t, m) (on_os (set_mesg_in rest) st)
      | None => Hang st
      end
    else Done (-1, buf) st.

(** A descriptor is readable when a record is queued on it. *)
Definition readable (o : os_t) (d : Z) : bool :=
  existsb (fun e => fst e =? d) (join_in o) || existsb (fun e => fst e =? d) (mesg_in o).

(** What poll() stores in [revents] for one examined entry. *)
Definition poll_revents (o : os_t) (p : pollfd) : Z :=
  if fd p <? 0 then 0
  else if negb (bool_decide (fd p ∈ open_fds o)) then POLLNVAL
  else if readable o (fd p) then Z.land (events p) POLLIN
  else 0.

(** [poll(a, nfds, -1)]: examines [a[0 .. nfds-1]] and nothing else, and
    returns the number of entries with a non-zero [revents]; with a signal
    pending it returns -1; with nothing to report it blocks. *)
Definition sys_poll (a : list pollfd) (nfds : Z) : M state (Z * list pollfd) :=
  fun st =>
    let st1 := on_os (set_polled (polled (os st) ++ [(a, nfds)])) st in
    if Z.of_nat (length a) <? nfds then Fault st1
    else if signalled (os st1) then Done (-1, a) (on_os (set_signalled false) st1)
    else
      let a' := imap (fun k p => if Z.of_nat k <? nfds
                                 then set_revents (poll_revents (os st1) p) p else p) a in
      let num := Z.of_nat (length (List.filter (fun p => negb (revents p =? 0)) a')) in
      if num =? 0 then Hang st1 else Done (num, a') st1.

(** [time(NULL)] *)
Definition sys_time : M state Z := gets (fun st => clock (os st)).

(** Modelled from the spec: [check_fail(cond, perr, fmt, ...)], declared in
    blather.h and defined outside the three sources.  The spec (section 7,
    item 1) has the failures it guards abort the process with a diagnostic:
    when [cond] holds the process exits, otherwise the call returns. *)
Definition check_fail {S} (cond : bool) : M S unit :=
  fun st => if cond then Exit st else Done tt st.

(** ** server_funcs.c *)

Section server_funcs.
Context `{blather_h}.

(** The result stands for [&server->client[idx]]. *)
Definition server_get_client (idx : Z) : M state Z :=
  n <- gets (fun st => n_clients (srv st)) ;;
  check_fail (idx >=? n) ;;
  ret idx.

Definition server_start (name : string) (perms : Z) : M state unit :=
  modify (on_srv (set_server_name name)) ;;
  let fifo_name := name in
  let fifo_name := fifo_name +:+ ".fifo" in
  sys_remove fifo_name ;;
  sys_mkfifo fifo_name ;;
  d <- sys_open fifo_name ;;
  modify (on_srv (set_join_fd d)) ;;
  check_fail (d =? -1).

Definition server_broadcast (mesg : mesg_t) : M state unit :=
  for_lt 0 (fun st => n_clients (srv st)) (fun i _ =>
    p <- server_get_client i ;;
    c <- load p ;;
    n_write <- sys_write (to_client_fd c) mesg ;;
    (* the last argument of check_fail *)
    p' <- server_get_client i ;;
    _ <- load p' ;;
    check_fail (n_write =? -1)) tt.

Definition server_add_client (join : join_t) : M state Z :=
  n <- gets (fun st => n_clients (srv st)) ;;
  if n >=? MAXCLIENTS then ret (-1)
  else
    let client := zero_client in
    let client := set_name (join_name join) client in
    let client := set_to_client_fname (join_to_client_fname join) client in
    let client := set_to_server_fname (join_to_server_fname join) client in
    now <- sys_time ;;
    let client := set_last_contact_time now client in
    d <- sys_open (to_client_fname client) ;;
    let client := set_to_client_fd d client in
    check_fail (to_client_fd client =? -1) ;;
    d <- sys_open (to_server_fname client) ;;
    let client := set_to_server_fd d client in
    check_fail (to_server_fd client =? -1) ;;
    let join_mesg := zero_mesg in
    let join_mesg := set_kind BL_JOINED join_mesg in
    let join_mesg := set_mesg_name (name client) join_mesg in
    (* server->client[server->n_clients++] = client *)
    n <- gets (fun st => n_clients (srv st)) ;;
    store n (fun _ => client) ;;
    modify (on_srv (set_n_clients (n + 1))) ;;
    server_broadcast join_mesg ;;
    ret 0.

Definition server_remove_client (idx : Z) : M state Z :=
  n <- gets (fun st => n_clients (srv st)) ;;
  if idx >=? n then ret (-1)
  else
    client <- server_get_client idx ;;
    c <- load client ;;
    r <- sys_close (to_client_fd c) ;;
    if r =? -1 then ret (-1)
    else
      c <- load client ;;
      r <- sys_close (to_server_fd c) ;;
      if r =? -1 then ret (-1)
      else
        c <- load client ;;
        sys_remove (to_client_fname c) ;;
        c <- load client ;;
        sys_remove (to_server_fname c) ;;
        for_lt idx (fun st => n_clients (srv st) - 1) (fun i _ =>
          q <- server_get_client (i + 1) ;;
          c <- load q ;;
          store i (fun _ => c)) tt ;;
        n <- gets (fun st => n_clients (srv st)) ;;
        modify (on_srv (set_n_clients (n - 1))) ;;
        ret 0.

Definition server_shutdown : M state unit :=
  d <- gets (fun st => join_fd (srv st)) ;;
  sys_close d ;;
  s <- gets (fun st => server_name (srv st)) ;;
  sys_remove s ;;
  let mesg := zero_mesg in
  let mesg := set_kind BL_SHUTDOWN mesg in
  server_broadcast mesg ;;
  for_lt 0 (fun st => n_clients (srv st)) (fun i _ =>
    server_remove_client i ;; ret tt) tt ;;
  d <- gets (fun st => log_fd (srv st)) ;;
  sys_close d ;;
  ret tt.

Definition server_check_sources : M state unit :=
  let poll_fds := replicate (Z.to_nat (2 + MAXCLIENTS)) zero_pollfd in
  d <- gets (fun st => join_fd (srv st)) ;;
  poll_fds <- arr_upd poll_fds 0 (set_fd d) ;;
  poll_fds <- arr_upd poll_fds 0 (fun p => set_events (Z.lor (events p) POLLIN) p) ;;
  d <- gets (fun st => log_fd (srv st)) ;;
  poll_fds <- arr_upd poll_fds 1 (set_fd d) ;;
  poll_fds <- arr_upd poll_fds 1 (fun p => set_events (Z.lor (events p) POLLIN) p) ;;
  poll_fds <- for_lt 0 (fun st => n_clients (srv st)) (fun i poll_fds =>
    (* server->client[i + 2], not a call of server_get_client *)
    c <- load (i + 2) ;;
    poll_fds <- arr_upd poll_fds (i + 2) (set_fd (to_server_fd c)) ;;
    arr_upd poll_fds (i + 2) (fun p => set_events (Z.lor (events p) POLLIN) p)) poll_fds ;;
  (* poll(poll_fds, POLLIN, -1) *)
  ' (num, poll_fds) <- sys_poll poll_fds POLLIN ;;
  if num =? -1 then ret tt
  else
    p0 <- arr_get poll_fds 0 ;;
    (if negb (Z.land POLLIN (revents p0) =? 0)
     then modify (on_srv (set_join_ready 1))
     else ret tt) ;;
    for_lt 0 (fun st => n_clients (srv st)) (fun i _ =>
      p <- arr_get poll_fds (i + 2) ;;
      if negb (Z.land POLLIN (revents p) =? 0) then
        (* the argument of log_printf, then the assignment *)
        server_get_client i ;;
        q <- server_get_client i ;;
        store q (set_data_ready 1)
      else
        server_get_client i ;;
        ret tt) tt.

Definition server_join_ready : M state Z :=
  gets (fun st => join_ready (srv st)).

Definition server_handle_join : M state unit :=
  let join := zero_join in
  d <- gets (fun st => join_fd (srv st)) ;;
  ' (n_read, join) <- sys_read_join d join ;;
  check_fail (n_read =? -1) ;;
  modify (on_srv (set_join_ready 0)).

Definition server_client_ready (idx : Z) : M state Z :=
  n <- gets (fun st => n_clients (srv st)) ;;
  check_fail (idx >=? n) ;;
  c <- load idx ;;
  ret (data_ready c).

(** The labels of the statements inside a [switch] body. *)
Inductive label :=
| Lcase (k : mesg_kind_t)      (* [case k:] *)
| Ldefault                     (* [default:] *)
| Lplain (id : string).        (* [id:], an ordinary statement label *)

Definition kind_eqb (a b : mesg_kind_t) : bool :=
  match a, b with
  | BL_MESG, BL_MESG | BL_JOINED, BL_JOINED | BL_DEPARTED, BL_DEPARTED
  | BL_SHUTDOWN, BL_SHUTDOWN | BL_DISCONNECTED, BL_DISCONNECTED | BL_PING, BL_PING => true
  | BL_other x, BL_other y => x =? y
  | _, _ => false
  end.

Definition is_case (k : mesg_kind_t) (l : label) : bool :=
  match l with Lcase k' => kind_eqb k k' | _ => false end.

Definition is_default (l : label) : bool :=
  match l with Ldefault => true | _ => false end.

(** [switch (k) { ... }] over a body whose labelled statements all end in
    [break]: control goes to the [case] label equal to [k], to [default:]
    when there is none, and past the body when there is no [default:]
    either.  A statement behind an ordinary label is reached only by
    falling into it or by [goto], and the body below has neither. *)
Definition switch {S} (k : mesg_kind_t) (arms : list (label * M S unit)) : M S unit :=
  match List.find (fun a => is_case k (fst a)) arms with
  | Some a => snd a
  | None =>
      match List.find (fun a => is_default (fst a)) arms with
      | Some a => snd a
      | None => ret tt
      end
  end.

Definition server_handle_client (idx : Z) : M state unit :=
  let mesg := zero_mesg in
  p <- server_get_client idx ;;
  c <- load p ;;
  ' (n_read, mesg) <- sys_read_mesg (to_server_fd c) mesg ;;
  (* the last argument of check_fail *)
  p <- server_get_client idx ;;
  _ <- load p ;;
  check_fail (n_read =? -1) ;;
  p <- server_get_client idx ;;
  store p (set_data_ready 0) ;;
  p <- server_get_client idx ;;
  now <- sys_time ;;
  store p (set_last_contact_time now) ;;
  (* the source writes the labels without the keyword [case] *)
  switch (kind mesg)
    [ (Lplain "BL_DEPARTED", server_remove_client idx ;; server_broadcast mesg);
      (Lplain "BL_MESG", server_broadcast mesg);
      (Lplain "BL_DISCONNECTED", ret tt);
      (Lplain "BL_PING", ret tt);
      (Lplain "BL_SHUTDOWN", ret tt);
      (Ldefault, ret tt) ].

(** ** bl_server.c *)

(** One pass of the [while (1)] loop of [main]. *)
Definition main_loop_pass : M state unit :=
  server_check_sources ;;
  r <- server_join_ready ;;
  (if negb (r =? 0) then server_handle_join else ret tt) ;;
  for_lt 0 (fun st => n_clients (srv st)) (fun i _ =>
    r <- server_client_ready i ;;
    if negb (r =? 0) then server_handle_client i else ret tt) tt.

End server_funcs.

(** ** bl_client.c: the input worker *)

Module bl_client.

(** The file behind [log_fd]: a [who_t] record at offset 0, followed by
    the message records appended so far. *)
Record log_t := {
  who : who_t;
  mesgs : list mesg_t;
}.

(** What [iprintf] puts on the screen.  [Garbage] is a line formatted from
    bytes that are not the fields of a record. *)
Inductive printed :=
| Line (s : string)
| Garbage.

(** The globals of the client and what the worker can observe. *)
Record proc := {
  DO_ADVANCED : Z;
  client : client_t;
  log : log_t;
  screen : list printed;      (* lines printed so far, oldest first *)
  sent : list mesg_t;         (* records written to client->to_server_fd, oldest first *)
  wr_fail : bool;             (* write() on client->to_server_fd reports an error *)
}.

Definition set_screen (v : list printed) (p : proc) : proc :=
  {| DO_ADVANCED := DO_ADVANCED p; client := client p; log := log p;
     screen := v; sent := sent p; wr_fail := wr_fail p |}.
Definition set_sent (v : list mesg_t) (p : proc) : proc :=
  {| DO_ADVANCED := DO_ADVANCED p; client := client p; log := log p;
     screen := screen p; sent := v; wr_fail := wr_fail p |}.

Definition nl : string := String (ascii_of_nat 10) EmptyString.

Definition iprintf (s : string) : M proc unit :=
  modify (fun p => set_screen (screen p ++ [Line s]) p).

(** [iprintf(simpio, "[%s] : %s\n", mesg.name, mesg.body)] over a buffer
    whose contents may be indeterminate. *)
Definition iprintf_mesg (mesg : option mesg_t) : M proc unit :=
  match mesg with
  | Some m => iprintf ("[" +:+ mesg_name m +:+ "] : " +:+ body m +:+ nl)
  | None => modify (fun p => set_screen (screen p ++ [Garbage]) p)
  end.

(** [write(client->to_server_fd, &mesg, sizeof(mesg_t))] *)
Definition write_to_server `{blather_h} (mesg : mesg_t) : M proc Z :=
  fun p => if wr_fail p then Done (-1) p
           else Done sizeof_mesg_t (set_sent (sent p ++ [mesg]) p).

(** *** <stdlib.h>, <string.h> *)

Definition isspace (c : ascii) : bool :=
  let n := nat_of_ascii c in
  ((9 <=? n) && (n <=? 13))%nat || (n =? 32)%nat.

Definition digit_of (c : ascii) : option Z :=
  let n := Z.of_nat (nat_of_ascii c) in
  if (48 <=? n) && (n <=? 57) then Some (n - 48) else None.

Fixpoint skip_spaces (s : string) : string :=
  match s with
  | String c s' => if isspace c then skip_spaces s' else s
  | EmptyString => s
  end.

Fixpoint atoi_digits (s : string) (acc : Z) : Z :=
  match s with
  | String c s' =>
      match digit_of c with
      | Some d => atoi_digits s' (10 * acc + d)
      | None => acc
      end
  | EmptyString => acc
  end.

(** Conversion to [int] and to [long] with two's-complement wrap-around. *)
Definition to_int (z : Z) : Z := (z + 2 ^ 31) mod 2 ^ 32 - 2 ^ 31.
Definition to_long (z : Z) : Z := (z + 2 ^ 63) mod 2 ^ 64 - 2 ^ 63.
Definition INT_MAX : Z := 2 ^ 31 - 1.
Definition LONG_MAX : Z := 2 ^ 63 - 1.

(** [atoi]: white space, an optional sign, then decimal digits.  The C
    standard leaves a value outside [int] undefined; here it wraps. *)
Definition atoi (s : string) : Z :=
  let s := skip_spaces s in
  to_int match s with
         | String "-"%char s' => - atoi_digits s' 0
         | String "+"%char s' => atoi_digits s' 0
         | _ => atoi_digits s 0
         end.

(** [strncmp(buf, lit, strlen(lit)) == 0] *)
Definition starts_with (lit buf : string) : bool := String.prefix lit buf.

(** [buf + n] for a nul-terminated [buf] inside a zeroed line buffer. *)
Fixpoint advance (n : nat) (buf : string) : string :=
  match n, buf with
  | O, _ => buf
  | Datatypes.S n', String _ buf' => advance n' buf'
  | Datatypes.S _, EmptyString => EmptyString
  end.

Section worker.
Context `{blather_h}.

(** *** The log file *)

(** [lseek(log_fd, 0, SEEK_END)]: the size of the file. *)
Definition log_size (l : log_t) : Z :=
  sizeof_who_t + Z.of_nat (length (mesgs l)) * sizeof_mesg_t.

(** [pread(log_fd, &mesg, sizeof(mesg_t), offset)] on the buffer [buf]
    ([None]: indeterminate).  Outside the file nothing is read and the
    buffer keeps its contents; at the start of a record of the append
    region the buffer receives that record; anywhere else it receives
    bytes that are not one record. *)
Definition pread_mesg (l : log_t) (offset : Z) (buf : option mesg_t) : option mesg_t :=
  if (offset <? 0) || (log_size l <=? offset) then buf
  else
    let rel := offset - sizeof_who_t in
    if (0 <=? rel) && (rel mod sizeof_mesg_t =? 0)
    then mesgs l !! Z.to_nat (rel / sizeof_mesg_t)
    else None.

(** One pass of the [while (1)] loop of [user_worker], from the point
    where the line editor has a complete line [buf] or the end of input.
    Returns [true] when the loop is left by [break]. *)
Definition user_worker (buf : string) (end_of_input : bool) : M proc bool :=
  if end_of_input then
    iprintf ("End of Input, Departing" +:+ nl) ;;
    let mesg := zero_mesg in
    me <- gets client ;;
    let mesg := set_mesg_name (name me) mesg in
    let mesg := set_kind BL_DEPARTED mesg in
    n_write <- write_to_server mesg ;;
    check_fail (n_write =? -1) ;;
    ret true
  else
    adv <- gets DO_ADVANCED ;;
    (if negb (adv =? 0) && starts_with "%who" buf && negb (adv =? 0) then
       (* lseek(log_fd, 0, SEEK_SET), then pread of the who_t at that offset *)
       w <- gets (fun p => who (log p)) ;;
       iprintf ("====================" +:+ nl) ;;
       iprintf (pretty (who_n_clients w) +:+ " CLIENTS" +:+ nl) ;;
       for_lt 0 (fun _ => who_n_clients w) (fun i _ =>
         s <- arr_get (names w) i ;;
         iprintf (pretty i +:+ ": " +:+ s +:+ nl)) tt ;;
       iprintf ("====================" +:+ nl)
     else if negb (adv =? 0) && starts_with "%last" buf then
       let num := atoi (advance 6 buf) in
       iprintf ("====================" +:+ nl) ;;
       offset <- gets (fun p => log_size (log p)) ;;
       check_fail (offset =? -1) ;;
       (* long - int * size_t *)
       let offset := to_long (offset - num * sizeof_mesg_t) in
       iprintf ("LAST " +:+ pretty num +:+ " MESSAGES" +:+ nl) ;;
       for_lt 0 (fun _ => num) (fun i '(offset, mesg) =>
         l <- gets log ;;
         let mesg := pread_mesg l offset mesg in
         let offset := to_long (offset + sizeof_mesg_t) in
         iprintf_mesg mesg ;;
         ret (offset, mesg)) (offset, None) ;;
       iprintf ("====================" +:+ nl)
     else
       let mesg := zero_mesg in
       me <- gets client ;;
       let mesg := set_mesg_name (name me) mesg in
       let mesg := set_body buf mesg in
       let mesg := if end_of_input then set_kind BL_DEPARTED mesg
                   else set_kind BL_MESG mesg in
       n_write <- write_to_server mesg ;;
       check_fail (n_write =? -1)) ;;
    ret false.

(** *** What the claims about ["%last N"] speak of *)

(** The rule printed above and below a listing. *)
Definition rule : string := "====================" +:+ nl.

(** A message record as the screen shows it. *)
Definition render (m : mesg_t) : printed :=
  Line ("[" +:+ mesg_name m +:+ "] : " +:+ body m +:+ nl).

(** The offset at which record [k] of the append region starts. *)
Definition record_offset (k : nat) : Z := sizeof_who_t + Z.of_nat k * sizeof_mesg_t.

(** The body of the [for] loop of the ["%last"] branch. *)
Definition last_body (i : Z) (a : Z * option mesg_t) : M proc (Z * option mesg_t) :=
  let '(offset, mesg) := a in
  l <- gets log ;;
  let mesg := pread_mesg l offset mesg in
  let offset := to_long (offset + sizeof_mesg_t) in
  iprintf_mesg mesg ;;
  ret (offset, mesg).

End worker.

(** The text after the number does not continue it. *)
Definition no_digit_ahead (rest : string) : Prop :=
  match rest with
  | String ch _ => digit_of ch = None
  | EmptyString => True
  end.

End bl_client.

(** ** bl_client.c: the thread that reads from the server *)

Module bl_client_reader.
Import bl_client.

(** The client process as [server_worker] sees it: the globals and screen
    of [bl_client.proc], and the operating system, where [mesg_in] holds
    the records the server has written to the to-client FIFO. *)
Record thread := {
  me : proc;
  env : os_t;
}.

Definition on_env (f : os_t -> os_t) (t : thread) : thread :=
  {| me := me t; env := f (env t) |}.

(** A computation over the globals, run inside the thread. *)
Definition in_me {A} (m : M proc A) : M thread A :=
  fun t =>
    match m (me t) with
    | Done a p => Done a {| me := p; env := env t |}
    | Exit p => Exit {| me := p; env := env t |}
    | Hang p => Hang {| me := p; env := env t |}
    | Fault p => Fault {| me := p; env := env t |}
    end.

(** [poll(a, nfds, -1)], as [sys_poll] has it for the server. *)
Definition poll (a : list pollfd) (nfds : Z) : M thread (Z * list pollfd) :=
  fun t =>
    if Z.of_nat (length a) <? nfds then Fault t
    else if signalled (env t) then Done (-1, a) (on_env (set_signalled false) t)
    else
      let a' := imap (fun k p => if Z.of_nat k <? nfds
                                 then set_revents (poll_revents (env t) p) p else p) a in
      let num := Z.of_nat (length (List.filter (fun p => negb (revents p =? 0)) a')) in
      if num =? 0 then Hang t else Done (num, a') t.

(** [read(d, &mesg, sizeof(mesg_t))], as [sys_read_mesg]. *)
Definition read_mesg `{blather_h} (d : Z) (buf : mesg_t) : M thread (Z * mesg_t) :=
  fun t =>
    if bool_decide (d ∈ open_fds (env t)) then
      match take_first d (mesg_in (env t)) with
      | Some (m, rest) => Done (sizeof_mesg_t, m) (on_env (set_mesg_in rest) t)
      | None => Hang t
      end
    else Done (-1, buf) t.

(** [switch] for a body whose statements assign to a local: every arm
    returns the local, and so does a switch that no label matches. *)
Definition switch_on {S A} (k : mesg_kind_t) (arms : list (label * M S A)) (a : A) : M S A :=
  match List.find (fun arm => is_case k (fst arm)) arms with
  | Some arm => snd arm
  | None =>
      match List.find (fun arm => is_default (fst arm)) arms with
      | Some arm => snd arm
      | None => ret a
      end
  end.

(** One pass of the [while (1)] loop of [server_worker].  Returns [true]
    when the loop is left by [break]. *)
Definition server_worker `{blather_h} : M thread bool :=
  let mesg := zero_mesg in
  let poll_fds := [zero_pollfd] in
  c <- gets (fun t => client (me t)) ;;
  poll_fds <- arr_upd poll_fds 0 (set_fd (to_client_fd c)) ;;
  poll_fds <- arr_upd poll_fds 0 (fun p => set_events (Z.lor (events p) POLLIN) p) ;;
  ' (num, poll_fds) <- poll poll_fds 1 ;;
  if 0 <? num then
    p0 <- arr_get poll_fds 0 ;;
    mesg <- (if negb (Z.land (revents p0) POLLIN =? 0) then
               c <- gets (fun t => client (me t)) ;;
               ' (_, mesg) <- read_mesg (to_client_fd c) mesg ;;
               switch_on (kind mesg)
                 [ (Lcase BL_MESG,
                    in_me (iprintf ("[" +:+ mesg_name mesg +:+ "] : " +:+ body mesg +:+ nl)) ;;
                    ret mesg);
                   (Lcase BL_JOINED,
                    in_me (iprintf ("-- " +:+ mesg_name mesg +:+ " JOINED --" +:+ nl)) ;;
                    ret mesg);
                   (Lcase BL_DEPARTED,
                    in_me (iprintf ("-- " +:+ mesg_name mesg +:+ " DEPARTED --" +:+ nl)) ;;
                    ret mesg);
                   (Lcase BL_SHUTDOWN,
                    in_me (iprintf ("!!! server is shutting down !!!" +:+ nl)) ;;
                    ret mesg);
                   (Lcase BL_DISCONNECTED,
                    in_me (iprintf ("-- " +:+ mesg_name mesg +:+ " DISCONNECTED --" +:+ nl)) ;;
                    ret mesg);
                   (Lcase BL_PING,
                    let mesg := zero_mesg in
                    let mesg := set_kind BL_PING mesg in
                    c <- gets (fun t => client (me t)) ;;
                    let mesg := set_mesg_name (name c) mesg in
                    n_write <- in_me (write_to_server mesg) ;;
                    check_fail (n_write =? -1) ;;
                    ret mesg) ]
                 mesg
             else ret mesg) ;;
    (* pthread_cancel(user_thread); break; *)
    if kind_eqb (kind mesg) BL_SHUTDOWN then ret true else ret false
  else ret false.

(** *** What the properties of the two workers speak of *)

(** The lines of a ["%who"] listing, numbered from [i]. *)
Fixpoint who_lines (i : Z) (ns : list string) : list printed :=
  match ns with
  | [] => []
  | s :: ns' => Line (pretty i +:+ ": " +:+ s +:+ nl) :: who_lines (i + 1) ns'
  end.

(** What the screen shows for a record from the server; a message looks
    as it does in a ["%last"] listing. *)
Definition shown (m : mesg_t) : list printed :=
  match kind m with
  | BL_MESG => [render m]
  | BL_JOINED => [Line ("-- " +:+ mesg_name m +:+ " JOINED --" +:+ nl)]
  | BL_DEPARTED => [Line ("-- " +:+ mesg_name m +:+ " DEPARTED --" +:+ nl)]
  | BL_SHUTDOWN => [Line ("!!! server is shutting down !!!" +:+ nl)]
  | BL_DISCONNECTED => [Line ("-- " +:+ mesg_name m +:+ " DISCONNECTED --" +:+ nl)]
  | BL_PING | BL_other _ => []
  end.

(** The to-client FIFO is open, no signal is pending, and [m] is the
    oldest record waiting in it. *)
Definition next_from_server (t : thread) (m : mesg_t) (rest : list (Z * mesg_t)) : Prop :=
  signalled (env t) = false /\
  0 <= to_client_fd (client (me t)) /\
  to_client_fd (client (me t)) ∈ open_fds (env t) /\
  take_first (to_client_fd (client (me t))) (mesg_in (env t)) = Some (m, rest).

End bl_client_reader.

(** ** Specification vocabulary *)

(** [post Q R o]: an outcome that returned satisfies [Q], any other
    satisfies [R]. *)
Definition post {S A} (Q : A -> S -> Prop) (R : S -> Prop) (o : outcome S A) : Prop :=
  match o with
  | Done a st => Q a st
  | Exit st | Hang st | Fault st => R st
  end.

(** [keeps f m]: what [f] reads of the state is after [m] what it was
    before, however [m] ends. *)
Definition keeps {X A} (f : state -> X) (m : M state A) : Prop :=
  forall st, f (final (m st)) = f st.

(** [f] does not see the change [g] makes. *)
Definition ignores {X} (f : state -> X) (g : state -> state) : Prop :=
  forall st, f (g st) = f st.

(** The poll() calls made so far. *)
Definition polls (st : state) : list (list pollfd * Z) := polled (os st).

(** Calls of the two functions that change the size of the client table. *)
Inductive call :=
| Add (join : join_t)
| Remove (idx : Z).

(** [close(d)] returns 0. *)
Definition close_ok (o : os_t) (d : Z) : bool :=
  bool_decide (d ∈ open_fds o) && negb (bool_decide (d ∈ cl_err o)).

(** Both descriptors of [c] close without error, one after the other. *)
Definition both_close (o : os_t) (c : client_t) : bool :=
  close_ok o (to_client_fd c) && close_ok o (to_server_fd c)
  && negb (to_client_fd c =? to_server_fd c).

(** [write(d, ...)] does not return -1. *)
Definition write_ok (o : os_t) (d : Z) : bool :=
  bool_decide (d ∈ open_fds o) && negb (bool_decide (d ∈ wr_err o)).

Definition all_ok (o : os_t) (cs : list client_t) : bool :=
  forallb (fun c => write_ok o (to_client_fd c)) cs.

(** The clients in front of the first one whose write fails. *)
Fixpoint ok_prefix (o : os_t) (cs : list client_t) : list client_t :=
  match cs with
  | [] => []
  | c :: cs' => if write_ok o (to_client_fd c) then c :: ok_prefix o cs' else []
  end.

(** One copy of [mesg] for each of [cs], in order. *)
Definition deliveries (mesg : mesg_t) (cs : list client_t) : list (Z * mesg_t) :=
  map (fun c => (to_client_fd c, mesg)) cs.

(** The state after [mesg] has been written to each of [cs]. *)
Definition sent_to (mesg : mesg_t) (cs : list client_t) (st : state) : state :=
  on_os (set_written (written (os st) ++ deliveries mesg cs)) st.

Definition lt_n_clients (i : Z) (st : state) : bool := i <? n_clients (srv st).

Section vocabulary.
Context `{blather_h}.

(** Invariant 1 of the data model. *)
Definition n_clients_ok (st : state) : Prop :=
  0 <= n_clients (srv st) <= MAXCLIENTS.

(** A sequence of calls, each made in the state the previous one left;
    [None] when a removal is asked for an index that is not in range at
    that moment. *)
Fixpoint run_calls (calls : list call) (st : state) : option state :=
  match calls with
  | [] => Some st
  | Add join :: calls' => run_calls calls' (final (server_add_client join st))
  | Remove idx :: calls' =>
      if (0 <=? idx) && (idx <? n_clients (srv st))
      then run_calls calls' (final (server_remove_client idx st))
      else None
  end.

(** Test and body of the loop of [server_remove_client]. *)
Definition shift_cond (i : Z) (st : state) : bool := i <? n_clients (srv st) - 1.

Definition shift_body (i : Z) (_ : unit) : M state unit :=
  q <- server_get_client (i + 1) ;;
  c <- load q ;;
  store i (fun _ => c).

(** Body of the loop of [server_broadcast]. *)
Definition broadcast_body (mesg : mesg_t) (i : Z) (_ : unit) : M state unit :=
  p <- server_get_client i ;;
  c <- load p ;;
  n_write <- sys_write (to_client_fd c) mesg ;;
  p' <- server_get_client i ;;
  _ <- load p' ;;
  check_fail (n_write =? -1).

End vocabulary.

(** ** Worked inputs *)

(** A header with room for four clients, names of 256 bytes and lines of
    1024 bytes. *)
Definition example_h : blather_h :=
  {| MAXCLIENTS := 4; sizeof_join_t := 768; sizeof_mesg_t := 1284; sizeof_who_t := 1028 |}.

Definition member (who : string) (pid : string) (wr rd : Z) : client_t :=
  {| name := who; to_client_fd := wr; to_server_fd := rd;
     to_client_fname := pid +:+ ".client.fifo"; to_server_fname := pid +:+ ".server.fifo";
     data_ready := 0; last_contact_time := 0 |}.

Definition alice : client_t := member "alice" "100" 4 5.
Definition bob : client_t := member "bob" "200" 6 7.
Definition carol : client_t := member "carol" "300" 8 9.
Definition dave : client_t := member "dave" "400" 10 11.

Definition carol_join : join_t :=
  {| join_name := "carol"; join_to_client_fname := "300.client.fifo";
     join_to_server_fname := "300.server.fifo" |}.

Definition chat (table : list client_t) (n : Z) : server_t :=
  {| server_name := "chat"; join_fd := 3; join_ready := 0; n_clients := n;
     client := table; log_fd := 0 |}.

Definition quiet_os : os_t :=
  {| files := ["chat.fifo"; "100.client.fifo"; "100.server.fifo";
               "200.client.fifo"; "200.server.fifo";
               "300.client.fifo"; "300.server.fifo"];
     open_fds := [0; 1; 2; 3; 4; 5; 6; 7];
     join_in := []; mesg_in := []; wr_err := []; cl_err := [];
     written := []; polled := []; signalled := false; clock := 1000 |}.

(** The process before [server_start]: the global [server] is all zero
    (here with a table of four entries) and only the standard descriptors
    are open. *)
Definition boot : state :=
  {| srv := {| server_name := ""; join_fd := 0; join_ready := 0; n_clients := 0;
               client := [zero_client; zero_client; zero_client; zero_client];
               log_fd := 0 |};
     os := {| files := []; open_fds := [0; 1; 2];
              join_in := []; mesg_in := []; wr_err := []; cl_err := [];
              written := []; polled := []; signalled := false; clock := 1000 |} |}.

Definition hi : mesg_t := {| kind := BL_MESG; mesg_name := "alice"; body := "hi" |}.

(** alice and bob are connected. *)
Definition two_clients : state :=
  {| srv := chat [alice; bob; zero_client; zero_client] 2; os := quiet_os |}.

(** alice is connected; carol's join record waits in the join FIFO and
    [join_ready] is set. *)
Definition carol_waiting : state :=
  {| srv := set_join_ready 1 (chat [alice; zero_client; zero_client; zero_client] 1);
     os := set_join_in [(3, carol_join)] quiet_os |}.

(** alice and bob are connected; alice has sent "hi" and her [data_ready]
    is set. *)
Definition alice_spoke : state :=
  {| srv := chat [set_data_ready 1 alice; bob; zero_client; zero_client] 2;
     os := set_mesg_in [(5, hi)] quiet_os |}.

(** alice is connected and has sent "hi"; nobody is joining. *)
Definition alice_alone_spoke : state :=
  {| srv := chat [alice; zero_client; zero_client; zero_client] 1;
     os := set_mesg_in [(5, hi)] quiet_os |}.

(** alice is connected and has sent "hi" while carol's join record waits. *)
Definition alice_spoke_carol_waiting : state :=
  {| srv := chat [alice; zero_client; zero_client; zero_client] 1;
     os := set_join_in [(3, carol_join)] (set_mesg_in [(5, hi)] quiet_os) |}.

(** alice and bob are connected; close() on alice's [to_client_fd] fails. *)
Definition alice_close_fails : state :=
  {| srv := chat [alice; bob; zero_client; zero_client] 2;
     os := {| files := files quiet_os; open_fds := open_fds quiet_os;
              join_in := []; mesg_in := []; wr_err := []; cl_err := [4];
              written := []; polled := []; signalled := false; clock := 1000 |} |}.

(** alice and bob are connected; write() on alice's [to_client_fd] fails. *)
Definition alice_write_fails : state :=
  {| srv := chat [alice; bob; zero_client; zero_client] 2;
     os := {| files := files quiet_os; open_fds := open_fds quiet_os;
              join_in := []; mesg_in := []; wr_err := [4]; cl_err := [];
              written := []; polled := []; signalled := false; clock := 1000 |} |}.

(** The table is full. *)
Definition full_house : state :=
  {| srv := chat [alice; bob; carol; dave] 4; os := quiet_os |}.

(** An entry of the poll array as [server_check_sources] fills it. *)
Definition watch (d : Z) : pollfd := {| fd := d; events := POLLIN; revents := 0 |}.

Definition said (who text : string) : mesg_t :=
  {| kind := BL_MESG; mesg_name := who; body := text |}.

(** A client in advanced mode whose log holds four messages. *)
Definition four_in_log : bl_client.proc :=
  {| bl_client.DO_ADVANCED := 1;
     bl_client.client := alice;
     bl_client.log :=
       {| bl_client.who := {| who_n_clients := 2; names := ["alice"; "bob"; ""; ""] |};
          bl_client.mesgs := [said "alice" "one"; said "bob" "two";
                              said "alice" "three"; said "bob" "four"] |};
     bl_client.screen := [];
     bl_client.sent := [];
     bl_client.wr_fail := false |}.

(** ** Further vocabulary *)

(** The record server_add_client stores for a join request when the two
    FIFOs were opened as [d1] and [d2] at time [now]. *)
Definition joined_client (join : join_t) (d1 d2 now : Z) : client_t :=
  {| name := join_name join; to_client_fd := d1; to_server_fd := d2;
     to_client_fname := join_to_client_fname join;
     to_server_fname := join_to_server_fname join;
     data_ready := 0; last_contact_time := now |}.

(** The record server_add_client broadcasts. *)
Definition joined_mesg (join : join_t) : mesg_t :=
  {| kind := BL_JOINED; mesg_name := join_name join; body := "" |}.

(** The file system after [remove(path)] and the descriptor table after
    [close(d)]. *)
Definition without_path (path : string) (l : list string) : list string :=
  List.filter (fun p => negb (String.eqb p path)) l.

Definition without_fd (d : Z) (l : list Z) : list Z :=
  List.filter (fun x => negb (x =? d)) l.

(** The clients in use: [client[0]] to [client[n_clients - 1]]. *)
Definition live (st : state) : list client_t :=
  take (Z.to_nat (n_clients (srv st))) (client (srv st)).

(** The descriptors held by the clients [cs]. *)
Definition fds_of (cs : list client_t) : list Z :=
  flat_map (fun c => [to_client_fd c; to_server_fd c]) cs.

(** The second, fourth, ... of [cs]. *)
Fixpoint every_other (cs : list client_t) : list client_t :=
  match cs with
  | _ :: c :: cs' => c :: every_other cs'
  | _ => []
  end.

(** Neither FIFO of the client [c] is the file [path]. *)
Definition fifos_differ_from (path : string) (c : client_t) : Prop :=
  to_client_fname c <> path /\ to_server_fname c <> path.

(** The file [path] exists, and no client's FIFO bears its name. *)
Definition fifo_safe (path : string) (st : state) : Prop :=
  path ∈ files (os st) /\ Forall (fifos_differ_from path) (client (srv st)).

(** The record server_shutdown broadcasts. *)
Definition shutdown_mesg : mesg_t := set_kind BL_SHUTDOWN zero_mesg.

Section sources_vocabulary.
Context `{blather_h}.




End sources_vocabulary.

(** *** More worked inputs *)



(** A join request that names FIFOs nobody has created. *)
Definition ghost_join : join_t :=
  {| join_name := "ghost"; join_to_client_fname := "999.client.fifo";
     join_to_server_fname := "999.server.fifo" |}.

(** alice and bob are connected; alice's [to_server_fd] is closed already. *)
Definition alice_half_closed : state :=
  {| srv := chat [alice; bob; zero_client; zero_client] 2;
     os := set_open_fds [0; 1; 2; 3; 4; 6; 7] quiet_os |}.


(** alice's client after the write end of her to-server FIFO has failed. *)
Definition cut_off : bl_client.proc :=
  {| bl_client.DO_ADVANCED := 1;
     bl_client.client := alice;
     bl_client.log := bl_client.log four_in_log;
     bl_client.screen := [];
     bl_client.sent := [];
     bl_client.wr_fail := true |}.

(** alice's client with the records [q] waiting to be read. *)
Definition alice_reading (q : list (Z * mesg_t)) : bl_client_reader.thread :=
  {| bl_client_reader.me := four_in_log;
     bl_client_reader.env := set_mesg_in q quiet_os |}.

Definition ping : mesg_t := {| kind := BL_PING; mesg_name := ""; body := "" |}.

(** ** Running computations step by step *)

Lemma bind_done {S A B} (m : M S A) (k : A -> M S B) (st : S) (a : A) (st' : S) :
  m st = Done a st' -> bind m k st = k a st'.
Proof. intros E. unfold bind. rewrite E. reflexivity. Qed.

Lemma bind_assoc {S A B C} (m : M S A) (k1 : A -> M S B) (k2 : B -> M S C) (st : S) :
  bind (bind m k1) k2 st = bind m (fun a => bind (k1 a) k2) st.
Proof. unfold bind. destruct (m st); reflexivity. Qed.

Lemma for_loop_stop {S A} (fuel : nat) (i : Z) (cond : Z -> S -> bool)
    (body : Z -> A -> M S A) (a : A) (st : S) :
  cond i st = false -> for_loop fuel i cond body a st = Done a st.
Proof. intros E. destruct fuel; simpl; rewrite E; reflexivity. Qed.

Lemma for_loop_step {S A} (k : nat) (i : Z) (cond : Z -> S -> bool)
    (body : Z -> A -> M S A) (a : A) (st : S) :
  cond i st = true ->
  for_loop (Datatypes.S k) i cond body a st =
  bind (body i a) (fun a' => for_loop k (i + 1) cond body a') st.
Proof. intros E. simpl. rewrite E. reflexivity. Qed.

(** Runs the first call of the goal, whose result is [E]. *)
Ltac run E := rewrite ?bind_assoc; rewrite (bind_done _ _ _ _ _ E); cbv beta.

Lemma arr_get_in {S A} (a : list A) (i : Z) (x : A) (st : S) :
  0 <= i -> a !! Z.to_nat i = Some x -> arr_get a i st = Done x st.
Proof.
  intros Hi Hx. unfold arr_get.
  destruct (Z.ltb_spec i 0); [lia|]. rewrite Hx. reflexivity.
Qed.

Lemma arr_upd_in {S A} (a : list A) (i : Z) (f : A -> A) (x : A) (st : S) :
  0 <= i -> a !! Z.to_nat i = Some x ->
  arr_upd a i f st = Done (<[Z.to_nat i := f x]> a) st.
Proof.
  intros Hi Hx. unfold arr_upd.
  destruct (Z.ltb_spec i 0); [lia|]. rewrite Hx. reflexivity.
Qed.

Lemma load_in (p : Z) (c : client_t) (st : state) :
  0 <= p -> client (srv st) !! Z.to_nat p = Some c -> load p st = Done c st.
Proof. intros Hp Hc. unfold load, bind, gets. apply arr_get_in; assumption. Qed.

Lemma store_in (p : Z) (f : client_t -> client_t) (c : client_t) (st : state) :
  0 <= p -> client (srv st) !! Z.to_nat p = Some c ->
  store p f st = Done tt (on_srv (set_client (<[Z.to_nat p := f c]> (client (srv st)))) st).
Proof.
  intros Hp Hc. unfold store, bind, gets.
  rewrite (arr_upd_in _ _ _ c) by assumption. reflexivity.
Qed.

(** ** Outcomes and what every call leaves alone *)

Lemma post_bind {S A B} (m : M S A) (k : A -> M S B) (st : S)
    (Q : B -> S -> Prop) (R : S -> Prop) :
  post (fun a st' => post Q R (k a st')) R (m st) -> post Q R (bind m k st).
Proof. unfold bind. destruct (m st); simpl; auto. Qed.

Lemma post_conseq {S A} (Q Q' : A -> S -> Prop) (R R' : S -> Prop) (o : outcome S A) :
  post Q' R' o -> (forall a st, Q' a st -> Q a st) -> (forall st, R' st -> R st) ->
  post Q R o.
Proof. destruct o; simpl; auto. Qed.

Lemma post_final {S A} (Q : S -> Prop) (o : outcome S A) :
  post (fun _ => Q) Q o -> Q (final o).
Proof. destruct o; simpl; auto. Qed.

Lemma post_kept {X A} (f : state -> X) (m : M state A) (P : X -> Prop) (st : state) :
  keeps f m -> P (f st) ->
  post (fun _ st' => P (f st')) (fun st' => P (f st')) (m st).
Proof.
  intros Hm HP. specialize (Hm st).
  destruct (m st); simpl in *; rewrite Hm; assumption.
Qed.

Create HintDb keeps.

Section frame.
Context {X : Type} (f : state -> X).

Lemma keeps_bind {A B} (m : M state A) (k : A -> M state B) :
  keeps f m -> (forall a, keeps f (k a)) -> keeps f (bind m k).
Proof.
  intros Hm Hk st. unfold bind. specialize (Hm st).
  destruct (m st) as [a st'| | |]; simpl in *; auto.
  rewrite Hk. assumption.
Qed.

Lemma keeps_ret {A} (a : A) : keeps f (ret a).
Proof. intros st. reflexivity. Qed.

Lemma keeps_gets {A} (g : state -> A) : keeps f (gets g).
Proof. intros st. reflexivity. Qed.

Lemma keeps_modify (g : state -> state) : ignores f g -> keeps f (modify g).
Proof. intros Hg st. apply Hg. Qed.

Lemma keeps_check_fail (c : bool) : keeps f (check_fail c).
Proof. intros st. unfold check_fail. destruct c; reflexivity. Qed.

Lemma keeps_arr_get {A} (a : list A) (i : Z) : keeps f (arr_get a i).
Proof. intros st. unfold arr_get. repeat case_match; reflexivity. Qed.

Lemma keeps_arr_upd {A} (a : list A) (i : Z) (g : A -> A) : keeps f (arr_upd a i g).
Proof. intros st. unfold arr_upd. repeat case_match; reflexivity. Qed.

Lemma keeps_for_loop {A} (cond : Z -> state -> bool) (body : Z -> A -> M state A) :
  (forall i a, keeps f (body i a)) ->
  forall fuel i a, keeps f (for_loop fuel i cond body a).
Proof.
  intros Hbody fuel. induction fuel as [|k IH]; intros i a st; simpl.
  - destruct (cond i st); reflexivity.
  - destruct (cond i st); [|reflexivity].
    apply (keeps_bind (body i a) (fun a' => for_loop k (i + 1) cond body a')); auto.
Qed.

Lemma keeps_for_lt {A} (i0 : Z) (bound : state -> Z) (body : Z -> A -> M state A) (a : A) :
  (forall i a, keeps f (body i a)) -> keeps f (for_lt i0 bound body a).
Proof. intros Hbody st. unfold for_lt. apply keeps_for_loop. assumption. Qed.

Lemma keeps_sys_open (path : string) :
  (forall v, ignores f (on_os (set_open_fds v))) -> keeps f (sys_open path).
Proof. intros Hf st. unfold sys_open. case_match; [apply Hf | reflexivity]. Qed.

Lemma keeps_sys_close (d : Z) :
  (forall v, ignores f (on_os (set_open_fds v))) -> keeps f (sys_close d).
Proof. intros Hf st. unfold sys_close. case_match; [apply Hf | reflexivity]. Qed.

Lemma keeps_sys_remove (path : string) :
  (forall v, ignores f (on_os (set_files v))) -> keeps f (sys_remove path).
Proof. intros Hf st. unfold sys_remove. case_match; [apply Hf | reflexivity]. Qed.

Lemma keeps_sys_write `{blather_h} (d : Z) (mesg : mesg_t) :
  (forall v, ignores f (on_os (set_written v))) -> keeps f (sys_write d mesg).
Proof. intros Hf st. unfold sys_write. case_match; [apply Hf | reflexivity]. Qed.

Lemma keeps_sys_read_join `{blather_h} (d : Z) (buf : join_t) :
  (forall v, ignores f (on_os (set_join_in v))) -> keeps f (sys_read_join d buf).
Proof.
  intros Hf st. unfold sys_read_join. repeat case_match; try reflexivity. apply Hf.
Qed.

Lemma keeps_sys_read_mesg `{blather_h} (d : Z) (buf : mesg_t) :
  (forall v, ignores f (on_os (set_mesg_in v))) -> keeps f (sys_read_mesg d buf).
Proof.
  intros Hf st. unfold sys_read_mesg. repeat case_match; try reflexivity. apply Hf.
Qed.

Lemma keeps_sys_time : keeps f sys_time.
Proof. intros st. reflexivity. Qed.

End frame.

#[local] Hint Resolve keeps_ret keeps_gets keeps_modify keeps_check_fail keeps_arr_get
  keeps_arr_upd keeps_sys_open keeps_sys_close keeps_sys_remove keeps_sys_write
  keeps_sys_read_join keeps_sys_read_mesg keeps_sys_time : keeps.
#[local] Hint Extern 0 (ignores _ _) => intro; reflexivity : keeps.

(** Proves [keeps] for code built from calls already known to keep it. *)
Ltac keeps :=
  repeat (first [ solve [auto with keeps]
                | apply keeps_bind
                | apply keeps_for_lt
                | match goal with
                  | |- forall _, _ => intro
                  | |- keeps _ (match ?x with _ => _ end) => destruct x
                  end ]).

Lemma keeps_load {X} (f : state -> X) (p : Z) : keeps f (load p).
Proof. unfold load. keeps. Qed.

Lemma keeps_store {X} (f : state -> X) (p : Z) (g : client_t -> client_t) :
  (forall l, ignores f (on_srv (set_client l))) -> keeps f (store p g).
Proof. intros Hf. unfold store. keeps. Qed.

#[local] Hint Resolve keeps_load keeps_store : keeps.

Lemma keeps_server_get_client {X} (f : state -> X) (idx : Z) :
  keeps f (server_get_client idx).
Proof. unfold server_get_client. keeps. Qed.

#[local] Hint Resolve keeps_server_get_client : keeps.

Lemma keeps_server_broadcast `{blather_h} {X} (f : state -> X) (mesg : mesg_t) :
  (forall v, ignores f (on_os (set_written v))) -> keeps f (server_broadcast mesg).
Proof. intros Hf. unfold server_broadcast. keeps. Qed.

#[local] Hint Resolve keeps_server_broadcast : keeps.

(** server_handle_join changes neither the size of the table, nor the
    table, nor what has been written to the clients. *)
Lemma server_handle_join_adds_nothing `{blather_h} :
  keeps (fun st => (n_clients (srv st), client (srv st), written (os st)))
        server_handle_join.
Proof. unfold server_handle_join. keeps. Qed.

(** server_handle_client writes to no client, whatever it reads. *)
Lemma server_handle_client_writes_nothing `{blather_h} (idx : Z) :
  keeps (fun st => written (os st)) (server_handle_client idx).
Proof. unfold server_handle_client, switch. simpl. keeps. Qed.

Lemma sys_poll_recorded (a : list pollfd) (nfds : Z) (st : state) :
  post (fun _ st' => polls st' = polls st ++ [(a, nfds)])
       (fun st' => polls st' = polls st ++ [(a, nfds)]) (sys_poll a nfds st).
Proof. unfold sys_poll. repeat case_match; reflexivity. Qed.

(** server_check_sources calls poll at most once, and the count it passes
    is POLLIN, whatever n_clients is. *)
Lemma server_check_sources_count `{blather_h} (st : state) :
  polls (final (server_check_sources st)) = polls st \/
  exists a, polls (final (server_check_sources st)) = polls st ++ [(a, POLLIN)].
Proof.
  apply (post_final (fun st' => polls st' = polls st \/
                       exists a, polls st' = polls st ++ [(a, POLLIN)])).
  unfold server_check_sources.
  do 7 (apply post_bind;
        eapply post_conseq;
        [ apply (post_kept polls _ (fun w => w = polls st)); [ solve [keeps] | solve [auto] ]
        | cbv beta; intros ? ? ?
        | cbv beta; intros ? ->; left; reflexivity ]).
  apply post_bind.
  eapply post_conseq; [apply sys_poll_recorded | cbv beta | cbv beta].
  - intros [num poll_fds] st7 H7.
    apply (post_conseq _ (fun _ st' => polls st' = polls st7) _
                         (fun st' => polls st' = polls st7)).
    + apply (post_kept polls _ (fun w => w = polls st7)); [keeps | reflexivity].
    + intros _ st8 ->. right. eexists. rewrite H7.
      match goal with E : polls _ = polls st |- _ => rewrite E end. reflexivity.
    + intros st8 ->. right. eexists. rewrite H7.
      match goal with E : polls _ = polls st |- _ => rewrite E end. reflexivity.
  - intros st7 ->. right. eexists.
    match goal with E : polls _ = polls st |- _ => rewrite E end. reflexivity.
Qed.

Section table_size.
Context `{blather_h}.

(** One call that keeps [n_clients] at [v]; what is left to prove is the
    rest of the function. *)
Ltac keep_step v :=
  apply post_bind;
  eapply post_conseq;
    [ apply (post_kept (fun st => n_clients (srv st)) _ (fun n => n = v));
      [ solve [keeps] | solve [auto] ]
    | cbv beta; intros ? ? ?
    | cbv beta; intros; lia ].

Lemma server_add_client_keeps_bound (join : join_t) (st : state) :
  n_clients_ok st -> n_clients_ok (final (server_add_client join st)).
Proof.
  unfold n_clients_ok. intros Hok.
  apply (post_final (fun s => 0 <= n_clients (srv s) <= MAXCLIENTS)).
  unfold server_add_client.
  apply post_bind. simpl.
  destruct (Z.geb_spec (n_clients (srv st)) MAXCLIENTS) as [Hfull|Hroom]; [exact Hok|].
  remember (n_clients (srv st)) as v eqn:Hv. symmetry in Hv.
  do 5 (keep_step v).
  apply post_bind; simpl.
  match goal with E : n_clients (srv ?s) = v |- context [n_clients (srv ?s)] => rewrite E end.
  keep_step v.
  apply post_bind; simpl.
  keep_step (v + 1).
  simpl. lia.
Qed.

Lemma server_remove_client_keeps_bound (idx : Z) (st : state) :
  0 <= idx < n_clients (srv st) ->
  n_clients_ok st -> n_clients_ok (final (server_remove_client idx st)).
Proof.
  unfold n_clients_ok. intros Hidx Hok.
  apply (post_final (fun s => 0 <= n_clients (srv s) <= MAXCLIENTS)).
  unfold server_remove_client.
  apply post_bind. simpl.
  destruct (Z.geb_spec idx (n_clients (srv st))) as [Hout|Hin]; [exact Hok|].
  remember (n_clients (srv st)) as v eqn:Hv. symmetry in Hv.
  do 3 (keep_step v).
  match goal with |- context [if ?b then _ else _] => destruct b end; [simpl; lia|].
  do 2 (keep_step v).
  match goal with |- context [if ?b then _ else _] => destruct b end; [simpl; lia|].
  do 5 (keep_step v).
  apply post_bind; simpl.
  match goal with E : n_clients (srv ?s) = v |- context [n_clients (srv ?s)] => rewrite E end.
  simpl. lia.
Qed.

(** C6: any sequence of server_add_client calls and of server_remove_client
    calls whose index is in range when the call is made keeps
    0 <= n_clients <= MAXCLIENTS, whichever way the calls end. *)
Theorem n_clients_bounded (calls : list call) (st st' : state) :
  n_clients_ok st -> run_calls calls st = Some st' -> n_clients_ok st'.
Proof.
  revert st. induction calls as [|[join|idx] calls IH]; intros st Hok Hrun; simpl in Hrun.
  - injection Hrun as <-. exact Hok.
  - apply (IH _ (server_add_client_keeps_bound join st Hok) Hrun).
  - destruct (Z.leb_spec 0 idx); [|discriminate].
    destruct (Z.ltb_spec idx (n_clients (srv st))); [|discriminate].
    simpl in Hrun.
    apply (IH _ (server_remove_client_keeps_bound idx st ltac:(lia) Hok) Hrun).
Qed.

(** C7: with n_clients == MAXCLIENTS server_add_client returns a non-zero
    value and changes nothing: no entry is added to the table and nothing
    is written to any client. *)
Theorem server_add_client_full (join : join_t) (st : state) :
  n_clients (srv st) = MAXCLIENTS ->
  exists r, server_add_client join st = Done r st /\ r <> 0.
Proof.
  intros Hfull. exists (-1). split; [|lia].
  unfold server_add_client.
  run (eq_refl : gets (fun st => n_clients (srv st)) st = Done (n_clients (srv st)) st).
  destruct (Z.geb_spec (n_clients (srv st)) MAXCLIENTS); [reflexivity | lia].
Qed.

(** C10: with idx >= n_clients server_remove_client returns a non-zero
    value and leaves the whole state (table, descriptors, files) as it
    was. *)
Theorem server_remove_client_out_of_range (idx : Z) (st : state) :
  n_clients (srv st) <= idx ->
  exists r, server_remove_client idx st = Done r st /\ r <> 0.
Proof.
  intros Hidx. exists (-1). split; [|lia].
  unfold server_remove_client.
  run (eq_refl : gets (fun st => n_clients (srv st)) st = Done (n_clients (srv st)) st).
  destruct (Z.geb_spec idx (n_clients (srv st))); [reflexivity | lia].
Qed.

End table_size.

(** ** Removing a client *)

Section removal.
Context `{blather_h}.

Lemma server_get_client_in (idx : Z) (st : state) :
  idx < n_clients (srv st) -> server_get_client idx st = Done idx st.
Proof.
  intros Hlt. unfold server_get_client, bind, gets, check_fail, ret.
  destruct (Z.geb_spec idx (n_clients (srv st))); [lia | reflexivity].
Qed.

Lemma sys_close_ok (d : Z) (st : state) :
  close_ok (os st) d = true ->
  sys_close d st =
  Done 0 (on_os (set_open_fds (List.filter (fun x => negb (x =? d)) (open_fds (os st)))) st).
Proof.
  unfold close_ok, sys_close. intros E. apply andb_prop in E as [E1 E2].
  rewrite E1. destruct (bool_decide (d ∈ cl_err (os st))); [discriminate | reflexivity].
Qed.

Lemma sys_close_fail (d : Z) (st : state) :
  close_ok (os st) d = false ->
  exists st', sys_close d st = Done (-1) st' /\ srv st' = srv st.
Proof.
  unfold close_ok, sys_close. intros E.
  destruct (bool_decide (d ∈ open_fds (os st))); [|eexists; split; reflexivity].
  destruct (bool_decide (d ∈ cl_err (os st))); [|discriminate].
  eexists; split; reflexivity.
Qed.

Lemma sys_remove_done (path : string) (st : state) :
  exists r st', sys_remove path st = Done r st' /\ srv st' = srv st.
Proof.
  unfold sys_remove. destruct (bool_decide (path ∈ files (os st)));
    do 2 eexists; split; reflexivity.
Qed.

(** Closing [d1] leaves every other descriptor as it was. *)
Lemma close_ok_after (d1 d2 : Z) (st : state) :
  close_ok (os (on_os (set_open_fds (List.filter (fun x => negb (x =? d1))
                                                 (open_fds (os st)))) st)) d2
  = close_ok (os st) d2 && negb (d1 =? d2).
Proof.
  unfold close_ok. simpl.
  destruct (Z.eqb_spec d1 d2) as [->|Hne].
  - rewrite bool_decide_eq_false_2.
    + simpl. rewrite !andb_false_r. reflexivity.
    + rewrite list_elem_of_In, filter_In. intros [_ E].
      rewrite Z.eqb_refl in E. discriminate.
  - rewrite andb_true_r. f_equal. apply bool_decide_ext.
    rewrite !list_elem_of_In, filter_In. split; [tauto|].
    intros Hin. split; [assumption|].
    destruct (Z.eqb_spec d2 d1); [congruence | reflexivity].
Qed.

(** The loop of server_remove_client, [k] iterations from index [i]:
    entries [i .. i+k-1] receive their right neighbour, the others stay. *)
Lemma shift_loop (k : nat) : forall (i : Z) (st : state),
  0 <= i ->
  i + Z.of_nat k = n_clients (srv st) - 1 ->
  n_clients (srv st) <= Z.of_nat (length (client (srv st))) ->
  exists l',
    for_loop k i shift_cond shift_body tt st = Done tt (on_srv (set_client l') st) /\
    length l' = length (client (srv st)) /\
    (forall j : nat, i <= Z.of_nat j < i + Z.of_nat k ->
                     l' !! j = client (srv st) !! Datatypes.S j) /\
    (forall j : nat, Z.of_nat j < i \/ i + Z.of_nat k <= Z.of_nat j ->
                     l' !! j = client (srv st) !! j).
Proof.
  induction k as [|k IH]; intros i st Hi Hk Hlen.
  - exists (client (srv st)).
    rewrite for_loop_stop by (apply Z.ltb_ge; lia).
    split; [|split; [reflexivity | split; [intros; lia | reflexivity]]].
    destruct st as [[] ?]; reflexivity.
  - rewrite for_loop_step by (apply Z.ltb_lt; lia).
    destruct (lookup_lt_is_Some_2 (client (srv st)) (Z.to_nat (i + 1))) as [c Hc]; [lia|].
    destruct (lookup_lt_is_Some_2 (client (srv st)) (Z.to_nat i)) as [c0 Hc0]; [lia|].
    unfold shift_body at 1.
    run (server_get_client_in (i + 1) st ltac:(lia)).
    run (load_in (i + 1) c st ltac:(lia) Hc).
    run (store_in i (fun _ => c) c0 st Hi Hc0).
    set (st1 := on_srv _ st).
    destruct (IH (i + 1) st1) as (l' & Hrun & Hl & Hin & Hout).
    + lia.
    + simpl. lia.
    + simpl. rewrite length_insert. lia.
    + exists l'. split; [|split; [|split]].
      * rewrite Hrun. subst st1. destruct st as [[] ?]; reflexivity.
      * rewrite Hl. simpl. apply length_insert.
      * intros j Hj. destruct (decide (j = Z.to_nat i)) as [->|Hne].
        -- rewrite Hout by lia. simpl. rewrite list_lookup_insert_eq by lia.
           rewrite <- Hc. f_equal. lia.
        -- rewrite Hin by lia. simpl. apply list_lookup_insert_ne. lia.
      * intros j Hj. rewrite Hout by lia. simpl. apply list_lookup_insert_ne. lia.
Qed.

(** C5, amended: for 0 <= idx < n_clients, when both descriptors of the
    client close without error server_remove_client returns 0, the clients
    behind idx move down by one in their order and n_clients is
    decremented; when closing a descriptor fails it returns -1 and the
    client table is left as it was. *)
Theorem server_remove_client_shifts (idx : Z) (st : state) (c : client_t) :
  0 <= idx < n_clients (srv st) ->
  n_clients (srv st) <= Z.of_nat (length (client (srv st))) ->
  client (srv st) !! Z.to_nat idx = Some c ->
  (both_close (os st) c = true ->
     exists st', server_remove_client idx st = Done 0 st' /\
       n_clients (srv st') = n_clients (srv st) - 1 /\
       take (Z.to_nat (n_clients (srv st'))) (client (srv st')) =
         delete (Z.to_nat idx) (take (Z.to_nat (n_clients (srv st))) (client (srv st)))) /\
  (both_close (os st) c = false ->
     exists st', server_remove_client idx st = Done (-1) st' /\ srv st' = srv st).
Proof.
  intros Hidx Hlen Hc.
  assert (Hhead :
    server_remove_client idx st =
    bind (sys_close (to_client_fd c)) (fun r =>
      if r =? -1 then ret (-1) else
        c <- load idx ;; r <- sys_close (to_server_fd c) ;;
        if r =? -1 then ret (-1) else
          c <- load idx ;; sys_remove (to_client_fname c) ;;
          c <- load idx ;; sys_remove (to_server_fname c) ;;
          for_lt idx (fun st => n_clients (srv st) - 1) shift_body tt ;;
          n <- gets (fun st => n_clients (srv st)) ;;
          modify (on_srv (set_n_clients (n - 1))) ;; ret 0) st).
  { unfold server_remove_client.
    run (eq_refl : gets (fun st => n_clients (srv st)) st = Done _ st).
    destruct (Z.geb_spec idx (n_clients (srv st))); [lia|].
    run (server_get_client_in idx st ltac:(lia)).
    run (load_in idx c st ltac:(lia) Hc).
    reflexivity. }
  rewrite Hhead. clear Hhead.
  split; intros Hboth; unfold both_close in Hboth.
  - apply andb_prop in Hboth as [Hboth Hne]. apply andb_prop in Hboth as [H1 H2].
    run (sys_close_ok _ st H1). simpl (0 =? -1). cbv iota.
    set (st1 := on_os _ st).
    run (load_in idx c st1 ltac:(lia) Hc).
    assert (H2' : close_ok (os st1) (to_server_fd c) = true).
    { subst st1. rewrite close_ok_after, H2, Hne. reflexivity. }
    run (sys_close_ok _ st1 H2'). simpl (0 =? -1). cbv iota.
    set (st2 := on_os _ st1).
    run (load_in idx c st2 ltac:(lia) Hc).
    destruct (sys_remove_done (to_client_fname c) st2) as (r3 & st3 & E3 & S3).
    run E3.
    assert (Hc3 : client (srv st3) !! Z.to_nat idx = Some c) by (rewrite S3; exact Hc).
    run (load_in idx c st3 ltac:(lia) Hc3).
    destruct (sys_remove_done (to_server_fname c) st3) as (r4 & st4 & E4 & S4).
    run E4.
    assert (S : srv st4 = srv st) by (rewrite S4, S3; reflexivity).
    destruct (shift_loop (Z.to_nat (n_clients (srv st4) - 1 - idx)) idx st4)
      as (l' & Hrun & Hl & Hin & Hout); [lia | rewrite S; lia | rewrite S; lia |].
    rewrite ?bind_assoc. unfold for_lt at 1. unfold bind at 1.
    change (fun (i : Z) (st' : state) => i <? n_clients (srv st') - 1) with shift_cond.
    rewrite Hrun.
    eexists. split; [reflexivity|]. simpl. rewrite S.
    split; [reflexivity|].
    rewrite S in Hin, Hout, Hl.
    apply list_eq. intros j. rewrite lookup_take.
    case_decide as Hj.
    + destruct (decide (j < Z.to_nat idx)%nat) as [Hlt|Hge].
      * rewrite list_lookup_delete_lt by assumption.
        rewrite lookup_take_lt by lia. apply Hout. lia.
      * rewrite list_lookup_delete_ge by lia.
        rewrite lookup_take_lt by lia. apply Hin. lia.
    + symmetry. apply lookup_ge_None_2.
      rewrite length_delete, length_take; [lia|].
      rewrite lookup_take_lt by lia. eauto.
  - destruct (close_ok (os st) (to_client_fd c)) eqn:H1.
    + run (sys_close_ok _ st H1). simpl (0 =? -1). cbv iota.
      set (st1 := on_os _ st).
      run (load_in idx c st1 ltac:(lia) Hc).
      assert (H2' : close_ok (os st1) (to_server_fd c) = false).
      { subst st1. rewrite close_ok_after. simpl in Hboth. exact Hboth. }
      destruct (sys_close_fail _ st1 H2') as (st2 & E2 & S2).
      run E2. simpl. eexists; split; [reflexivity|]. rewrite S2. reflexivity.
    + destruct (sys_close_fail _ st H1) as (st1 & E1 & S1).
      run E1. simpl. eexists; split; [reflexivity | exact S1].
Qed.

End removal.

(** ** Broadcasting *)

Section fan_out.
Context `{blather_h}.

Lemma write_ok_written (w : list (Z * mesg_t)) (st : state) (d : Z) :
  write_ok (os (on_os (set_written w) st)) d = write_ok (os st) d.
Proof. reflexivity. Qed.

Lemma ok_prefix_written (w : list (Z * mesg_t)) (st : state) (cs : list client_t) :
  ok_prefix (os (on_os (set_written w) st)) cs = ok_prefix (os st) cs.
Proof.
  induction cs as [|c cs IH]; cbn [ok_prefix]; [reflexivity|].
  rewrite IH, write_ok_written. reflexivity.
Qed.

Lemma sys_write_ok (d : Z) (mesg : mesg_t) (st : state) :
  write_ok (os st) d = true ->
  sys_write d mesg st =
  Done sizeof_mesg_t (on_os (set_written (written (os st) ++ [(d, mesg)])) st).
Proof. unfold write_ok, sys_write. intros ->. reflexivity. Qed.

Lemma sys_write_fail (d : Z) (mesg : mesg_t) (st : state) :
  write_ok (os st) d = false -> sys_write d mesg st = Done (-1) st.
Proof. unfold write_ok, sys_write. intros ->. reflexivity. Qed.

(** The loop of server_broadcast over the live clients [cs] that remain
    from index [i] on. *)
Lemma broadcast_loop (mesg : mesg_t) (cs : list client_t) : forall (i : Z) (st : state),
  0 < sizeof_mesg_t ->
  0 <= i ->
  n_clients (srv st) <= Z.of_nat (length (client (srv st))) ->
  drop (Z.to_nat i) (take (Z.to_nat (n_clients (srv st))) (client (srv st))) = cs ->
  for_loop (length cs) i lt_n_clients (broadcast_body mesg) tt st =
  if all_ok (os st) cs then Done tt (sent_to mesg cs st)
  else Exit (sent_to mesg (ok_prefix (os st) cs) st).
Proof.
  induction cs as [|c cs IH]; intros i st Hsz Hi Hlen Hcs.
  - assert (Hn : n_clients (srv st) <= i).
    { apply (f_equal length) in Hcs. rewrite length_drop, length_take in Hcs.
      simpl in Hcs. lia. }
    rewrite for_loop_stop by (apply Z.ltb_ge; exact Hn).
    simpl. unfold sent_to, deliveries. simpl. rewrite app_nil_r.
    destruct st as [? []]; reflexivity.
  - assert (Hlive : take (Z.to_nat (n_clients (srv st))) (client (srv st)) !! Z.to_nat i
                    = Some c).
    { rewrite <- (Nat.add_0_r (Z.to_nat i)), <- lookup_drop, Hcs. reflexivity. }
    apply lookup_take_Some in Hlive as [Hc Hlt].
    rewrite (drop_S _ c) in Hcs by (apply lookup_take_Some; split; assumption).
    injection Hcs as Hcs.
    change (length (c :: cs)) with (Datatypes.S (length cs)).
    rewrite for_loop_step by (apply Z.ltb_lt; lia).
    unfold broadcast_body at 1.
    run (server_get_client_in i st ltac:(lia)).
    run (load_in i c st Hi Hc).
    simpl all_ok. simpl ok_prefix.
    destruct (write_ok (os st) (to_client_fd c)) eqn:Hok.
    + run (sys_write_ok _ mesg st Hok).
      set (st1 := on_os _ st).
      run (server_get_client_in i st1 ltac:(simpl; lia)).
      run (load_in i c st1 Hi Hc).
      replace (sizeof_mesg_t =? -1) with false by (symmetry; apply Z.eqb_neq; lia).
      unfold bind at 1, check_fail at 1.
      rewrite (IH (i + 1) st1 Hsz) by
        (try lia; try exact Hlen; simpl; rewrite <- Hcs; f_equal; lia).
      assert (Ha : all_ok (os st1) cs = all_ok (os st) cs) by reflexivity.
      assert (Hp : ok_prefix (os st1) cs = ok_prefix (os st) cs)
        by apply ok_prefix_written.
      rewrite Ha, Hp.
      assert (Hacc : forall l, sent_to mesg l st1 = sent_to mesg (c :: l) st).
      { intros l. unfold sent_to, st1, deliveries. simpl.
        rewrite <- app_assoc. reflexivity. }
      rewrite !Hacc. simpl. reflexivity.
    + run (sys_write_fail _ mesg st Hok).
      run (server_get_client_in i st ltac:(lia)).
      run (load_in i c st Hi Hc).
      unfold bind at 1, check_fail at 1. simpl.
      unfold sent_to, deliveries. simpl. rewrite app_nil_r.
      destruct st as [? []]; reflexivity.
Qed.

Lemma all_ok_prefix (o : os_t) (pre post : list client_t) (c : client_t) :
  all_ok o pre = true -> write_ok o (to_client_fd c) = false ->
  all_ok o (pre ++ c :: post) = false /\ ok_prefix o (pre ++ c :: post) = pre.
Proof.
  intros Hpre Hc. induction pre as [|x pre IH]; simpl in *.
  - rewrite Hc. split; reflexivity.
  - apply andb_prop in Hpre as [Hx Hpre]. rewrite Hx. simpl.
    destruct (IH Hpre) as [-> ->]. split; reflexivity.
Qed.

(** C8, amended: server_broadcast writes the message to the live clients'
    to_client_fd in table order.  When every write succeeds all of them
    receive it and the function returns.  When the write to one client
    fails, check_fail ends the process there: the clients in front of it
    have received the message, the ones behind it have not. *)
Theorem server_broadcast_stops_at_failure (mesg : mesg_t) (st : state) :
  0 < sizeof_mesg_t ->
  n_clients (srv st) <= Z.of_nat (length (client (srv st))) ->
  let live := take (Z.to_nat (n_clients (srv st))) (client (srv st)) in
  (all_ok (os st) live = true ->
     server_broadcast mesg st = Done tt (sent_to mesg live st)) /\
  (forall pre c post,
     live = pre ++ c :: post ->
     all_ok (os st) pre = true ->
     write_ok (os st) (to_client_fd c) = false ->
     server_broadcast mesg st = Exit (sent_to mesg pre st)).
Proof.
  intros Hsz Hlen live.
  assert (Hrun : server_broadcast mesg st =
                 if all_ok (os st) live then Done tt (sent_to mesg live st)
                 else Exit (sent_to mesg (ok_prefix (os st) live) st)).
  { unfold server_broadcast, for_lt.
    replace (Z.to_nat (n_clients (srv st) - 0)) with (length live)
      by (subst live; rewrite length_take; lia).
    apply (broadcast_loop mesg live 0 st Hsz); [lia | exact Hlen | reflexivity]. }
  split.
  - intros Hall. rewrite Hrun, Hall. reflexivity.
  - intros pre c post Hsplit Hpre Hc. rewrite Hrun, Hsplit.
    destruct (all_ok_prefix (os st) pre post c Hpre Hc) as [-> ->]. reflexivity.
Qed.

End fan_out.

(** ** The functions on the worked inputs *)

(** Settles a conjunction of closed equations by evaluation. *)
Ltac evaluate :=
  repeat match goal with |- _ /\ _ => split end; vm_compute; reflexivity.

(** server_start names the join FIFO after the server, with ".fifo"
    appended, and opens it on the first free descriptor. *)
Example server_start_makes_join_fifo :
  exists st',
    server_start "chat" 0 boot = Done tt st' /\
    files (os st') = ["chat.fifo"] /\
    join_fd (srv st') = 3 /\
    server_name (srv st') = "chat".
Proof. exists (final (server_start "chat" 0 boot)). evaluate. Qed.

(** C1 (not met by the code): server_handle_join takes carol's join record
    out of the join FIFO and clears join_ready, and that is all: it never
    calls server_add_client, so the table still holds alice alone and no
    JOINED message is written. *)
Theorem server_handle_join_adds_nobody :
  exists st',
    server_handle_join (H := example_h) carol_waiting = Done tt st' /\
    join_in (os st') = [] /\
    join_ready (srv st') = 0 /\
    n_clients (srv st') = 1 /\
    client (srv st') = client (srv carol_waiting) /\
    written (os st') = [].
Proof. exists (final (server_handle_join (H := example_h) carol_waiting)). evaluate. Qed.

(** C2 (not met by the code): the labels in the switch of
    server_handle_client lack the keyword case, so a MESG record goes to
    default: alice's "hi" is read and nothing is written to alice or bob. *)
Theorem server_handle_client_mesg_not_broadcast :
  exists st',
    server_handle_client (H := example_h) 0 alice_spoke = Done tt st' /\
    mesg_in (os st') = [] /\
    written (os st') = [].
Proof. exists (final (server_handle_client (H := example_h) 0 alice_spoke)). evaluate. Qed.

(** C3 (not met by the code): with one live client server_check_sources
    hands poll the count POLLIN = 1 instead of 2, puts log_fd in slot 1
    and the descriptor of client[2] in slot 2; alice's to_server_fd (5) is
    in no slot.  With only alice's FIFO readable the call blocks; with the
    join FIFO readable too it returns and alice's data_ready stays 0. *)
Theorem server_check_sources_poll_arguments :
  (exists st',
     server_check_sources (H := example_h) alice_alone_spoke = Hang st' /\
     polled (os st') =
       [([watch 3; watch 0; watch 0; zero_pollfd; zero_pollfd; zero_pollfd], 1)]) /\
  (exists st',
     server_check_sources (H := example_h) alice_spoke_carol_waiting = Done tt st' /\
     polled (os st') =
       [([watch 3; watch 0; watch 0; zero_pollfd; zero_pollfd; zero_pollfd], 1)] /\
     join_ready (srv st') = 1 /\
     data_ready <$> client (srv st') = [0; 0; 0; 0]).
Proof.
  split.
  - exists (final (server_check_sources (H := example_h) alice_alone_spoke)). evaluate.
  - exists (final (server_check_sources (H := example_h) alice_spoke_carol_waiting)).
    evaluate.
Qed.

(** C4 (not met by the code): after server_shutdown with alice and bob
    connected, SHUTDOWN has been written to both, but bob is still in the
    table (n_clients is 1) and the join FIFO chat.fifo is still in the
    file system: the loop skips every other client and remove() is given
    the server name without ".fifo". *)
Theorem server_shutdown_leaves_client_and_fifo :
  exists st',
    server_shutdown (H := example_h) two_clients = Done tt st' /\
    written (os st') = [(4, set_kind BL_SHUTDOWN zero_mesg);
                        (6, set_kind BL_SHUTDOWN zero_mesg)] /\
    n_clients (srv st') = 1 /\
    take 1 (client (srv st')) = [bob] /\
    files (os st') = ["chat.fifo"; "200.client.fifo"; "200.server.fifo";
                      "300.client.fifo"; "300.server.fifo"].
Proof. exists (final (server_shutdown (H := example_h) two_clients)). evaluate. Qed.

(** One pass of the main loop with carol's join waiting and alice's "hi"
    unread: the join record is consumed and carol is not in the table,
    "hi" stays in alice's FIFO, and nothing is written to anyone. *)
Example main_loop_pass_serves_nobody :
  exists st',
    main_loop_pass (H := example_h) alice_spoke_carol_waiting = Done tt st' /\
    join_in (os st') = [] /\
    n_clients (srv st') = 1 /\
    mesg_in (os st') = [(5, hi)] /\
    written (os st') = [].
Proof.
  exists (final (main_loop_pass (H := example_h) alice_spoke_carol_waiting)). evaluate.
Qed.

(** C5 as stated fails: close() on alice's to_client_fd reports an error,
    server_remove_client returns -1 and the table is as before; the record
    at index 0 is not removed and n_clients is not decremented. *)
Lemma server_remove_client_close_failure :
  0 <= 0 < n_clients (srv alice_close_fails) /\
  exists st',
    server_remove_client 0 alice_close_fails = Done (-1) st' /\
    srv st' = srv alice_close_fails /\
    n_clients (srv st') <> n_clients (srv alice_close_fails) - 1.
Proof.
  split; [simpl; lia|].
  exists (final (server_remove_client 0 alice_close_fails)).
  split; [vm_compute; reflexivity|]. split; [vm_compute; reflexivity|].
  vm_compute. discriminate.
Qed.

(** C5, amended, for alice leaving while bob stays. *)
Lemma server_remove_client_shifts_alice :
  exists st',
    server_remove_client 0 two_clients = Done 0 st' /\
    n_clients (srv st') = n_clients (srv two_clients) - 1 /\
    take (Z.to_nat (n_clients (srv st'))) (client (srv st')) =
      delete (Z.to_nat 0) (take (Z.to_nat (n_clients (srv two_clients)))
                                (client (srv two_clients))).
Proof.
  destruct (server_remove_client_shifts 0 two_clients alice)
    as [Hok _].
  - simpl. lia.
  - simpl. lia.
  - reflexivity.
  - apply Hok. reflexivity.
Defined.

(** C6 for carol joining alice and bob, then alice being removed. *)
Lemma n_clients_bounded_example :
  n_clients_ok (H := example_h)
    (final (server_remove_client 0
              (final (server_add_client (H := example_h) carol_join two_clients)))).
Proof.
  apply (n_clients_bounded (H := example_h) [Add carol_join; Remove 0] two_clients).
  - unfold n_clients_ok. simpl. lia.
  - reflexivity.
Defined.

(** C7 for carol asking to join a full table. *)
Lemma server_add_client_full_house :
  exists r, server_add_client (H := example_h) carol_join full_house = Done r full_house
            /\ r <> 0.
Proof. apply (server_add_client_full (H := example_h)). reflexivity. Defined.

(** C8 as stated fails: the write to alice fails, the process ends there
    and bob, whose descriptor is fine, is written nothing. *)
Lemma server_broadcast_write_failure :
  write_ok (os alice_write_fails) (to_client_fd bob) = true /\
  exists st',
    server_broadcast (H := example_h) hi alice_write_fails = Exit st' /\
    written (os st') = [].
Proof.
  split; [reflexivity|].
  exists (final (server_broadcast (H := example_h) hi alice_write_fails)). evaluate.
Qed.

(** C8, amended, for a message that reaches alice and bob. *)
Lemma server_broadcast_reaches_both :
  server_broadcast (H := example_h) hi two_clients =
  Done tt (sent_to hi [alice; bob] two_clients).
Proof.
  destruct (server_broadcast_stops_at_failure (H := example_h) hi two_clients)
    as [Hall _].
  - simpl. lia.
  - simpl. lia.
  - apply Hall. reflexivity.
Defined.

(** C10 for index 2 of a table of two. *)
Lemma server_remove_client_out_of_range_example :
  exists r, server_remove_client 2 two_clients = Done r two_clients
            /\ r <> 0.
Proof.
  apply (server_remove_client_out_of_range). simpl. lia.
Defined.

(** ** The log commands of the client *)

Section log_commands.
Import bl_client.
Context `{blather_h}.

Lemma digit_of_pretty_char (d : N) :
  (d < 10)%N -> digit_of (pretty_N_char d) = Some (Z.of_N d).
Proof.
  intros Hd.
  assert (d = 0 \/ d = 1 \/ d = 2 \/ d = 3 \/ d = 4 \/
          d = 5 \/ d = 6 \/ d = 7 \/ d = 8 \/ d = 9)%N as Hcases by lia.
  repeat (destruct Hcases as [->|Hcases]; [reflexivity|]). subst d. reflexivity.
Qed.

Lemma pretty_char_plain (d : N) :
  (d < 10)%N ->
  isspace (pretty_N_char d) = false /\
  pretty_N_char d <> "-"%char /\ pretty_N_char d <> "+"%char.
Proof.
  intros Hd.
  assert (d = 0 \/ d = 1 \/ d = 2 \/ d = 3 \/ d = 4 \/
          d = 5 \/ d = 6 \/ d = 7 \/ d = 8 \/ d = 9)%N as Hcases by lia.
  repeat (destruct Hcases as [->|Hcases]; [repeat split; discriminate|]).
  subst d. repeat split; discriminate.
Qed.

(** Reading back the digits that [pretty_N_go] puts in front of [s]. *)
Lemma atoi_digits_pretty_N_go (x : N) :
  exists p : Z, forall (s : string) (acc : Z),
    atoi_digits (pretty_N_go x s) acc = atoi_digits s (acc * p + Z.of_N x).
Proof.
  induction (N.lt_wf_0 x) as [x _ IH].
  destruct (N.eq_dec x 0%N) as [->|Hx].
  - exists 1. intros s acc. rewrite pretty_N_go_0. f_equal. lia.
  - destruct (IH (x `div` 10)%N) as [p Hp]; [apply N.div_lt; lia|].
    exists (10 * p). intros s acc.
    rewrite pretty_N_go_step by lia. rewrite Hp. cbn [atoi_digits].
    rewrite digit_of_pretty_char by (apply N.mod_lt; lia).
    f_equal. rewrite N2Z.inj_mod, N2Z.inj_div.
    change (Z.of_N 10) with 10.
    pose proof (Z.div_mod (Z.of_N x) 10 ltac:(lia)). lia.
Qed.

Lemma pretty_N_go_head (x : N) (s : string) :
  (0 < x)%N ->
  exists d tail, (d < 10)%N /\ pretty_N_go x s = String (pretty_N_char d) tail.
Proof.
  revert s. induction (N.lt_wf_0 x) as [x _ IH]. intros s Hx.
  rewrite pretty_N_go_step by assumption.
  destruct (N.eq_dec (x `div` 10)%N 0%N) as [E|E].
  - rewrite E, pretty_N_go_0. exists (x `mod` 10)%N, s.
    split; [apply N.mod_lt; lia | reflexivity].
  - apply IH; [apply N.div_lt; lia | apply N.neq_0_lt_0; exact E].
Qed.

Lemma pretty_N_go_app (x : N) (s r : string) :
  pretty_N_go x s +:+ r = pretty_N_go x (s +:+ r).
Proof.
  revert s. induction (N.lt_wf_0 x) as [x _ IH]. intros s.
  destruct (N.eq_dec x 0%N) as [->|Hx].
  - rewrite !pretty_N_go_0. reflexivity.
  - rewrite (pretty_N_go_step x s), (pretty_N_go_step x (s +:+ r)) by lia.
    rewrite IH by (apply N.div_lt; lia). reflexivity.
Qed.

Lemma atoi_digits_stop (rest : string) (acc : Z) :
  no_digit_ahead rest -> atoi_digits rest acc = acc.
Proof. destruct rest as [|ch rest]; simpl; [reflexivity|]. intros ->. reflexivity. Qed.

Lemma to_int_small (z : Z) : - 2 ^ 31 <= z <= INT_MAX -> to_int z = z.
Proof. unfold to_int, INT_MAX. intros Hz. rewrite Z.mod_small; lia. Qed.

Lemma to_long_small (z : Z) : - 2 ^ 63 <= z <= LONG_MAX -> to_long z = z.
Proof. unfold to_long, LONG_MAX. intros Hz. rewrite Z.mod_small; lia. Qed.

Lemma atoi_unsigned (ch : ascii) (tail : string) :
  isspace ch = false -> ch <> "-"%char -> ch <> "+"%char ->
  atoi (String ch tail) = to_int (atoi_digits (String ch tail) 0).
Proof.
  intros Hsp Hminus Hplus. unfold atoi. cbn [skip_spaces]. rewrite Hsp.
  destruct ch as [[] [] [] [] [] [] [] []]; try reflexivity; congruence.
Qed.

(** [atoi] reads back a number of [int] range printed in decimal. *)
Lemma atoi_pretty (N : Z) (rest : string) :
  0 <= N <= INT_MAX -> no_digit_ahead rest -> atoi (pretty N +:+ rest) = N.
Proof.
  intros HN Hrest. destruct N as [|x|x]; [| |lia].
  - change (pretty 0 +:+ rest) with (String "0"%char rest).
    rewrite atoi_unsigned by (reflexivity || discriminate).
    change (atoi_digits (String "0"%char rest) 0) with (atoi_digits rest 0).
    rewrite atoi_digits_stop by assumption. reflexivity.
  - change (pretty (Z.pos x)) with (pretty_N_go (N.pos x) "").
    rewrite pretty_N_go_app. change ("" +:+ rest) with rest.
    destruct (pretty_N_go_head (N.pos x) rest) as (d & tail & Hd & E); [lia|].
    destruct (pretty_char_plain d Hd) as (Hsp & Hminus & Hplus).
    rewrite E, atoi_unsigned by assumption. rewrite <- E.
    destruct (atoi_digits_pretty_N_go (N.pos x)) as [p Hp].
    rewrite Hp, atoi_digits_stop by assumption.
    apply to_int_small. unfold INT_MAX in *. lia.
Qed.

Lemma pread_mesg_record (l : log_t) (k : nat) (m : mesg_t) (buf : option mesg_t) :
  0 < sizeof_mesg_t -> 0 <= sizeof_who_t ->
  mesgs l !! k = Some m ->
  pread_mesg l (record_offset k) buf = Some m.
Proof.
  intros Hsz Hwho Hm. unfold pread_mesg, record_offset, log_size.
  assert (Hk : (k < length (mesgs l))%nat) by (apply lookup_lt_is_Some; eauto).
  destruct (Z.ltb_spec (sizeof_who_t + Z.of_nat k * sizeof_mesg_t) 0); [nia|].
  destruct (Z.leb_spec (sizeof_who_t + Z.of_nat (length (mesgs l)) * sizeof_mesg_t)
              (sizeof_who_t + Z.of_nat k * sizeof_mesg_t)); [nia|].
  cbn [orb].
  replace (sizeof_who_t + Z.of_nat k * sizeof_mesg_t - sizeof_who_t)
    with (Z.of_nat k * sizeof_mesg_t) by lia.
  rewrite Z.mod_mul, Z.div_mul by lia.
  destruct (Z.leb_spec 0 (Z.of_nat k * sizeof_mesg_t)); [|nia].
  cbn. rewrite Nat2Z.id. exact Hm.
Qed.

(** The loop of the ["%last"] branch once its offset is at record [k]:
    it prints the records from [k] to the end of the log. *)
Lemma last_loop (num : Z) (ms : list mesg_t) :
  forall (k : nat) (p : proc) (buf : option mesg_t),
  0 < sizeof_mesg_t -> 0 <= sizeof_who_t -> log_size (log p) <= LONG_MAX ->
  drop k (mesgs (log p)) = ms ->
  exists a,
    for_loop (length ms) (num - Z.of_nat (length ms)) (fun i _ => i <? num) last_body
      (record_offset k, buf) p =
    Done a (set_screen (screen p ++ map render ms) p).
Proof.
  induction ms as [|m ms IH]; intros k p buf Hsz Hwho Hmax Hms.
  - exists (record_offset k, buf).
    rewrite for_loop_stop by (apply Z.ltb_ge; simpl; lia).
    simpl. rewrite app_nil_r. destruct p; reflexivity.
  - assert (Hm : mesgs (log p) !! k = Some m).
    { rewrite <- (Nat.add_0_r k), <- lookup_drop, Hms. reflexivity. }
    rewrite (drop_S _ m) in Hms by exact Hm. injection Hms as Hms.
    assert (Hk : (k < length (mesgs (log p)))%nat) by (apply lookup_lt_is_Some; eauto).
    change (length (m :: ms)) with (Datatypes.S (length ms)).
    rewrite for_loop_step by (apply Z.ltb_lt; lia).
    unfold last_body at 1.
    run (eq_refl : gets log p = Done (log p) p).
    rewrite (pread_mesg_record (log p) k m) by assumption.
    cbn [iprintf_mesg]. unfold iprintf.
    run (eq_refl : modify (fun q => set_screen (screen q ++ [render m]) q) p
                   = Done tt (set_screen (screen p ++ [render m]) p)).
    unfold bind at 1, ret at 1.
    set (p1 := set_screen _ p).
    assert (Hoff : to_long (record_offset k + sizeof_mesg_t)
                   = record_offset (Datatypes.S k)).
    { unfold record_offset. rewrite to_long_small.
      - lia.
      - unfold log_size in Hmax. unfold LONG_MAX in *. nia. }
    rewrite Hoff.
    replace (num - Z.of_nat (Datatypes.S (length ms)) + 1)
      with (num - Z.of_nat (length ms)) by lia.
    destruct (IH (Datatypes.S k) p1 (Some m) Hsz Hwho Hmax Hms) as [a Ha].
    exists a. rewrite Ha. unfold p1. simpl. rewrite <- app_assoc. reflexivity.
Qed.

(** C9: in advanced mode, on a line "%last N" (N in decimal, within int)
    with at least N message records in the append region of the log, the
    input worker prints, between its two rules and under the heading
    "LAST N MESSAGES", exactly the last N records in their order in the
    log, each as "[name] : body", and sends nothing to the server. *)
Theorem last_n_lists_tail (p : proc) (N : Z) (rest : string) :
  0 < sizeof_mesg_t -> 0 <= sizeof_who_t -> log_size (log p) <= LONG_MAX ->
  DO_ADVANCED p <> 0 ->
  0 <= N <= INT_MAX ->
  N <= Z.of_nat (length (mesgs (log p))) ->
  no_digit_ahead rest ->
  user_worker ("%last " +:+ pretty N +:+ rest) false p =
  Done false
    (set_screen
       (screen p ++ [Line rule; Line ("LAST " +:+ pretty N +:+ " MESSAGES" +:+ nl)]
        ++ map render (drop (length (mesgs (log p)) - Z.to_nat N) (mesgs (log p)))
        ++ [Line rule]) p).
Proof.
  intros Hsz Hwho Hmax Hadv HN Hlen Hrest.
  unfold user_worker.
  run (eq_refl : gets DO_ADVANCED p = Done (DO_ADVANCED p) p).
  replace (DO_ADVANCED p =? 0) with false by (symmetry; apply Z.eqb_neq; exact Hadv).
  change (starts_with "%who" ("%last " +:+ pretty N +:+ rest)) with false.
  change (starts_with "%last" ("%last " +:+ pretty N +:+ rest)) with true.
  change (advance 6 ("%last " +:+ pretty N +:+ rest)) with (pretty N +:+ rest).
  rewrite atoi_pretty by assumption.
  cbn [negb andb].
  unfold iprintf at 1.
  run (eq_refl : modify (fun q => set_screen (screen q ++ [Line rule]) q) p
                 = Done tt (set_screen (screen p ++ [Line rule]) p)).
  set (p1 := set_screen _ p).
  run (eq_refl : gets (fun q => log_size (log q)) p1 = Done (log_size (log p)) p1).
  assert (Hpos : 0 <= log_size (log p)) by (unfold log_size; nia).
  replace (log_size (log p) =? -1) with false by (symmetry; apply Z.eqb_neq; lia).
  run (eq_refl : check_fail false p1 = Done tt p1).
  unfold iprintf at 1.
  run (eq_refl : modify (fun q => set_screen
                   (screen q ++ [Line ("LAST " +:+ pretty N +:+ " MESSAGES" +:+ nl)]) q) p1
                 = Done tt (set_screen
                   (screen p1 ++ [Line ("LAST " +:+ pretty N +:+ " MESSAGES" +:+ nl)]) p1)).
  set (p2 := set_screen _ p1).
  set (k := (length (mesgs (log p)) - Z.to_nat N)%nat).
  assert (Hoff : to_long (log_size (log p) - N * sizeof_mesg_t) = record_offset k).
  { unfold record_offset, log_size, k. rewrite to_long_small.
    - rewrite Nat2Z.inj_sub by lia. rewrite Z2Nat.id by lia. lia.
    - unfold log_size in Hmax. unfold LONG_MAX in *. nia. }
  rewrite Hoff.
  assert (Hms : length (drop k (mesgs (log p2))) = Z.to_nat N).
  { rewrite length_drop. unfold k. simpl. lia. }
  destruct (last_loop N (drop k (mesgs (log p2))) k p2 None Hsz Hwho Hmax eq_refl)
    as [a Ha].
  rewrite Hms in Ha. replace (N - Z.of_nat (Z.to_nat N)) with 0 in Ha by lia.
  rewrite ?bind_assoc. unfold for_lt at 1. unfold bind at 1.
  replace (Z.to_nat (N - 0)) with (Z.to_nat N) by lia.
  change (fun (_ : Z) '(offset0, mesg) =>
            l <- gets log ;; iprintf_mesg (pread_mesg l offset0 mesg) ;;
            ret (to_long (offset0 + sizeof_mesg_t), pread_mesg l offset0 mesg))
    with last_body.
  rewrite Ha. unfold iprintf, bind, modify, ret. simpl.
  rewrite <- !app_assoc. reflexivity.
Qed.

End log_commands.

(** C9 for "%last 3" typed after four messages. *)
Lemma last_three_of_four :
  bl_client.user_worker (H := example_h) "%last 3" false four_in_log =
  Done false
    (bl_client.set_screen
       [bl_client.Line bl_client.rule;
        bl_client.Line ("LAST 3 MESSAGES" +:+ bl_client.nl);
        bl_client.render (said "bob" "two");
        bl_client.render (said "alice" "three");
        bl_client.render (said "bob" "four");
        bl_client.Line bl_client.rule]
       four_in_log).
Proof.
  apply (last_n_lists_tail (H := example_h) four_in_log 3 "").
  - reflexivity.
  - discriminate.
  - discriminate.
  - discriminate.
  - split; discriminate.
  - discriminate.
  - exact I.
Defined.

(** ** More rules for loops and arrays *)

Lemma bind_gets {S A B} (g : S -> A) (k : A -> M S B) (st : S) :
  bind (gets g) k st = k (g st) st.
Proof. reflexivity. Qed.

(** A loop whose body keeps [I] ends in a state where [I] holds, and a
    body that does not return leaves [R]. *)
Lemma post_for_loop {S A} (I : Z -> A -> S -> Prop) (R : S -> Prop)
    (cond : Z -> S -> bool) (body : Z -> A -> M S A) :
  (forall i a st, I i a st -> cond i st = true -> post (I (i + 1)) R (body i a st)) ->
  (forall i a st, I i a st -> R st) ->
  forall fuel i a st, I i a st ->
    post (fun a' st' => exists j, I j a' st') R (for_loop fuel i cond body a st).
Proof.
  intros Hbody HR fuel. induction fuel as [|k IH]; intros i a st HI; simpl.
  - destruct (cond i st); simpl; eauto.
  - destruct (cond i st) eqn:E; simpl; [|eauto].
    apply post_bind. eapply post_conseq; [apply (Hbody _ _ _ HI E) | |]; cbv beta; auto.
Qed.



Lemma post_arr_get {S A} (a : list A) (i : Z) (st : S)
    (K : A -> S -> Prop) (R : S -> Prop) :
  R st -> (forall x, 0 <= i -> a !! Z.to_nat i = Some x -> K x st) ->
  post K R (arr_get a i st).
Proof.
  intros HR HK. unfold arr_get.
  destruct (Z.ltb_spec i 0); [exact HR|].
  destruct (a !! Z.to_nat i) as [x|] eqn:E; [|exact HR].
  apply HK; [lia | reflexivity].
Qed.

Lemma post_arr_upd {S A} (P : A -> Prop) (a : list A) (i : Z) (f : A -> A) (st : S)
    (K : list A -> S -> Prop) (R : S -> Prop) :
  Forall P a -> (forall x, P x -> P (f x)) -> R st ->
  (forall a', Forall P a' -> K a' st) -> post K R (arr_upd a i f st).
Proof.
  intros Ha Hf HR HK. unfold arr_upd.
  destruct (i <? 0); [exact HR|].
  destruct (a !! Z.to_nat i) as [x|] eqn:E; [|exact HR].
  apply HK, Forall_insert; [assumption|].
  apply Hf. exact (proj1 (Forall_lookup _ _) Ha _ _ E).
Qed.

Lemma post_load (p : Z) (st : state) (K : client_t -> state -> Prop) (R : state -> Prop) :
  R st -> (forall c, K c st) -> post K R (load p st).
Proof.
  intros HR HK. unfold load. rewrite bind_gets. unfold arr_get.
  repeat case_match; simpl; auto.
Qed.


(** ** Further properties of the server *)

(** *** What the system calls do *)

Lemma lowest_free_fresh (used : list Z) : lowest_free used ∉ used.
Proof.
  unfold lowest_free.
  destruct (List.find _ _) as [k|] eqn:E; simpl.
  - apply find_some in E as [_ E]. apply negb_true_iff in E.
    apply bool_decide_eq_false in E. exact E.
  - intros Hin.
    assert (Hall : forall x, x ∈ seqZ 0 (Z.of_nat (length used)) -> x ∈ used).
    { intros x Hx. apply list_elem_of_In in Hx.
      pose proof (find_none _ _ E x Hx) as Hn. cbv beta in Hn.
      apply negb_false_iff, bool_decide_eq_true in Hn. exact Hn. }
    pose proof (NoDup_submseteq _ _ (NoDup_seqZ 0 (Z.of_nat (length used))) Hall) as Hsub.
    apply submseteq_length_Permutation in Hsub; [|rewrite length_seqZ; lia].
    apply list_elem_of_In in Hin.
    apply (Permutation_in _ (Permutation_sym Hsub)) in Hin.
    apply list_elem_of_In, elem_of_seqZ in Hin. lia.
Qed.

Lemma lowest_free_nonneg (used : list Z) : 0 <= lowest_free used.
Proof.
  unfold lowest_free.
  destruct (List.find _ _) as [k|] eqn:E; simpl; [|lia].
  apply find_some in E as [E _]. apply list_elem_of_In, elem_of_seqZ in E. lia.
Qed.

Lemma sys_open_done (path : string) (st : state) :
  path ∈ files (os st) ->
  sys_open path st =
  Done (lowest_free (open_fds (os st)))
       (on_os (set_open_fds (lowest_free (open_fds (os st)) :: open_fds (os st))) st).
Proof. intros Hin. unfold sys_open. rewrite bool_decide_eq_true_2 by exact Hin. reflexivity. Qed.

Lemma sys_open_missing (path : string) (st : state) :
  path ∉ files (os st) -> sys_open path st = Done (-1) st.
Proof. intros Hin. unfold sys_open. rewrite bool_decide_eq_false_2 by exact Hin. reflexivity. Qed.

Lemma without_path_absent (path : string) (l : list string) :
  path ∉ l -> without_path path l = l.
Proof.
  intros Hout. unfold without_path. induction l as [|p l IH]; [reflexivity|].
  apply not_elem_of_cons in Hout as [Hne Hout]. simpl.
  destruct (String.eqb_spec p path); [congruence|]. simpl. rewrite IH by exact Hout.
  reflexivity.
Qed.

Lemma elem_of_without_path (path q : string) (l : list string) :
  q ∈ without_path path l <-> q ∈ l /\ q <> path.
Proof.
  unfold without_path. rewrite !list_elem_of_In, filter_In.
  destruct (String.eqb_spec q path); simpl; intuition congruence.
Qed.

Lemma elem_of_without_fd (d x : Z) (l : list Z) :
  x ∈ without_fd d l <-> x ∈ l /\ x <> d.
Proof.
  unfold without_fd. rewrite !list_elem_of_In, filter_In.
  destruct (Z.eqb_spec x d); simpl; intuition congruence.
Qed.

Lemma sys_remove_run (path : string) (st : state) :
  exists r, sys_remove path st =
            Done r (on_os (set_files (without_path path (files (os st)))) st).
Proof.
  unfold sys_remove. destruct (decide (path ∈ files (os st))) as [Hin|Hout].
  - rewrite bool_decide_eq_true_2 by exact Hin. eexists. reflexivity.
  - rewrite bool_decide_eq_false_2 by exact Hout. exists (-1).
    rewrite without_path_absent by exact Hout.
    destruct st as [s []]. reflexivity.
Qed.

Lemma without_fd_fresh (d : Z) (l : list Z) : d ∉ l -> without_fd d l = l.
Proof.
  intros Hout. unfold without_fd. induction l as [|x l IH]; [reflexivity|].
  apply not_elem_of_cons in Hout as [Hne Hout]. simpl.
  destruct (Z.eqb_spec x d); [congruence|]. simpl. rewrite IH by exact Hout. reflexivity.
Qed.

Lemma sys_close_unknown (d : Z) (st : state) :
  d ∉ open_fds (os st) -> sys_close d st = Done (-1) st.
Proof. intros Hd. unfold sys_close. rewrite bool_decide_eq_false_2 by exact Hd. reflexivity. Qed.

(** *** server_start *)

Section starting.
Context `{blather_h}.


End starting.

(** *** server_add_client *)

Section joining.
Context `{blather_h}.

Lemma server_broadcast_run (mesg : mesg_t) (st : state) :
  0 < sizeof_mesg_t ->
  n_clients (srv st) <= Z.of_nat (length (client (srv st))) ->
  server_broadcast mesg st =
  let live := take (Z.to_nat (n_clients (srv st))) (client (srv st)) in
  if all_ok (os st) live then Done tt (sent_to mesg live st)
  else Exit (sent_to mesg (ok_prefix (os st) live) st).
Proof.
  intros Hsz Hlen. cbv zeta. unfold server_broadcast, for_lt.
  replace (Z.to_nat (n_clients (srv st) - 0))
    with (length (take (Z.to_nat (n_clients (srv st))) (client (srv st))))
    by (rewrite length_take; lia).
  apply (broadcast_loop mesg _ 0 st Hsz); [lia | exact Hlen | reflexivity].
Qed.

Lemma all_ok_intro (o : os_t) (cs : list client_t) :
  wr_err o = [] -> (forall c, c ∈ cs -> to_client_fd c ∈ open_fds o) -> all_ok o cs = true.
Proof.
  intros Hwr Hopen. unfold all_ok. apply forallb_forall. intros c Hc.
  apply list_elem_of_In in Hc. unfold write_ok. rewrite Hwr.
  rewrite bool_decide_eq_true_2 by (apply Hopen; exact Hc). reflexivity.
Qed.

(** The state server_add_client reaches when both FIFOs open. *)
Lemma server_add_client_run (join : join_t) (st : state) :
  0 < sizeof_mesg_t ->
  0 <= n_clients (srv st) < MAXCLIENTS ->
  n_clients (srv st) < Z.of_nat (length (client (srv st))) ->
  join_to_client_fname join ∈ files (os st) ->
  join_to_server_fname join ∈ files (os st) ->
  wr_err (os st) = [] ->
  (forall c, c ∈ take (Z.to_nat (n_clients (srv st))) (client (srv st)) ->
             to_client_fd c ∈ open_fds (os st)) ->
  let d1 := lowest_free (open_fds (os st)) in
  let d2 := lowest_free (d1 :: open_fds (os st)) in
  let new := joined_client join d1 d2 (clock (os st)) in
  let table := <[Z.to_nat (n_clients (srv st)) := new]> (client (srv st)) in
  server_add_client join st =
  Done 0 (sent_to (joined_mesg join) (take (Z.to_nat (n_clients (srv st) + 1)) table)
            {| srv := set_n_clients (n_clients (srv st) + 1) (set_client table (srv st));
               os := set_open_fds (d2 :: d1 :: open_fds (os st)) (os st) |}).
Proof.
  intros Hsz Hn Hcap Hf1 Hf2 Hwr Hopen d1 d2 new table.
  unfold server_add_client.
  run (eq_refl : gets (fun st => n_clients (srv st)) st = Done (n_clients (srv st)) st).
  destruct (Z.geb_spec (n_clients (srv st)) MAXCLIENTS); [lia|].
  run (eq_refl : sys_time st = Done (clock (os st)) st).
  cbn [to_client_fname set_last_contact_time set_to_server_fname set_to_client_fname set_name].
  run (sys_open_done _ st Hf1). fold d1.
  set (st1 := on_os _ st).
  cbn [to_client_fd set_to_client_fd].
  pose proof (lowest_free_nonneg (open_fds (os st))) as Hd1. fold d1 in Hd1.
  replace (d1 =? -1) with false by (symmetry; apply Z.eqb_neq; lia).
  run (eq_refl : check_fail false st1 = Done tt st1).
  cbn [to_server_fname set_to_client_fd set_last_contact_time set_to_server_fname].
  assert (Hf2' : join_to_server_fname join ∈ files (os st1)) by exact Hf2.
  run (sys_open_done _ st1 Hf2').
  change (lowest_free (open_fds (os st1))) with d2.
  set (st2 := on_os _ st1).
  cbn [to_server_fd set_to_server_fd].
  pose proof (lowest_free_nonneg (d1 :: open_fds (os st))) as Hd2. fold d2 in Hd2.
  replace (d2 =? -1) with false by (symmetry; apply Z.eqb_neq; lia).
  run (eq_refl : check_fail false st2 = Done tt st2).
  run (eq_refl : gets (fun st => n_clients (srv st)) st2 = Done (n_clients (srv st)) st2).
  destruct (lookup_lt_is_Some_2 (client (srv st)) (Z.to_nat (n_clients (srv st))))
    as [c0 Hc0]; [lia|].
  run (store_in (n_clients (srv st)) (fun _ => 
         set_to_server_fd d2 (set_to_client_fd d1 (set_last_contact_time (clock (os st))
           (set_to_server_fname (join_to_server_fname join)
             (set_to_client_fname (join_to_client_fname join)
               (set_name (join_name join) zero_client)))))) c0 st2 ltac:(lia) Hc0).
  set (st3 := on_srv _ st2).
  run (eq_refl : modify (on_srv (set_n_clients (n_clients (srv st) + 1))) st3
                 = Done tt (on_srv (set_n_clients (n_clients (srv st) + 1)) st3)).
  set (st4 := on_srv _ st3).
  unfold bind at 1.
  rewrite (server_broadcast_run _ st4 Hsz)
    by (simpl; rewrite length_insert; lia).
  cbv zeta.
  change (take (Z.to_nat (n_clients (srv st4))) (client (srv st4)))
    with (take (Z.to_nat (n_clients (srv st) + 1)) table).
  rewrite all_ok_intro; [reflexivity | exact Hwr |].
  intros c Hc. apply elem_of_take in Hc as (i & Hi & Hlt).
  change (open_fds (os st4)) with (d2 :: d1 :: open_fds (os st)).
  destruct (decide (i = Z.to_nat (n_clients (srv st)))) as [->|Hne].
  - unfold table in Hi. rewrite list_lookup_insert_eq in Hi by lia.
    injection Hi as <-. simpl. apply list_elem_of_further, list_elem_of_here.
  - unfold table in Hi. rewrite list_lookup_insert_ne in Hi by lia.
    do 2 apply list_elem_of_further. apply Hopen.
    apply elem_of_take. exists i. split; [exact Hi | lia].
Qed.

(** X2: when the table has room, both FIFOs named in the request exist and
    every write succeeds, server_add_client returns 0, stores at index
    n_clients the record made from the request (its names, two descriptors,
    data_ready 0, the current time), increments n_clients, and writes one
    JOINED record bearing the new name to every client of the new table,
    the newcomer included, in table order. *)
Theorem server_add_client_appends (join : join_t) (st : state) :
  0 < sizeof_mesg_t ->
  0 <= n_clients (srv st) < MAXCLIENTS ->
  n_clients (srv st) < Z.of_nat (length (client (srv st))) ->
  join_to_client_fname join ∈ files (os st) ->
  join_to_server_fname join ∈ files (os st) ->
  wr_err (os st) = [] ->
  (forall c, c ∈ take (Z.to_nat (n_clients (srv st))) (client (srv st)) ->
             to_client_fd c ∈ open_fds (os st)) ->
  exists d1 d2 st',
    server_add_client join st = Done 0 st' /\
    n_clients (srv st') = n_clients (srv st) + 1 /\
    client (srv st') =
      <[Z.to_nat (n_clients (srv st)) := joined_client join d1 d2 (clock (os st))]>
        (client (srv st)) /\
    written (os st') =
      written (os st) ++
      deliveries (joined_mesg join)
        (take (Z.to_nat (n_clients (srv st'))) (client (srv st'))).
Proof.
  intros Hsz Hn Hcap Hf1 Hf2 Hwr Hopen.
  eexists _, _, _. split.
  - apply server_add_client_run; assumption.
  - repeat split; reflexivity.
Qed.

(** X3: the two descriptors of the record server_add_client stores were
    not open before the call, differ from each other, and are open
    afterwards. *)
Theorem server_add_client_fresh_descriptors (join : join_t) (st : state) :
  0 < sizeof_mesg_t ->
  0 <= n_clients (srv st) < MAXCLIENTS ->
  n_clients (srv st) < Z.of_nat (length (client (srv st))) ->
  join_to_client_fname join ∈ files (os st) ->
  join_to_server_fname join ∈ files (os st) ->
  wr_err (os st) = [] ->
  (forall c, c ∈ take (Z.to_nat (n_clients (srv st))) (client (srv st)) ->
             to_client_fd c ∈ open_fds (os st)) ->
  exists c st',
    server_add_client join st = Done 0 st' /\
    client (srv st') !! Z.to_nat (n_clients (srv st)) = Some c /\
    (to_client_fd c ∉ open_fds (os st)) /\
    (to_server_fd c ∉ open_fds (os st)) /\
    to_client_fd c <> to_server_fd c /\
    to_client_fd c ∈ open_fds (os st') /\
    to_server_fd c ∈ open_fds (os st').
Proof.
  intros Hsz Hn Hcap Hf1 Hf2 Hwr Hopen.
  eexists _, _. split; [apply server_add_client_run; assumption|].
  pose proof (lowest_free_fresh (open_fds (os st))) as F1.
  pose proof (lowest_free_fresh (lowest_free (open_fds (os st)) :: open_fds (os st))) as F2.
  apply not_elem_of_cons in F2 as [F2 F3].
  split; [simpl; apply list_lookup_insert_eq; lia|].
  simpl. repeat split; try assumption.
  - congruence.
  - apply list_elem_of_further, list_elem_of_here.
  - apply list_elem_of_here.
Qed.

(** X4: when the table has room but one of the two FIFOs named in the
    request does not exist, the open fails and check_fail ends the
    process: no client is added and nothing is written to anyone. *)
Theorem server_add_client_missing_fifo (join : join_t) (st : state) :
  n_clients (srv st) < MAXCLIENTS ->
  (join_to_client_fname join ∉ files (os st)) \/ (join_to_server_fname join ∉ files (os st)) ->
  exists st',
    server_add_client join st = Exit st' /\
    srv st' = srv st /\
    written (os st') = written (os st).
Proof.
  intros Hn Hmiss. unfold server_add_client.
  run (eq_refl : gets (fun st => n_clients (srv st)) st = Done (n_clients (srv st)) st).
  destruct (Z.geb_spec (n_clients (srv st)) MAXCLIENTS); [lia|].
  run (eq_refl : sys_time st = Done (clock (os st)) st).
  cbn [to_client_fname set_last_contact_time set_to_server_fname set_to_client_fname set_name].
  destruct (decide (join_to_client_fname join ∈ files (os st))) as [Hf1|Hf1].
  - destruct Hmiss as [Hmiss|Hf2]; [contradiction|].
    run (sys_open_done _ st Hf1).
    set (st1 := on_os _ st).
    cbn [to_client_fd set_to_client_fd].
    pose proof (lowest_free_nonneg (open_fds (os st))) as Hd1.
    replace (lowest_free (open_fds (os st)) =? -1) with false
      by (symmetry; apply Z.eqb_neq; lia).
    run (eq_refl : check_fail false st1 = Done tt st1).
    cbn [to_server_fname set_to_client_fd set_last_contact_time set_to_server_fname].
    assert (Hf2' : join_to_server_fname join ∉ files (os st1)) by exact Hf2.
    run (sys_open_missing _ st1 Hf2').
    exists st1. split; [reflexivity|]. split; reflexivity.
  - run (sys_open_missing _ st Hf1).
    exists st. split; [reflexivity|]. split; reflexivity.
Qed.

End joining.

(** *** server_remove_client *)

(** server_remove_client when both descriptors close. *)
Lemma server_remove_client_success (idx : Z) (st : state) (c : client_t) :
  0 <= idx < n_clients (srv st) ->
  n_clients (srv st) <= Z.of_nat (length (client (srv st))) ->
  client (srv st) !! Z.to_nat idx = Some c ->
  both_close (os st) c = true ->
  exists l',
    server_remove_client idx st =
    Done 0 {| srv := set_n_clients (n_clients (srv st) - 1) (set_client l' (srv st));
              os := set_files (without_path (to_server_fname c)
                                 (without_path (to_client_fname c) (files (os st))))
                      (set_open_fds (without_fd (to_server_fd c)
                                       (without_fd (to_client_fd c) (open_fds (os st))))
                         (os st)) |} /\
    length l' = length (client (srv st)) /\
    take (Z.to_nat (n_clients (srv st) - 1)) l' =
      delete (Z.to_nat idx) (take (Z.to_nat (n_clients (srv st))) (client (srv st))).
Proof.
  intros Hidx Hlen Hc Hboth. unfold both_close in Hboth.
  apply andb_prop in Hboth as [Hboth Hne]. apply andb_prop in Hboth as [H1 H2].
  unfold server_remove_client.
  run (eq_refl : gets (fun st => n_clients (srv st)) st = Done _ st).
  destruct (Z.geb_spec idx (n_clients (srv st))); [lia|].
  run (server_get_client_in idx st ltac:(lia)).
  run (load_in idx c st ltac:(lia) Hc).
  run (sys_close_ok _ st H1). simpl (0 =? -1). cbv iota.
  set (st1 := on_os _ st).
  run (load_in idx c st1 ltac:(lia) Hc).
  assert (H2' : close_ok (os st1) (to_server_fd c) = true).
  { subst st1. rewrite close_ok_after, H2, Hne. reflexivity. }
  run (sys_close_ok _ st1 H2'). simpl (0 =? -1). cbv iota.
  set (st2 := on_os _ st1).
  run (load_in idx c st2 ltac:(lia) Hc).
  destruct (sys_remove_run (to_client_fname c) st2) as [r3 E3].
  run E3. set (st3 := on_os _ st2).
  run (load_in idx c st3 ltac:(lia) Hc).
  destruct (sys_remove_run (to_server_fname c) st3) as [r4 E4].
  run E4. set (st4 := on_os _ st3).
  destruct (shift_loop (Z.to_nat (n_clients (srv st4) - 1 - idx)) idx st4)
    as (l' & Hrun & Hl & Hin & Hout); [lia | simpl; lia | simpl; lia |].
  rewrite ?bind_assoc. unfold for_lt at 1. unfold bind at 1.
  change (fun (i : Z) (st' : state) => i <? n_clients (srv st') - 1) with shift_cond.
  change (fun (i : Z) (_ : ()) =>
            q <- server_get_client (i + 1) ;; c0 <- load q ;; store i (fun _ => c0))
    with shift_body.
  rewrite Hrun.
  exists l'. split; [reflexivity|]. split; [exact Hl|].
  simpl in Hin, Hout, Hl.
  apply list_eq. intros j. rewrite lookup_take.
  case_decide as Hj.
  - destruct (decide (j < Z.to_nat idx)%nat) as [Hlt|Hge].
    + rewrite list_lookup_delete_lt by assumption.
      rewrite lookup_take_lt by lia. apply Hout. lia.
    + rewrite list_lookup_delete_ge by lia.
      rewrite lookup_take_lt by lia. apply Hin. lia.
  - symmetry. apply lookup_ge_None_2.
    rewrite length_delete, length_take; [lia|].
    rewrite lookup_take_lt by lia. eauto.
Qed.

(** X5: a removal that succeeds closes the two descriptors of the removed
    client and unlinks its two FIFOs; every other descriptor and every
    other path is as before, and nothing is written to any client. *)
Theorem server_remove_client_closes_and_unlinks (idx : Z) (st : state) (c : client_t) :
  0 <= idx < n_clients (srv st) ->
  n_clients (srv st) <= Z.of_nat (length (client (srv st))) ->
  client (srv st) !! Z.to_nat idx = Some c ->
  both_close (os st) c = true ->
  exists st',
    server_remove_client idx st = Done 0 st' /\
    (to_client_fd c ∉ open_fds (os st')) /\
    (to_server_fd c ∉ open_fds (os st')) /\
    (to_client_fname c ∉ files (os st')) /\
    (to_server_fname c ∉ files (os st')) /\
    (forall d, d <> to_client_fd c -> d <> to_server_fd c ->
               (d ∈ open_fds (os st') <-> d ∈ open_fds (os st))) /\
    (forall p, p <> to_client_fname c -> p <> to_server_fname c ->
               (p ∈ files (os st') <-> p ∈ files (os st))) /\
    written (os st') = written (os st).
Proof.
  intros Hidx Hlen Hc Hboth.
  destruct (server_remove_client_success idx st c Hidx Hlen Hc Hboth) as (l' & Hrun & _).
  eexists. split; [exact Hrun|]. simpl.
  repeat split.
  - rewrite !elem_of_without_fd. tauto.
  - rewrite !elem_of_without_fd. tauto.
  - rewrite !elem_of_without_path. tauto.
  - rewrite !elem_of_without_path. tauto.
  - rewrite !elem_of_without_fd. tauto.
  - rewrite !elem_of_without_fd. tauto.
  - rewrite !elem_of_without_path. tauto.
  - rewrite !elem_of_without_path. tauto.
Qed.

(** X6: when the first close succeeds and the second fails (or both
    fields hold the same descriptor), server_remove_client returns -1 with
    the table unchanged and the client's FIFOs still in place, although
    to_client_fd is closed already; a second attempt to remove the same
    client then fails at the first close and changes nothing: the client
    can no longer be removed. *)
Theorem server_remove_client_half_closed (idx : Z) (st : state) (c : client_t) :
  0 <= idx < n_clients (srv st) ->
  client (srv st) !! Z.to_nat idx = Some c ->
  close_ok (os st) (to_client_fd c) = true ->
  close_ok (os st) (to_server_fd c) = false \/ to_client_fd c = to_server_fd c ->
  exists st',
    server_remove_client idx st = Done (-1) st' /\
    srv st' = srv st /\
    files (os st') = files (os st) /\
    (to_client_fd c ∉ open_fds (os st')) /\
    server_remove_client idx st' = Done (-1) st'.
Proof.
  intros Hidx Hc H1 H2.
  assert (Hhead : forall s, srv s = srv st ->
    server_remove_client idx s =
    bind (sys_close (to_client_fd c)) (fun r =>
      if r =? -1 then ret (-1) else
        c <- load idx ;; r <- sys_close (to_server_fd c) ;;
        if r =? -1 then ret (-1) else
          c <- load idx ;; sys_remove (to_client_fname c) ;;
          c <- load idx ;; sys_remove (to_server_fname c) ;;
          for_lt idx (fun st => n_clients (srv st) - 1) shift_body tt ;;
          n <- gets (fun st => n_clients (srv st)) ;;
          modify (on_srv (set_n_clients (n - 1))) ;; ret 0) s).
  { intros s Hs. unfold server_remove_client.
    run (eq_refl : gets (fun st => n_clients (srv st)) s = Done _ s).
    rewrite Hs.
    destruct (Z.geb_spec idx (n_clients (srv st))); [lia|].
    run (server_get_client_in idx s ltac:(rewrite Hs; lia)).
    run (load_in idx c s ltac:(lia) ltac:(rewrite Hs; exact Hc)).
    reflexivity. }
  rewrite (Hhead st eq_refl).
  run (sys_close_ok _ st H1). simpl (0 =? -1). cbv iota.
  set (st1 := on_os _ st).
  run (load_in idx c st1 ltac:(lia) Hc).
  assert (H2' : close_ok (os st1) (to_server_fd c) = false).
  { subst st1. rewrite close_ok_after. destruct H2 as [->| ->].
    - reflexivity.
    - rewrite Z.eqb_refl. apply andb_false_r. }
  assert (Hgone : to_client_fd c ∉ open_fds (os st1)).
  { change (to_client_fd c ∉ without_fd (to_client_fd c) (open_fds (os st))).
    rewrite elem_of_without_fd. tauto. }
  unfold close_ok in H2'. unfold sys_close at 1. unfold bind at 1.
  destruct (bool_decide (to_server_fd c ∈ open_fds (os st1))) eqn:Hopen2.
  - destruct (bool_decide (to_server_fd c ∈ cl_err (os st1))) eqn:Herr; [|discriminate].
    set (st2 := on_os _ st1). simpl.
    exists st2. split; [reflexivity|]. split; [reflexivity|]. split; [reflexivity|].
    assert (Hgone2 : to_client_fd c ∉ open_fds (os st2)).
    { change (to_client_fd c ∉ without_fd (to_server_fd c) (open_fds (os st1))).
      rewrite elem_of_without_fd. tauto. }
    split; [exact Hgone2|].
    rewrite (Hhead st2 eq_refl). run (sys_close_unknown _ st2 Hgone2). reflexivity.
  - simpl. exists st1. split; [reflexivity|]. split; [reflexivity|]. split; [reflexivity|].
    split; [exact Hgone|].
    rewrite (Hhead st1 eq_refl). run (sys_close_unknown _ st1 Hgone). reflexivity.
Qed.

Section round_trip.
Context `{blather_h}.

(** X7: adding a client and removing it again at the index it was given
    restores n_clients, the live part of the table and the set of open
    descriptors; of the file system only the newcomer's two FIFOs are
    gone. *)
Theorem server_add_then_remove (join : join_t) (st : state) :
  0 < sizeof_mesg_t ->
  0 <= n_clients (srv st) < MAXCLIENTS ->
  n_clients (srv st) < Z.of_nat (length (client (srv st))) ->
  join_to_client_fname join ∈ files (os st) ->
  join_to_server_fname join ∈ files (os st) ->
  wr_err (os st) = [] ->
  cl_err (os st) = [] ->
  (forall c, c ∈ take (Z.to_nat (n_clients (srv st))) (client (srv st)) ->
             to_client_fd c ∈ open_fds (os st)) ->
  exists st1 st2,
    server_add_client join st = Done 0 st1 /\
    server_remove_client (n_clients (srv st)) st1 = Done 0 st2 /\
    n_clients (srv st2) = n_clients (srv st) /\
    take (Z.to_nat (n_clients (srv st))) (client (srv st2)) =
      take (Z.to_nat (n_clients (srv st))) (client (srv st)) /\
    open_fds (os st2) = open_fds (os st) /\
    files (os st2) =
      without_path (join_to_server_fname join)
        (without_path (join_to_client_fname join) (files (os st))).
Proof.
  intros Hsz Hn Hcap Hf1 Hf2 Hwr Hcl Hopen.
  pose proof (server_add_client_run join st Hsz Hn Hcap Hf1 Hf2 Hwr Hopen) as Hadd.
  cbv zeta in Hadd.
  set (d1 := lowest_free (open_fds (os st))) in *.
  set (d2 := lowest_free (d1 :: open_fds (os st))) in *.
  set (new := joined_client join d1 d2 (clock (os st))) in *.
  set (table := <[Z.to_nat (n_clients (srv st)) := new]> (client (srv st))) in *.
  match type of Hadd with _ = Done 0 ?s => set (st1 := s) in * end.
  pose proof (lowest_free_fresh (open_fds (os st))) as F1. fold d1 in F1.
  pose proof (lowest_free_fresh (d1 :: open_fds (os st))) as F2. fold d2 in F2.
  apply not_elem_of_cons in F2 as [F2 F3].
  assert (Hnew : client (srv st1) !! Z.to_nat (n_clients (srv st)) = Some new).
  { simpl. unfold table. apply list_lookup_insert_eq. lia. }
  destruct (server_remove_client_success (n_clients (srv st)) st1 new) as (l' & Hrm & Hl & Htake).
  - simpl. lia.
  - simpl. unfold table. rewrite length_insert. lia.
  - exact Hnew.
  - unfold both_close, close_ok. simpl. rewrite Hcl.
    rewrite (bool_decide_eq_true_2 (d1 ∈ d2 :: d1 :: open_fds (os st)))
      by apply list_elem_of_further, list_elem_of_here.
    rewrite (bool_decide_eq_true_2 (d2 ∈ d2 :: d1 :: open_fds (os st)))
      by apply list_elem_of_here.
    destruct (Z.eqb_spec d1 d2); [congruence | reflexivity].
  - eexists _, _. split; [exact Hadd|]. split; [exact Hrm|].
    simpl. split; [lia|]. split; [|split].
    + simpl in Htake.
      replace (Z.to_nat (n_clients (srv st) + 1 - 1)) with (Z.to_nat (n_clients (srv st)))
        in Htake by lia.
      rewrite Htake.
      replace (Z.to_nat (n_clients (srv st) + 1))
        with (Datatypes.S (Z.to_nat (n_clients (srv st)))) by lia.
      unfold table.
      rewrite delete_take_drop.
      rewrite take_take, drop_ge by (rewrite length_take, length_insert; lia).
      rewrite app_nil_r, Nat.min_l by lia.
      apply take_insert_ge. lia.
    + unfold without_fd. simpl.
      destruct (Z.eqb_spec d2 d1); [congruence|]. rewrite Z.eqb_refl. simpl.
      rewrite Z.eqb_refl. simpl.
      fold (without_fd d1 (open_fds (os st))).
      rewrite without_fd_fresh by exact F1.
      fold (without_fd d2 (open_fds (os st))).
      apply without_fd_fresh. exact F3.
    + reflexivity.
Qed.

End round_trip.

(** *** server_handle_join, server_handle_client *)

Section handling.
Context `{blather_h}.

Lemma sys_read_join_run (d : Z) (buf j : join_t) (rest : list (Z * join_t)) (st : state) :
  d ∈ open_fds (os st) ->
  take_first d (join_in (os st)) = Some (j, rest) ->
  sys_read_join d buf st = Done (sizeof_join_t, j) (on_os (set_join_in rest) st).
Proof.
  intros Hopen Hq. unfold sys_read_join.
  rewrite bool_decide_eq_true_2 by exact Hopen. rewrite Hq. reflexivity.
Qed.

(** What server_handle_join does when a record waits. *)
Lemma server_handle_join_reads_one_step (st : state) (j : join_t)
    (rest : list (Z * join_t)) :
  0 < sizeof_join_t ->
  join_fd (srv st) ∈ open_fds (os st) ->
  take_first (join_fd (srv st)) (join_in (os st)) = Some (j, rest) ->
  server_handle_join st =
  Done tt {| srv := set_join_ready 0 (srv st); os := set_join_in rest (os st) |}.
Proof.
  intros Hsz Hopen Hq. unfold server_handle_join.
  rewrite bind_gets.
  run (sys_read_join_run _ zero_join j rest st Hopen Hq).
  replace (sizeof_join_t =? -1) with false by (symmetry; apply Z.eqb_neq; lia).
  reflexivity.
Qed.

(** X8: with the join FIFO open and a join record in it, server_handle_join
    returns after taking exactly the oldest record off the FIFO and
    clearing join_ready; the table, n_clients and everything else are as
    before. *)
Theorem server_handle_join_reads_one (st : state) (j : join_t)
    (rest : list (Z * join_t)) :
  0 < sizeof_join_t ->
  join_fd (srv st) ∈ open_fds (os st) ->
  take_first (join_fd (srv st)) (join_in (os st)) = Some (j, rest) ->
  exists st',
    server_handle_join st = Done tt st' /\
    join_in (os st') = rest /\
    join_ready (srv st') = 0 /\
    n_clients (srv st') = n_clients (srv st) /\
    client (srv st') = client (srv st) /\
    written (os st') = written (os st) /\
    open_fds (os st') = open_fds (os st).
Proof.
  intros Hsz Hopen Hq. eexists.
  split; [apply (server_handle_join_reads_one_step st j rest); assumption|].
  simpl. repeat split; reflexivity.
Qed.

Lemma sys_read_mesg_run (d : Z) (buf m : mesg_t) (rest : list (Z * mesg_t)) (st : state) :
  d ∈ open_fds (os st) ->
  take_first d (mesg_in (os st)) = Some (m, rest) ->
  sys_read_mesg d buf st = Done (sizeof_mesg_t, m) (on_os (set_mesg_in rest) st).
Proof.
  intros Hopen Hq. unfold sys_read_mesg.
  rewrite bool_decide_eq_true_2 by exact Hopen. rewrite Hq. reflexivity.
Qed.

(** X9: for a client in range whose to_server_fd is open and holds a
    record, server_handle_client returns after taking exactly that record
    off the descriptor, clearing the client's data_ready and setting its
    last_contact_time to the current time; whatever the kind of the
    record, nothing else of the state changes. *)
Theorem server_handle_client_reads_one (idx : Z) (st : state) (c : client_t)
    (m : mesg_t) (rest : list (Z * mesg_t)) :
  0 < sizeof_mesg_t ->
  0 <= idx < n_clients (srv st) ->
  client (srv st) !! Z.to_nat idx = Some c ->
  to_server_fd c ∈ open_fds (os st) ->
  take_first (to_server_fd c) (mesg_in (os st)) = Some (m, rest) ->
  server_handle_client idx st =
  Done tt {| srv := set_client
                      (<[Z.to_nat idx :=
                           set_last_contact_time (clock (os st)) (set_data_ready 0 c)]>
                         (client (srv st))) (srv st);
             os := set_mesg_in rest (os st) |}.
Proof.
  intros Hsz Hidx Hc Hopen Hq. unfold server_handle_client.
  run (server_get_client_in idx st ltac:(lia)).
  run (load_in idx c st ltac:(lia) Hc).
  run (sys_read_mesg_run _ zero_mesg m rest st Hopen Hq).
  set (st1 := on_os _ st).
  run (server_get_client_in idx st1 ltac:(simpl; lia)).
  run (load_in idx c st1 ltac:(lia) Hc).
  replace (sizeof_mesg_t =? -1) with false by (symmetry; apply Z.eqb_neq; lia).
  run (eq_refl : check_fail false st1 = Done tt st1).
  run (server_get_client_in idx st1 ltac:(simpl; lia)).
  run (store_in idx (set_data_ready 0) c st1 ltac:(lia) Hc).
  set (st2 := on_srv _ st1).
  run (server_get_client_in idx st2 ltac:(simpl; lia)).
  run (eq_refl : sys_time st2 = Done (clock (os st)) st2).
  assert (Hc2 : client (srv st2) !! Z.to_nat idx = Some (set_data_ready 0 c)).
  { simpl. apply list_lookup_insert_eq. apply lookup_lt_is_Some. eauto. }
  run (store_in idx (set_last_contact_time (clock (os st))) _ st2 ltac:(lia) Hc2).
  unfold switch. simpl. unfold ret. f_equal.
  unfold on_srv, st2, st1. simpl. rewrite list_insert_insert_eq. reflexivity.
Qed.

(** X10: server_handle_client ends the process, with the state as it
    was, when idx is not below n_clients, and when the read fails because
    the client's to_server_fd is not open. *)
Theorem server_handle_client_aborts (idx : Z) (st : state) :
  n_clients (srv st) <= idx \/
  (exists c, 0 <= idx /\ client (srv st) !! Z.to_nat idx = Some c /\
             (to_server_fd c ∉ open_fds (os st))) ->
  server_handle_client idx st = Exit st.
Proof.
  intros Hbad. unfold server_handle_client.
  destruct (Z.le_gt_cases (n_clients (srv st)) idx) as [Hout|Hin].
  - unfold server_get_client, bind, gets, check_fail.
    destruct (Z.geb_spec idx (n_clients (srv st))); [reflexivity | lia].
  - destruct Hbad as [Hout|(c & Hidx & Hc & Hclosed)]; [lia|].
    run (server_get_client_in idx st ltac:(lia)).
    run (load_in idx c st Hidx Hc).
    assert (Hrd : sys_read_mesg (to_server_fd c) zero_mesg st = Done (-1, zero_mesg) st).
    { unfold sys_read_mesg. rewrite bool_decide_eq_false_2 by exact Hclosed. reflexivity. }
    run Hrd.
    run (server_get_client_in idx st ltac:(lia)).
    run (load_in idx c st Hidx Hc).
    reflexivity.
Qed.

End handling.

(** *** server_check_sources *)

(** poll() over one entry leaves the entries behind it as they were and the
    server record alone. *)
Lemma post_sys_poll_one (a : list pollfd) (st : state)
    (K : Z * list pollfd -> state -> Prop) (R : state -> Prop) :
  (forall st', srv st' = srv st -> R st') ->
  (forall num a' st', srv st' = srv st ->
     (forall k p, (1 <= k)%nat -> a' !! k = Some p -> a !! k = Some p) ->
     K (num, a') st') ->
  post K R (sys_poll a POLLIN st).
Proof.
  intros HR HK. unfold sys_poll.
  destruct (_ <? POLLIN); [apply HR; reflexivity|].
  destruct (signalled _); [apply HK; [reflexivity|auto]|].
  destruct (_ =? 0); [apply HR; reflexivity|].
  apply HK; [reflexivity|].
  intros k p Hk. rewrite list_lookup_imap.
  destruct (a !! k) as [q|]; simpl; [|discriminate].
  destruct (Z.ltb_spec (Z.of_nat k) POLLIN) as [Hlt|_]; [|auto].
  unfold POLLIN in Hlt. lia.
Qed.

Section sources.
Context `{blather_h}.

(** X11: whatever is readable and however the call ends, server_check_sources
    changes nothing in the server record but join_ready, which it can only
    set to 1: it sets no client's data_ready flag. *)
Theorem server_check_sources_marks_no_client (st : state) :
  srv (final (server_check_sources st)) = srv st \/
  srv (final (server_check_sources st)) = set_join_ready 1 (srv st).
Proof.
  set (Q := fun st' : state => srv st' = srv st \/ srv st' = set_join_ready 1 (srv st)).
  assert (HQ : Q st) by (left; reflexivity).
  apply (post_final Q). unfold server_check_sources.
  set (quiet := fun p : pollfd => revents p = 0).
  assert (Hfd : forall d p, quiet p -> quiet (set_fd d p)) by (intros ? ? E; exact E).
  assert (Hev : forall p, quiet p -> quiet (set_events (Z.lor (events p) POLLIN) p))
    by (intros ? E; exact E).
  rewrite bind_gets.
  apply post_bind, (post_arr_upd quiet); auto.
  { apply Forall_replicate. reflexivity. }
  intros a1 H1. apply post_bind, (post_arr_upd quiet); auto.
  intros a2 H2. rewrite bind_gets.
  apply post_bind, (post_arr_upd quiet); auto.
  intros a3 H3. apply post_bind, (post_arr_upd quiet); auto.
  intros a4 H4. apply post_bind. unfold for_lt.
  eapply post_conseq;
    [ apply (post_for_loop (fun _ a st' => Forall quiet a /\ st' = st) (fun st' => st' = st))
    | cbv beta | cbv beta ].
  - intros i a st1 [Ha ->] _.
    apply post_bind, post_load; [reflexivity|]. intros c.
    apply post_bind, (post_arr_upd quiet); auto.
    intros a' Ha'. apply (post_arr_upd quiet); auto.
  - intros _ _ st1 [_ ->]. reflexivity.
  - split; [exact H4 | reflexivity].
  - intros a5 st1 (_ & H5 & ->).
    apply post_bind, post_sys_poll_one.
    + intros st2 E. left. exact E.
    + intros num a6 st2 E2 H6. cbv beta iota.
      destruct (num =? -1); [left; exact E2|].
      apply post_bind, post_arr_get; [left; exact E2|].
      intros p0 _ _. apply post_bind.
      apply (post_conseq _ (fun _ st' => Q st') _ Q); auto.
      * destruct (negb _); [right | left]; simpl; rewrite E2; reflexivity.
      * cbv beta. intros _ st3 H3'.
        eapply post_conseq;
          [ apply (post_for_loop (fun i _ st' => 0 <= i /\ Q st') Q) | cbv beta | cbv beta ].
        -- intros i [] st4 [Hi H4'] _.
           apply post_bind, post_arr_get; [exact H4'|].
           intros p Hi2 Ep. apply H6 in Ep; [|lia].
           assert (Hp : quiet p) by exact (proj1 (Forall_lookup _ _) H5 _ _ Ep).
           red in Hp. rewrite Hp. simpl negb. cbv iota.
           apply (post_conseq _ (fun _ st' => Q st') _ Q).
           ++ apply (post_kept srv _ (fun s => s = srv st \/ s = set_join_ready 1 (srv st)));
                [keeps | exact H4'].
           ++ intros _ st5 H5'. split; [lia | exact H5'].
           ++ auto.
        -- intros _ _ st4 [_ H4']. exact H4'.
        -- split; [lia | exact H3'].
        -- intros _ st4 (_ & _ & H4'). exact H4'.
        -- auto.
  - intros st1 ->. exact HQ.
Qed.











End sources.

(** *** The main loop of bl_server.c *)

Lemma keeps_sys_poll {X} (f : state -> X) (a : list pollfd) (nfds : Z) :
  (forall v, ignores f (on_os (set_polled v))) ->
  (forall v, ignores f (on_os (set_signalled v))) ->
  keeps f (sys_poll a nfds).
Proof.
  intros Hp Hs st. unfold sys_poll. repeat case_match; simpl; try apply Hp.
  rewrite Hs. apply Hp.
Qed.

#[local] Hint Resolve keeps_sys_poll : keeps.

Section loop_pass.
Context `{blather_h}.

Lemma keeps_server_check_sources {X} (f : state -> X) :
  (forall v, ignores f (on_os (set_polled v))) ->
  (forall v, ignores f (on_os (set_signalled v))) ->
  (forall v, ignores f (on_srv (set_join_ready v))) ->
  (forall l, ignores f (on_srv (set_client l))) ->
  keeps f server_check_sources.
Proof. intros Hp Hs Hj Hc. unfold server_check_sources. keeps. Qed.

Lemma keeps_server_handle_join {X} (f : state -> X) :
  (forall v, ignores f (on_os (set_join_in v))) ->
  (forall v, ignores f (on_srv (set_join_ready v))) ->
  keeps f server_handle_join.
Proof. intros Hq Hj. unfold server_handle_join. keeps. Qed.

Lemma keeps_server_handle_client {X} (f : state -> X) (idx : Z) :
  (forall v, ignores f (on_os (set_mesg_in v))) ->
  (forall l, ignores f (on_srv (set_client l))) ->
  keeps f (server_handle_client idx).
Proof. intros Hq Hc. unfold server_handle_client, switch. simpl. keeps. Qed.

Lemma keeps_server_client_ready {X} (f : state -> X) (idx : Z) :
  keeps f (server_client_ready idx).
Proof. unfold server_client_ready. keeps. Qed.

#[local] Hint Resolve keeps_server_check_sources keeps_server_handle_join
  keeps_server_handle_client keeps_server_client_ready : keeps.

(** X16: however it ends, one pass of the main loop of the server leaves
    n_clients, the records written to the clients, the file system and
    the open descriptors as they were: it admits nobody, removes nobody
    and delivers nothing. *)
Theorem main_loop_pass_admits_and_delivers_nothing :
  keeps (fun st => (n_clients (srv st), written (os st), files (os st), open_fds (os st)))
        main_loop_pass.
Proof. unfold main_loop_pass, server_join_ready. keeps. Qed.

Lemma take_first_readable {A} (d : Z) (q : list (Z * A)) (x : A) (rest : list (Z * A)) :
  take_first d q = Some (x, rest) -> existsb (fun e => fst e =? d) q = true.
Proof.
  revert x rest. induction q as [|[d' y] q IH]; intros x rest E; [discriminate|].
  simpl in *. destruct (d' =? d); [reflexivity|].
  destruct (take_first d q) as [[z r]|]; [|discriminate]. exact (IH z r eq_refl).
Qed.


End loop_pass.

(** *** server_shutdown *)

Lemma sys_close_run (d : Z) (st : state) :
  exists r, sys_close d st =
            Done r (on_os (set_open_fds (without_fd d (open_fds (os st)))) st).
Proof.
  unfold sys_close. destruct (decide (d ∈ open_fds (os st))) as [Hin|Hout].
  - rewrite bool_decide_eq_true_2 by exact Hin. eexists. reflexivity.
  - rewrite bool_decide_eq_false_2 by exact Hout. exists (-1).
    rewrite without_fd_fresh by exact Hout.
    destruct st as [s []]. reflexivity.
Qed.

Lemma every_other_length (cs : list client_t) :
  Z.of_nat (length (every_other cs)) = Z.of_nat (length cs) / 2.
Proof.
  assert (Hboth : forall k cs, (length cs <= k)%nat ->
            Z.of_nat (length (every_other cs)) = Z.of_nat (length cs) / 2).
  { clear cs. induction k as [|k IH]; intros [|a [|b cs]] Hk;
      try reflexivity; try (simpl in Hk; lia).
    change (every_other (a :: b :: cs)) with (b :: every_other cs).
    cbn [length] in *. rewrite !Nat2Z.inj_succ, IH by lia.
    replace (Z.succ (Z.succ (Z.of_nat (length cs))))
      with (Z.of_nat (length cs) + 1 * 2) by lia.
    rewrite Z.div_add by lia. lia. }
  apply (Hboth (length cs)). lia.
Qed.

Lemma live_length (st : state) :
  0 <= n_clients (srv st) <= Z.of_nat (length (client (srv st))) ->
  Z.of_nat (length (live st)) = n_clients (srv st).
Proof. intros Hn. unfold live. rewrite length_take. lia. Qed.

Lemma elem_of_fds_of (d : Z) (cs : list client_t) :
  d ∈ fds_of cs <-> exists c, c ∈ cs /\ (d = to_client_fd c \/ d = to_server_fd c).
Proof.
  unfold fds_of. rewrite list_elem_of_In, in_flat_map. split.
  - intros (c & Hc & Hd). exists c. split; [apply list_elem_of_In; exact Hc|].
    simpl in Hd. intuition.
  - intros (c & Hc & Hd). exists c. split; [apply list_elem_of_In; exact Hc|].
    simpl. intuition.
Qed.

Section shutting_down.
Context `{blather_h}.

(** The removal loop of server_shutdown from index [length pre] on: of
    the clients [suf] still ahead it removes the first, steps over the
    second, and so on. *)
Lemma shutdown_loop (k : nat) :
  forall (suf pre : list client_t) (st : state) (fuel : nat),
    (length suf <= k)%nat -> (length suf <= fuel)%nat ->
    live st = pre ++ suf ->
    0 <= n_clients (srv st) <= Z.of_nat (length (client (srv st))) ->
    cl_err (os st) = [] ->
    NoDup (fds_of suf) ->
    (forall d, d ∈ fds_of suf -> d ∈ open_fds (os st)) ->
    exists st',
      for_loop fuel (Z.of_nat (length pre)) (fun i st' => i <? n_clients (srv st'))
        (fun i _ => server_remove_client i ;; ret tt) tt st = Done tt st' /\
      live st' = pre ++ every_other suf /\
      0 <= n_clients (srv st') <= Z.of_nat (length (client (srv st'))) /\
      written (os st') = written (os st).
Proof.
  induction k as [|k IH]; intros suf pre st fuel Hk Hfuel Hlive Hn Hcl Hdup Hopen.
  - destruct suf; [|simpl in Hk; lia].
    exists st. pose proof (live_length st Hn) as Hl. rewrite Hlive in Hl.
    rewrite length_app in Hl. simpl in Hl.
    split; [apply for_loop_stop, Z.ltb_ge; lia|].
    split; [exact Hlive|]. split; [exact Hn | reflexivity].
  - destruct suf as [|a suf].
    { exists st. pose proof (live_length st Hn) as Hl. rewrite Hlive in Hl.
      rewrite length_app in Hl. simpl in Hl.
      split; [apply for_loop_stop, Z.ltb_ge; lia|].
      split; [exact Hlive|]. split; [exact Hn | reflexivity]. }
    pose proof (live_length st Hn) as Hl. rewrite Hlive in Hl.
    rewrite length_app in Hl. simpl in Hl.
    destruct fuel as [|fuel]; [simpl in Hfuel; lia|].
    rewrite for_loop_step by (apply Z.ltb_lt; lia).
    assert (Ha : client (srv st) !! Z.to_nat (Z.of_nat (length pre)) = Some a).
    { rewrite Nat2Z.id.
      assert (Ha : live st !! length pre = Some a).
      { rewrite Hlive. rewrite lookup_app_r by lia. rewrite Nat.sub_diag. reflexivity. }
      unfold live in Ha. rewrite lookup_take in Ha. case_decide; [exact Ha | discriminate]. }
    assert (Hfa : to_client_fd a ∈ fds_of (a :: suf) /\ to_server_fd a ∈ fds_of (a :: suf)).
    { split; apply elem_of_fds_of; exists a; (split; [apply list_elem_of_here|]); auto. }
    assert (Hne : to_client_fd a <> to_server_fd a).
    { change (fds_of (a :: suf)) with (to_client_fd a :: to_server_fd a :: fds_of suf) in Hdup.
      apply NoDup_cons in Hdup as [Hdup _]. intros E. apply Hdup. rewrite E.
      apply list_elem_of_here. }
    assert (Hboth : both_close (os st) a = true).
    { unfold both_close, close_ok. rewrite Hcl.
      rewrite (bool_decide_eq_true_2 (to_client_fd a ∈ open_fds (os st)))
        by (apply Hopen; tauto).
      rewrite (bool_decide_eq_true_2 (to_server_fd a ∈ open_fds (os st)))
        by (apply Hopen; tauto).
      rewrite !(bool_decide_eq_false_2 (_ ∈ [])) by apply not_elem_of_nil.
      destruct (Z.eqb_spec (to_client_fd a) (to_server_fd a)); [contradiction | reflexivity]. }
    destruct (server_remove_client_success (Z.of_nat (length pre)) st a)
      as (l' & Hrm & Hl' & Htake); [lia | lia | exact Ha | exact Hboth |].
    run Hrm.
    match type of Hrm with _ = Done 0 ?s => set (st1 := s) in * end.
    unfold ret at 1.
    assert (Hlive1 : live st1 = pre ++ suf).
    { unfold live. simpl. rewrite Htake. fold (live st). rewrite Hlive.
      rewrite Nat2Z.id. rewrite delete_middle. reflexivity. }
    assert (Hn1 : 0 <= n_clients (srv st1) <= Z.of_nat (length (client (srv st1)))).
    { simpl. rewrite Hl'. lia. }
    change (fds_of (a :: suf)) with (to_client_fd a :: to_server_fd a :: fds_of suf) in Hdup.
    apply NoDup_cons in Hdup as [Hd1 Hdup]. apply NoDup_cons in Hdup as [Hd2 Hdup].
    assert (Hopen1 : forall d, d ∈ fds_of suf -> d ∈ open_fds (os st1)).
    { intros d Hd. simpl. rewrite !elem_of_without_fd.
      split; [split|].
      - apply Hopen. change (fds_of (a :: suf))
          with (to_client_fd a :: to_server_fd a :: fds_of suf).
        do 2 apply list_elem_of_further. exact Hd.
      - intros ->. apply Hd1. apply list_elem_of_further. exact Hd.
      - intros ->. apply Hd2. exact Hd. }
    destruct suf as [|b r].
    + exists st1. split; [|split; [|split]].
      * apply for_loop_stop, Z.ltb_ge. simpl in *. lia.
      * rewrite Hlive1. reflexivity.
      * exact Hn1.
      * reflexivity.
    + destruct (IH r (pre ++ [b]) st1 fuel) as (st' & Hrun & Hlive' & Hn' & Hw').
      * simpl in Hk. lia.
      * simpl in Hfuel. lia.
      * rewrite Hlive1, <- app_assoc. reflexivity.
      * exact Hn1.
      * exact Hcl.
      * change (fds_of (b :: r)) with (to_client_fd b :: to_server_fd b :: fds_of r) in Hdup.
        apply NoDup_cons in Hdup as [_ Hdup]. apply NoDup_cons in Hdup as [_ Hdup].
        exact Hdup.
      * intros d Hd. apply Hopen1.
        change (fds_of (b :: r)) with (to_client_fd b :: to_server_fd b :: fds_of r).
        do 2 apply list_elem_of_further. exact Hd.
      * exists st'. split; [|split; [|split]].
        -- rewrite length_app in Hrun. simpl in Hrun.
           replace (Z.of_nat (length pre) + 1) with (Z.of_nat (length pre + 1)) by lia.
           exact Hrun.
        -- rewrite Hlive', <- app_assoc. reflexivity.
        -- exact Hn'.
        -- rewrite Hw'. reflexivity.
Qed.

(** X18: with n clients in the table, distinct open descriptors and no
    failing write or close, server_shutdown returns after writing
    SHUTDOWN to all n clients in table order, but its removal loop
    removes only the first, third, ... client: the second, fourth, ...
    stay in the table, so n_clients ends as n / 2, not 0. *)
Theorem server_shutdown_removes_every_other (st : state) :
  0 < sizeof_mesg_t ->
  0 <= n_clients (srv st) <= Z.of_nat (length (client (srv st))) ->
  wr_err (os st) = [] -> cl_err (os st) = [] ->
  NoDup (join_fd (srv st) :: fds_of (live st)) ->
  (forall d, d ∈ fds_of (live st) -> d ∈ open_fds (os st)) ->
  exists st',
    server_shutdown st = Done tt st' /\
    live st' = every_other (live st) /\
    n_clients (srv st') = n_clients (srv st) / 2 /\
    written (os st') = written (os st) ++ deliveries shutdown_mesg (live st).
Proof.
  intros Hsz Hn Hwr Hcl Hdup Hopen. unfold server_shutdown.
  rewrite bind_gets.
  destruct (sys_close_run (join_fd (srv st)) st) as [r1 E1]. run E1.
  set (st1 := on_os _ st).
  rewrite bind_gets.
  destruct (sys_remove_run (server_name (srv st1)) st1) as [r2 E2]. run E2.
  set (st2 := on_os _ st1).
  apply NoDup_cons in Hdup as [Hjoin Hdup].
  assert (Hopen2 : forall d, d ∈ fds_of (live st) -> d ∈ open_fds (os st2)).
  { intros d Hd. simpl. rewrite elem_of_without_fd. split; [apply Hopen; exact Hd|].
    intros ->. contradiction. }
  assert (Eb : server_broadcast (set_kind BL_SHUTDOWN zero_mesg) st2
               = Done tt (sent_to shutdown_mesg (live st) st2)).
  { rewrite (server_broadcast_run _ st2 Hsz) by (simpl; lia). cbv zeta.
    change (take (Z.to_nat (n_clients (srv st2))) (client (srv st2))) with (live st).
    rewrite all_ok_intro; [reflexivity | exact Hwr |].
    intros c Hc. apply Hopen2, elem_of_fds_of. exists c. auto. }
  run Eb.
  set (st3 := sent_to _ _ st2).
  rewrite ?bind_assoc. unfold for_lt at 1.
  destruct (shutdown_loop (length (live st)) (live st) [] st3
              (Z.to_nat (n_clients (srv st3) - 0)))
    as (st4 & Hrun & Hlive4 & Hn4 & Hw4).
  - lia.
  - pose proof (live_length st Hn). simpl. lia.
  - reflexivity.
  - exact Hn.
  - exact Hcl.
  - exact Hdup.
  - exact Hopen2.
  - unfold bind at 1. change (Z.of_nat (length (@nil client_t))) with 0 in Hrun.
    rewrite Hrun. cbv beta iota. rewrite bind_gets.
    destruct (sys_close_run (log_fd (srv st4)) st4) as [r5 E5]. run E5.
    eexists. split; [reflexivity|].
    split; [exact Hlive4|]. split; [|simpl; rewrite Hw4; reflexivity].
    pose proof (live_length st4 Hn4) as L4. rewrite Hlive4 in L4. simpl in L4.
    rewrite every_other_length, (live_length st Hn) in L4. simpl. lia.
Qed.

Lemma append_differs (s : string) : s +:+ ".fifo" <> s.
Proof. induction s as [|a s IH]; simpl; [discriminate|]. intros E. injection E as E. auto. Qed.

Lemma post_load_in (p : Z) (st : state) (K : client_t -> state -> Prop) (R : state -> Prop) :
  R st -> (forall c, c ∈ client (srv st) -> K c st) -> post K R (load p st).
Proof.
  intros HR HK. unfold load. rewrite bind_gets. apply post_arr_get; [exact HR|].
  intros c _ Hc. apply HK. eapply list_elem_of_lookup_2. exact Hc.
Qed.

Lemma post_server_get_client (idx : Z) (st : state)
    (K : Z -> state -> Prop) (R : state -> Prop) :
  R st -> K idx st -> post K R (server_get_client idx st).
Proof.
  intros HR HK. unfold server_get_client, bind, gets, check_fail, ret.
  destruct (idx >=? n_clients (srv st)); simpl; assumption.
Qed.

Lemma server_remove_client_fifo_safe (path : string) (idx : Z) (st : state) :
  fifo_safe path st ->
  post (fun _ => fifo_safe path) (fifo_safe path) (server_remove_client idx st).
Proof.
  intros HI. unfold server_remove_client. rewrite bind_gets.
  destruct (Z.geb_spec idx (n_clients (srv st))) as [Hge|Hlt]; [exact HI|].
  run (server_get_client_in idx st Hlt).
  apply post_bind, post_load_in; [exact HI|]. intros c1 _.
  destruct (sys_close_run (to_client_fd c1) st) as [r1 E1]. run E1.
  set (st1 := on_os _ st).
  assert (HI1 : fifo_safe path st1) by exact HI.
  destruct (r1 =? -1); [exact HI1|].
  apply post_bind, post_load_in; [exact HI1|]. intros c2 _.
  destruct (sys_close_run (to_server_fd c2) st1) as [r2 E2]. run E2.
  set (st2 := on_os _ st1).
  assert (HI2 : fifo_safe path st2) by exact HI.
  destruct (r2 =? -1); [exact HI2|].
  apply post_bind, post_load_in; [exact HI2|]. intros c3 Hc3.
  destruct (sys_remove_run (to_client_fname c3) st2) as [r3 E3]. run E3.
  set (st3 := on_os _ st2).
  assert (HI3 : fifo_safe path st3).
  { destruct HI as [Hf Hall]. split; [|exact Hall]. simpl.
    rewrite elem_of_without_path. split; [exact Hf|].
    pose proof (proj1 (Forall_forall _ _) Hall c3 Hc3) as [Hne _]. congruence. }
  apply post_bind, post_load_in; [exact HI3|]. intros c4 Hc4.
  destruct (sys_remove_run (to_server_fname c4) st3) as [r4 E4]. run E4.
  set (st4 := on_os _ st3).
  assert (HI4 : fifo_safe path st4).
  { destruct HI3 as [Hf Hall]. split; [|exact Hall]. simpl.
    rewrite elem_of_without_path. split; [exact Hf|].
    pose proof (proj1 (Forall_forall _ _) Hall c4 Hc4) as [_ Hne]. congruence. }
  clearbody st4. clear - HI4.
  apply post_bind. unfold for_lt.
  eapply post_conseq;
    [ apply (post_for_loop (fun _ _ => fifo_safe path) (fifo_safe path))
    | cbv beta | cbv beta ].
  - intros i [] s Hs _.
    apply post_bind, post_server_get_client; [exact Hs|].
    apply post_bind, post_load_in; [exact Hs|]. intros c0 Hc0.
    unfold store. rewrite bind_gets.
    apply post_bind, (post_arr_upd (fifos_differ_from path)).
    + exact (proj2 Hs).
    + intros _ _. exact (proj1 (Forall_forall _ _) (proj2 Hs) c0 Hc0).
    + exact Hs.
    + intros a' Ha'. split; [exact (proj1 Hs) | exact Ha'].
  - intros _ _ s Hs. exact Hs.
  - exact HI4.
  - intros _ s (_ & Hs). exact Hs.
  - auto.
Qed.

(** X19: server_shutdown does not unlink the join FIFO: a file
    <server_name>.fifo that exists before the call, and is not one of the
    clients' FIFOs, exists after it, however the call ends (the code
    passes server_name itself to remove()). *)
Theorem server_shutdown_keeps_join_fifo (st : state) :
  (server_name (srv st) +:+ ".fifo") ∈ files (os st) ->
  Forall (fifos_differ_from (server_name (srv st) +:+ ".fifo")) (client (srv st)) ->
  (server_name (srv st) +:+ ".fifo") ∈ files (os (final (server_shutdown st))).
Proof.
  intros Hf Hall. set (path := server_name (srv st) +:+ ".fifo") in *.
  assert (HI : fifo_safe path st) by (split; assumption).
  enough (Hend : fifo_safe path (final (server_shutdown st))) by exact (proj1 Hend).
  apply (post_final (fifo_safe path)). unfold server_shutdown.
  rewrite bind_gets.
  destruct (sys_close_run (join_fd (srv st)) st) as [r1 E1]. run E1.
  set (st1 := on_os _ st).
  rewrite bind_gets.
  destruct (sys_remove_run (server_name (srv st1)) st1) as [r2 E2]. run E2.
  set (st2 := on_os _ st1).
  assert (HI2 : fifo_safe path st2).
  { split; [|exact Hall]. simpl. rewrite elem_of_without_path.
    split; [exact Hf | apply append_differs]. }
  clearbody st2. clear - HI2.
  apply post_bind.
  apply (post_conseq _ (fun _ => fifo_safe path) _ (fifo_safe path)); [|auto..].
  { apply (post_kept (fun s => (files (os s), client (srv s))) _
             (fun x => path ∈ fst x /\ Forall (fifos_differ_from path) (snd x)));
      [keeps | exact HI2]. }
  cbv beta. intros _ st3 HI3.
  apply post_bind. unfold for_lt.
  eapply post_conseq;
    [ apply (post_for_loop (fun _ _ => fifo_safe path) (fifo_safe path))
    | cbv beta | cbv beta ].
  - intros i [] s Hs _. apply post_bind.
    eapply post_conseq; [apply server_remove_client_fifo_safe; exact Hs | |];
      cbv beta; auto.
  - intros _ _ s Hs. exact Hs.
  - exact HI3.
  - intros _ s (_ & Hs). rewrite bind_gets.
    destruct (sys_close_run (log_fd (srv s)) s) as [r5 E5]. run E5. exact Hs.
  - auto.
Qed.

End shutting_down.

(** ** Further properties of the client *)

(** *** user_worker *)

Section input_worker.
Import bl_client bl_client_reader.
Context `{blather_h}.

(** X20: a line that is not a command (in advanced mode: one that starts
    with neither "%who" nor "%last"; without advanced mode: any line) is
    sent to the server as one MESG record with the client's name and the
    line as body; nothing is printed and the loop goes on. *)
Theorem user_worker_sends_line (p : proc) (buf : string) :
  wr_fail p = false -> 0 < sizeof_mesg_t ->
  DO_ADVANCED p = 0 \/
    (starts_with "%who" buf = false /\ starts_with "%last" buf = false) ->
  user_worker buf false p =
  Done false
    (set_sent (sent p ++ [{| kind := BL_MESG; mesg_name := name (client p);
                             body := buf |}]) p).
Proof.
  intros Hwr Hsz Hplain. unfold user_worker.
  rewrite bind_gets.
  assert (E : negb (DO_ADVANCED p =? 0) && starts_with "%who" buf
              && negb (DO_ADVANCED p =? 0) = false
              /\ negb (DO_ADVANCED p =? 0) && starts_with "%last" buf = false).
  { destruct Hplain as [-> | [-> ->]]; [split; reflexivity|].
    rewrite !andb_false_r. split; reflexivity. }
  destruct E as [-> ->].
  unfold bind, gets, write_to_server. rewrite Hwr. simpl.
  destruct (Z.eqb_spec sizeof_mesg_t (-1)); [lia | reflexivity].
Qed.

(** X21: at the end of input the worker prints its notice, sends one
    DEPARTED record with the client's name and an empty body, whatever
    the line buffer holds, and leaves its loop. *)
Theorem user_worker_end_of_input (p : proc) (buf : string) :
  wr_fail p = false -> 0 < sizeof_mesg_t ->
  user_worker buf true p =
  Done true
    (set_sent (sent p ++ [{| kind := BL_DEPARTED; mesg_name := name (client p);
                             body := "" |}])
       (set_screen (screen p ++ [Line ("End of Input, Departing" +:+ nl)]) p)).
Proof.
  intros Hwr Hsz. unfold user_worker, iprintf, bind, modify, gets, write_to_server.
  simpl. rewrite Hwr.
  destruct (Z.eqb_spec sizeof_mesg_t (-1)); [lia | reflexivity].
Qed.

(** X22: a write to the server that fails ends the client process, at
    the end of input as for a line to send; nothing has been sent. *)
Theorem user_worker_write_failure (p : proc) (buf : string) (end_of_input : bool) :
  wr_fail p = true ->
  end_of_input = true \/ DO_ADVANCED p = 0 \/
    (starts_with "%who" buf = false /\ starts_with "%last" buf = false) ->
  exists p', user_worker buf end_of_input p = Exit p' /\ sent p' = sent p.
Proof.
  intros Hwr Hcase. unfold user_worker.
  destruct end_of_input.
  - unfold iprintf, bind, modify, gets, write_to_server. simpl. rewrite Hwr. simpl.
    eexists. split; reflexivity.
  - destruct Hcase as [Hcase | Hplain]; [discriminate|].
    rewrite bind_gets.
    assert (E : negb (DO_ADVANCED p =? 0) && starts_with "%who" buf
                && negb (DO_ADVANCED p =? 0) = false
                /\ negb (DO_ADVANCED p =? 0) && starts_with "%last" buf = false).
    { destruct Hplain as [-> | [-> ->]]; [split; reflexivity|].
      rewrite !andb_false_r. split; reflexivity. }
    destruct E as [-> ->].
    unfold bind, gets, write_to_server. rewrite Hwr. simpl.
    eexists. split; reflexivity.
Qed.

Lemma who_loop (w : who_t) (ns : list string) (k : nat) (p : proc) :
  drop k (take (Z.to_nat (who_n_clients w)) (names w)) = ns ->
  Z.of_nat (k + length ns) = who_n_clients w ->
  for_loop (length ns) (Z.of_nat k) (fun i _ => i <? who_n_clients w)
    (fun i _ => s <- arr_get (names w) i ;; iprintf (pretty i +:+ ": " +:+ s +:+ nl))
    tt p =
  Done tt (set_screen (screen p ++ who_lines (Z.of_nat k) ns) p).
Proof.
  revert k p. induction ns as [|s ns IH]; intros k p Hns Hlen.
  - rewrite for_loop_stop by (apply Z.ltb_ge; simpl in Hlen; lia).
    simpl. rewrite app_nil_r. destruct p; reflexivity.
  - simpl in Hlen.
    assert (Hs : names w !! k = Some s).
    { assert (Hk : take (Z.to_nat (who_n_clients w)) (names w) !! k = Some s).
      { rewrite <- (Nat.add_0_r k), <- lookup_drop, Hns. reflexivity. }
      rewrite lookup_take in Hk. case_decide; [exact Hk | discriminate]. }
    change (length (s :: ns)) with (Datatypes.S (length ns)).
    rewrite for_loop_step by (apply Z.ltb_lt; lia).
    assert (Hget : arr_get (names w) (Z.of_nat k) p = Done s p).
    { apply arr_get_in; [lia|]. rewrite Nat2Z.id. exact Hs. }
    run Hget. unfold iprintf at 1.
    run (eq_refl : modify (fun q => set_screen
                     (screen q ++ [Line (pretty (Z.of_nat k) +:+ ": " +:+ s +:+ nl)]) q) p
                   = Done tt (set_screen
                     (screen p ++ [Line (pretty (Z.of_nat k) +:+ ": " +:+ s +:+ nl)]) p)).
    replace (Z.of_nat k + 1) with (Z.of_nat (Datatypes.S k)) by lia.
    rewrite IH.
    + simpl. rewrite <- app_assoc.
      replace (Z.of_nat k + 1) with (Z.pos (Pos.of_succ_nat k)) by lia. reflexivity.
    + rewrite (drop_S _ s k) in Hns by (rewrite lookup_take_lt by lia; exact Hs).
      injection Hns as Hns. exact Hns.
    + lia.
Qed.

(** X23: in advanced mode a line that starts with "%who" prints, between
    two rules and under the heading "N CLIENTS", the first N names of the
    who_t record at the start of the log, numbered from 0, where N is the
    n_clients field of that record; nothing is sent to the server. *)
Theorem user_worker_who (p : proc) (buf : string) :
  DO_ADVANCED p <> 0 ->
  starts_with "%who" buf = true ->
  0 <= who_n_clients (who (log p)) <= Z.of_nat (length (names (who (log p)))) ->
  user_worker buf false p =
  Done false
    (set_screen
       (screen p ++ [Line rule;
                     Line (pretty (who_n_clients (who (log p))) +:+ " CLIENTS" +:+ nl)]
        ++ who_lines 0 (take (Z.to_nat (who_n_clients (who (log p))))
                             (names (who (log p))))
        ++ [Line rule]) p).
Proof.
  intros Hadv Hwho Hn. unfold user_worker.
  rewrite bind_gets.
  replace (DO_ADVANCED p =? 0) with false by (symmetry; apply Z.eqb_neq; exact Hadv).
  rewrite Hwho. cbn [negb andb].
  rewrite ?bind_assoc. rewrite bind_gets.
  set (w := who (log p)) in *.
  unfold iprintf at 1.
  run (eq_refl : modify (fun q => set_screen (screen q ++ [Line rule]) q) p
                 = Done tt (set_screen (screen p ++ [Line rule]) p)).
  set (p1 := set_screen _ p).
  unfold iprintf at 1.
  run (eq_refl : modify (fun q => set_screen
                   (screen q ++ [Line (pretty (who_n_clients w) +:+ " CLIENTS" +:+ nl)]) q) p1
                 = Done tt (set_screen
                   (screen p1 ++ [Line (pretty (who_n_clients w) +:+ " CLIENTS" +:+ nl)]) p1)).
  set (p2 := set_screen _ p1).
  rewrite ?bind_assoc. unfold for_lt at 1. unfold bind at 1.
  replace (Z.to_nat (who_n_clients w - 0))
    with (length (take (Z.to_nat (who_n_clients w)) (names w)))
    by (rewrite length_take; lia).
  rewrite (who_loop w _ 0 p2); [| reflexivity | rewrite length_take; lia].
  unfold iprintf, bind, modify, ret. simpl.
  rewrite <- !app_assoc. reflexivity.
Qed.

Lemma pread_mesg_before (l : log_t) (offset : Z) :
  offset < sizeof_who_t -> pread_mesg l offset None = None.
Proof.
  intros Hoff. unfold pread_mesg.
  destruct ((offset <? 0) || (log_size l <=? offset)); [reflexivity|].
  destruct (Z.leb_spec 0 (offset - sizeof_who_t)); [lia | reflexivity].
Qed.

(** The loop of the ["%last"] branch while its offset is in front of the
    first record: every pass prints what the buffer happens to hold. *)
Lemma garbage_loop (num : Z) (g : nat) :
  forall (fuel : nat) (i offset : Z) (p : proc),
  0 < sizeof_mesg_t -> sizeof_who_t <= LONG_MAX ->
  offset + Z.of_nat g * sizeof_mesg_t = sizeof_who_t ->
  - 2 ^ 63 <= offset ->
  i + Z.of_nat g <= num ->
  for_loop (g + fuel) i (fun i _ => i <? num) last_body (offset, None) p =
  for_loop fuel (i + Z.of_nat g) (fun i _ => i <? num) last_body (record_offset 0, None)
    (set_screen (screen p ++ replicate g Garbage) p).
Proof.
  induction g as [|g IH]; intros fuel i offset p Hsz Hwho Hoff Hmin Hi.
  - change (Z.of_nat 0) with 0 in *. rewrite Z.add_0_r.
    change (0 + fuel)%nat with fuel. cbn [replicate]. rewrite app_nil_r.
    replace (record_offset 0) with offset by (unfold record_offset; lia).
    destruct p; reflexivity.
  - change (Datatypes.S g + fuel)%nat with (Datatypes.S (g + fuel)).
    rewrite for_loop_step by (apply Z.ltb_lt; lia).
    unfold last_body at 1.
    run (eq_refl : gets log p = Done (log p) p).
    rewrite pread_mesg_before by nia.
    cbn [iprintf_mesg].
    run (eq_refl : modify (fun q => set_screen (screen q ++ [Garbage]) q) p
                   = Done tt (set_screen (screen p ++ [Garbage]) p)).
    unfold bind at 1, ret at 1.
    rewrite to_long_small by (unfold LONG_MAX in *; nia).
    rewrite IH by (try assumption; simpl; nia).
    replace (i + 1 + Z.of_nat g) with (i + Z.of_nat (Datatypes.S g)) by lia.
    simpl. rewrite <- app_assoc. reflexivity.
Qed.

(** X24: in advanced mode, "%last N" with N larger than the number of
    records in the log first prints one line for each record that is not
    there, formatted from bytes that are no message record (the who_t
    region of the log, or the uninitialised buffer), and then every record
    of the log. *)
Theorem user_worker_last_too_many (p : proc) (N : Z) (rest : string) :
  0 < sizeof_mesg_t -> 0 <= sizeof_who_t -> log_size (log p) <= LONG_MAX ->
  DO_ADVANCED p <> 0 ->
  0 <= N <= INT_MAX -> N * sizeof_mesg_t <= LONG_MAX ->
  Z.of_nat (length (mesgs (log p))) < N ->
  no_digit_ahead rest ->
  user_worker ("%last " +:+ pretty N +:+ rest) false p =
  Done false
    (set_screen
       (screen p ++ [Line rule; Line ("LAST " +:+ pretty N +:+ " MESSAGES" +:+ nl)]
        ++ replicate (Z.to_nat N - length (mesgs (log p))) Garbage
        ++ map render (mesgs (log p))
        ++ [Line rule]) p).
Proof.
  intros Hsz Hwho Hmax Hadv HN HNsz Hlen Hrest.
  unfold user_worker.
  run (eq_refl : gets DO_ADVANCED p = Done (DO_ADVANCED p) p).
  replace (DO_ADVANCED p =? 0) with false by (symmetry; apply Z.eqb_neq; exact Hadv).
  change (starts_with "%who" ("%last " +:+ pretty N +:+ rest)) with false.
  change (starts_with "%last" ("%last " +:+ pretty N +:+ rest)) with true.
  change (advance 6 ("%last " +:+ pretty N +:+ rest)) with (pretty N +:+ rest).
  rewrite atoi_pretty by assumption.
  cbn [negb andb].
  unfold iprintf at 1.
  run (eq_refl : modify (fun q => set_screen (screen q ++ [Line rule]) q) p
                 = Done tt (set_screen (screen p ++ [Line rule]) p)).
  set (p1 := set_screen _ p).
  run (eq_refl : gets (fun q => log_size (log q)) p1 = Done (log_size (log p)) p1).
  assert (Hpos : 0 <= log_size (log p)) by (unfold log_size; nia).
  replace (log_size (log p) =? -1) with false by (symmetry; apply Z.eqb_neq; lia).
  run (eq_refl : check_fail false p1 = Done tt p1).
  unfold iprintf at 1.
  run (eq_refl : modify (fun q => set_screen
                   (screen q ++ [Line ("LAST " +:+ pretty N +:+ " MESSAGES" +:+ nl)]) q) p1
                 = Done tt (set_screen
                   (screen p1 ++ [Line ("LAST " +:+ pretty N +:+ " MESSAGES" +:+ nl)]) p1)).
  set (p2 := set_screen _ p1).
  set (len := length (mesgs (log p))) in *.
  set (g := (Z.to_nat N - len)%nat).
  rewrite to_long_small by (unfold log_size, LONG_MAX in *; fold len; nia).
  rewrite ?bind_assoc. unfold for_lt at 1. unfold bind at 1.
  change (fun (_ : Z) '(offset0, mesg) =>
            l <- gets log ;; iprintf_mesg (pread_mesg l offset0 mesg) ;;
            ret (to_long (offset0 + sizeof_mesg_t), pread_mesg l offset0 mesg))
    with last_body.
  replace (Z.to_nat (N - 0)) with (g + len)%nat by (unfold g; lia).
  rewrite (garbage_loop N g len 0); try assumption.
  2: { unfold log_size, LONG_MAX in *. fold len in Hmax. nia. }
  2: { unfold log_size, g. fold len. nia. }
  2: { unfold log_size, LONG_MAX in *. fold len. nia. }
  2: { unfold g. lia. }
  set (p3 := set_screen _ p2).
  destruct (last_loop N (mesgs (log p3)) 0 p3 None Hsz Hwho Hmax eq_refl) as [a Ha].
  change (length (mesgs (log p3))) with len in Ha.
  replace (0 + Z.of_nat g) with (N - Z.of_nat len) by (unfold g; lia).
  rewrite Ha. unfold iprintf, bind, modify, ret. simpl.
  rewrite <- !app_assoc. reflexivity.
Qed.

End input_worker.

(** *** server_worker *)

Section reader.
Import bl_client bl_client_reader.
Context `{blather_h}.

(** The pass up to the [switch]: poll() reports the record and read()
    takes it. *)
Lemma server_worker_reads (t : thread) (m : mesg_t) (rest : list (Z * mesg_t)) :
  next_from_server t m rest ->
  server_worker t =
  bind (bind
    (switch_on (kind m)
       [ (Lcase BL_MESG,
          in_me (iprintf ("[" +:+ mesg_name m +:+ "] : " +:+ body m +:+ nl)) ;; ret m);
         (Lcase BL_JOINED,
          in_me (iprintf ("-- " +:+ mesg_name m +:+ " JOINED --" +:+ nl)) ;; ret m);
         (Lcase BL_DEPARTED,
          in_me (iprintf ("-- " +:+ mesg_name m +:+ " DEPARTED --" +:+ nl)) ;; ret m);
         (Lcase BL_SHUTDOWN,
          in_me (iprintf ("!!! server is shutting down !!!" +:+ nl)) ;; ret m);
         (Lcase BL_DISCONNECTED,
          in_me (iprintf ("-- " +:+ mesg_name m +:+ " DISCONNECTED --" +:+ nl)) ;; ret m);
         (Lcase BL_PING,
          c <- gets (fun t => client (me t)) ;;
          n_write <- in_me (write_to_server
                              (set_mesg_name (name c) (set_kind BL_PING zero_mesg))) ;;
          check_fail (n_write =? -1) ;;
          ret (set_mesg_name (name c) (set_kind BL_PING zero_mesg))) ]
       m)
    (fun mesg => if kind_eqb (kind mesg) BL_SHUTDOWN then ret true else ret false))
    (fun b => ret b)
    (on_env (set_mesg_in rest) t).
Proof.
  intros (Hsig & Hfd & Hopen & Hq). unfold server_worker.
  rewrite bind_gets.
  set (d := to_client_fd (client (me t))) in *.
  run (eq_refl : arr_upd [zero_pollfd] 0 (set_fd d) t = Done [set_fd d zero_pollfd] t).
  run (eq_refl : arr_upd [set_fd d zero_pollfd] 0
                   (fun p => set_events (Z.lor (events p) POLLIN) p) t
                 = Done [watch d] t).
  assert (Hrev : poll_revents (env t) (watch d) = 1).
  { unfold poll_revents, watch. simpl.
    destruct (Z.ltb_spec d 0); [lia|].
    rewrite bool_decide_eq_true_2 by exact Hopen. simpl.
    unfold readable. rewrite (take_first_readable _ _ _ _ Hq), orb_true_r. reflexivity. }
  assert (Hpoll : poll [watch d] 1 t = Done (1, [set_revents 1 (watch d)]) t).
  { unfold poll. simpl. rewrite Hsig, Hrev. reflexivity. }
  run Hpoll. change (0 <? 1) with true. cbv iota.
  run (eq_refl : arr_get [set_revents 1 (watch d)] 0 t = Done (set_revents 1 (watch d)) t).
  change (negb (Z.land (revents (set_revents 1 (watch d))) POLLIN =? 0)) with true.
  cbv iota.
  rewrite ?bind_assoc. rewrite bind_gets. fold d.
  assert (Hread : read_mesg d zero_mesg t = Done (sizeof_mesg_t, m) (on_env (set_mesg_in rest) t)).
  { unfold read_mesg. rewrite bool_decide_eq_true_2 by exact Hopen. rewrite Hq. reflexivity. }
  run Hread.
  unfold bind. destruct (switch_on _ _ _ _) as [a st| | |]; [|reflexivity..].
  destruct (kind_eqb (kind a) BL_SHUTDOWN); reflexivity.
Qed.

(** X25: a record from the server that is not a PING is taken off the
    to-client FIFO and shown as its kind prescribes (a MESG as
    "[name] : body", JOINED, DEPARTED and DISCONNECTED with the name
    between dashes, SHUTDOWN as the shutdown notice, any other kind not at
    all); nothing is sent to the server; and the worker leaves its loop
    exactly when the record is a SHUTDOWN. *)
Theorem server_worker_shows (t : thread) (m : mesg_t) (rest : list (Z * mesg_t)) :
  next_from_server t m rest ->
  kind m <> BL_PING ->
  server_worker t =
  Done (kind_eqb (kind m) BL_SHUTDOWN)
    {| me := set_screen (screen (me t) ++ shown m) (me t);
       env := set_mesg_in rest (env t) |}.
Proof.
  intros Hnext Hkind. rewrite (server_worker_reads t m rest Hnext).
  unfold shown. destruct (kind m) eqn:E; try congruence;
    try (unfold switch_on, bind, in_me, iprintf, modify, ret; simpl; rewrite E; reflexivity).
  unfold switch_on, bind, ret. simpl. rewrite E. simpl.
  rewrite app_nil_r. unfold on_env. destruct t as [[] ?]. reflexivity.
Qed.

(** X26: a PING from the server is answered with one PING record that
    bears the client's name; nothing is printed and the worker stays in
    its loop. *)
Theorem server_worker_answers_ping (t : thread) (m : mesg_t) (rest : list (Z * mesg_t)) :
  next_from_server t m rest ->
  kind m = BL_PING ->
  wr_fail (me t) = false -> 0 < sizeof_mesg_t ->
  server_worker t =
  Done false
    {| me := set_sent (sent (me t) ++ [{| kind := BL_PING;
                                          mesg_name := name (client (me t));
                                          body := "" |}]) (me t);
       env := set_mesg_in rest (env t) |}.
Proof.
  intros Hnext Hkind Hwr Hsz. rewrite (server_worker_reads t m rest Hnext).
  rewrite Hkind. unfold switch_on, bind, gets, in_me, write_to_server, check_fail, ret.
  simpl. rewrite Hwr.
  destruct (Z.eqb_spec sizeof_mesg_t (-1)); [lia | reflexivity].
Qed.

(** X27: while the to-client FIFO is open and empty and no signal is
    pending, the worker blocks in poll() and changes nothing. *)
Theorem server_worker_waits (t : thread) :
  signalled (env t) = false ->
  to_client_fd (client (me t)) ∈ open_fds (env t) ->
  readable (env t) (to_client_fd (client (me t))) = false ->
  server_worker t = Hang t.
Proof.
  intros Hsig Hopen Hread. unfold server_worker.
  rewrite bind_gets.
  set (d := to_client_fd (client (me t))) in *.
  run (eq_refl : arr_upd [zero_pollfd] 0 (set_fd d) t = Done [set_fd d zero_pollfd] t).
  run (eq_refl : arr_upd [set_fd d zero_pollfd] 0
                   (fun p => set_events (Z.lor (events p) POLLIN) p) t
                 = Done [watch d] t).
  assert (Hrev : poll_revents (env t) (watch d) = 0).
  { unfold poll_revents, watch. simpl.
    destruct (d <? 0); [reflexivity|].
    rewrite bool_decide_eq_true_2 by exact Hopen. simpl. rewrite Hread. reflexivity. }
  unfold bind, poll. simpl. rewrite Hsig, Hrev. reflexivity.
Qed.

End reader.

(** *** The further properties on the worked inputs *)

Ltac live_two :=
  let c := fresh "c" in let Hc := fresh "Hc" in
  let i := fresh "i" in let Hi := fresh "Hi" in let Hlt := fresh "Hlt" in
  intros c Hc; apply elem_of_take in Hc as (i & Hi & Hlt);
  destruct i as [|[|i]]; [| |simpl in Hlt; lia]; injection Hi as <-; compute_done.

(** X2 for carol joining alice and bob. *)
Lemma server_add_client_appends_carol :
  exists d1 d2 st',
    server_add_client (H := example_h) carol_join two_clients = Done 0 st' /\
    n_clients (srv st') = n_clients (srv two_clients) + 1 /\
    client (srv st') =
      <[Z.to_nat (n_clients (srv two_clients)) :=
          joined_client carol_join d1 d2 (clock (os two_clients))]>
        (client (srv two_clients)) /\
    written (os st') =
      written (os two_clients) ++
      deliveries (joined_mesg carol_join)
        (take (Z.to_nat (n_clients (srv st'))) (client (srv st'))).
Proof.
  apply (server_add_client_appends (H := example_h) carol_join two_clients).
  - reflexivity.
  - simpl. lia.
  - simpl. lia.
  - compute_done.
  - compute_done.
  - reflexivity.
  - live_two.
Defined.

(** X3 for carol joining alice and bob. *)
Lemma server_add_client_fresh_descriptors_carol :
  exists c st',
    server_add_client (H := example_h) carol_join two_clients = Done 0 st' /\
    client (srv st') !! Z.to_nat (n_clients (srv two_clients)) = Some c /\
    (to_client_fd c ∉ open_fds (os two_clients)) /\
    (to_server_fd c ∉ open_fds (os two_clients)) /\
    to_client_fd c <> to_server_fd c /\
    to_client_fd c ∈ open_fds (os st') /\
    to_server_fd c ∈ open_fds (os st').
Proof.
  apply (server_add_client_fresh_descriptors (H := example_h) carol_join two_clients).
  - reflexivity.
  - simpl. lia.
  - simpl. lia.
  - compute_done.
  - compute_done.
  - reflexivity.
  - live_two.
Defined.

(** X4 for a request whose FIFOs do not exist. *)
Lemma server_add_client_missing_fifo_ghost :
  exists st',
    server_add_client (H := example_h) ghost_join two_clients = Exit st' /\
    srv st' = srv two_clients /\
    written (os st') = written (os two_clients).
Proof.
  apply (server_add_client_missing_fifo (H := example_h) ghost_join two_clients).
  - simpl. lia.
  - left. compute_done.
Defined.

(** X5 for the removal of alice. *)
Lemma server_remove_client_closes_and_unlinks_alice :
  exists st',
    server_remove_client 0 two_clients = Done 0 st' /\
    (to_client_fd alice ∉ open_fds (os st')) /\
    (to_server_fd alice ∉ open_fds (os st')) /\
    (to_client_fname alice ∉ files (os st')) /\
    (to_server_fname alice ∉ files (os st')) /\
    (forall d, d <> to_client_fd alice -> d <> to_server_fd alice ->
               (d ∈ open_fds (os st') <-> d ∈ open_fds (os two_clients))) /\
    (forall p, p <> to_client_fname alice -> p <> to_server_fname alice ->
               (p ∈ files (os st') <-> p ∈ files (os two_clients))) /\
    written (os st') = written (os two_clients).
Proof.
  apply (server_remove_client_closes_and_unlinks 0 two_clients alice).
  - simpl. lia.
  - simpl. lia.
  - reflexivity.
  - reflexivity.
Defined.

(** X6 for alice, whose to_server_fd is closed already. *)
Lemma server_remove_client_half_closed_alice :
  exists st',
    server_remove_client 0 alice_half_closed = Done (-1) st' /\
    srv st' = srv alice_half_closed /\
    files (os st') = files (os alice_half_closed) /\
    (to_client_fd alice ∉ open_fds (os st')) /\
    server_remove_client 0 st' = Done (-1) st'.
Proof.
  apply (server_remove_client_half_closed 0 alice_half_closed alice).
  - simpl. lia.
  - reflexivity.
  - reflexivity.
  - left. reflexivity.
Defined.

(** X7 for carol joining alice and bob and leaving again. *)
Lemma server_add_then_remove_carol :
  exists st1 st2,
    server_add_client (H := example_h) carol_join two_clients = Done 0 st1 /\
    server_remove_client (n_clients (srv two_clients)) st1 = Done 0 st2 /\
    n_clients (srv st2) = n_clients (srv two_clients) /\
    take (Z.to_nat (n_clients (srv two_clients))) (client (srv st2)) =
      take (Z.to_nat (n_clients (srv two_clients))) (client (srv two_clients)) /\
    open_fds (os st2) = open_fds (os two_clients) /\
    files (os st2) =
      without_path (join_to_server_fname carol_join)
        (without_path (join_to_client_fname carol_join) (files (os two_clients))).
Proof.
  apply (server_add_then_remove (H := example_h) carol_join two_clients).
  - reflexivity.
  - simpl. lia.
  - simpl. lia.
  - compute_done.
  - compute_done.
  - reflexivity.
  - reflexivity.
  - live_two.
Defined.

(** X8 for carol's join record. *)
Lemma server_handle_join_reads_one_carol :
  exists st',
    server_handle_join (H := example_h) carol_waiting = Done tt st' /\
    join_in (os st') = [] /\
    join_ready (srv st') = 0 /\
    n_clients (srv st') = n_clients (srv carol_waiting) /\
    client (srv st') = client (srv carol_waiting) /\
    written (os st') = written (os carol_waiting) /\
    open_fds (os st') = open_fds (os carol_waiting).
Proof.
  apply (server_handle_join_reads_one (H := example_h) carol_waiting carol_join []).
  - reflexivity.
  - compute_done.
  - reflexivity.
Defined.

(** X9 for alice's "hi". *)
Lemma server_handle_client_reads_one_hi :
  server_handle_client (H := example_h) 0 alice_spoke =
  Done tt {| srv := set_client
                      (<[Z.to_nat 0 :=
                           set_last_contact_time (clock (os alice_spoke))
                             (set_data_ready 0 (set_data_ready 1 alice))]>
                         (client (srv alice_spoke))) (srv alice_spoke);
             os := set_mesg_in [] (os alice_spoke) |}.
Proof.
  apply (server_handle_client_reads_one (H := example_h) 0 alice_spoke
           (set_data_ready 1 alice) hi []).
  - reflexivity.
  - simpl. lia.
  - reflexivity.
  - compute_done.
  - reflexivity.
Defined.

(** X10 for an index behind the last client. *)
Lemma server_handle_client_aborts_behind :
  server_handle_client (H := example_h) 2 two_clients = Exit two_clients.
Proof.
  apply (server_handle_client_aborts (H := example_h) 2 two_clients).
  left. simpl. lia.
Defined.






(** X18 for alice and bob: bob stays. *)
Lemma server_shutdown_removes_every_other_two :
  exists st',
    server_shutdown (H := example_h) two_clients = Done tt st' /\
    live st' = every_other (live two_clients) /\
    n_clients (srv st') = n_clients (srv two_clients) / 2 /\
    written (os st') =
      written (os two_clients) ++ deliveries shutdown_mesg (live two_clients).
Proof.
  apply (server_shutdown_removes_every_other (H := example_h) two_clients).
  - reflexivity.
  - simpl. lia.
  - reflexivity.
  - reflexivity.
  - compute_done.
  - intros d Hd. change (d ∈ [4; 5; 6; 7]) in Hd.
    repeat (apply elem_of_cons in Hd as [-> | Hd]; [compute_done|]).
    apply elem_of_nil in Hd. destruct Hd.
Defined.

(** X19 for alice and bob: chat.fifo stays. *)
Lemma server_shutdown_keeps_join_fifo_two :
  (server_name (srv two_clients) +:+ ".fifo")
    ∈ files (os (final (server_shutdown (H := example_h) two_clients))).
Proof.
  apply (server_shutdown_keeps_join_fifo (H := example_h) two_clients).
  - compute_done.
  - repeat constructor; discriminate.
Defined.

(** X20 for the line "hello". *)
Lemma user_worker_sends_line_hello :
  bl_client.user_worker (H := example_h) "hello" false four_in_log =
  Done false
    (bl_client.set_sent
       (bl_client.sent four_in_log
        ++ [{| kind := BL_MESG; mesg_name := name (bl_client.client four_in_log);
               body := "hello" |}]) four_in_log).
Proof.
  apply (user_worker_sends_line (H := example_h) four_in_log "hello").
  - reflexivity.
  - reflexivity.
  - right. split; reflexivity.
Defined.

(** X21 for the end of input in the middle of a line. *)
Lemma user_worker_end_of_input_alice :
  bl_client.user_worker (H := example_h) "hel" true four_in_log =
  Done true
    (bl_client.set_sent
       (bl_client.sent four_in_log
        ++ [{| kind := BL_DEPARTED; mesg_name := name (bl_client.client four_in_log);
               body := "" |}])
       (bl_client.set_screen
          (bl_client.screen four_in_log
           ++ [bl_client.Line ("End of Input, Departing" +:+ bl_client.nl)])
          four_in_log)).
Proof.
  apply (user_worker_end_of_input (H := example_h) four_in_log "hel").
  - reflexivity.
  - reflexivity.
Defined.

(** X22 for a line typed after the FIFO has failed. *)
Lemma user_worker_write_failure_cut_off :
  exists p', bl_client.user_worker (H := example_h) "hello" false cut_off = Exit p' /\
    bl_client.sent p' = bl_client.sent cut_off.
Proof.
  apply (user_worker_write_failure (H := example_h) cut_off "hello" false).
  - reflexivity.
  - right. right. split; reflexivity.
Defined.

(** X23 for "%who" with alice and bob in the log. *)
Lemma user_worker_who_two :
  bl_client.user_worker (H := example_h) "%who" false four_in_log =
  Done false
    (bl_client.set_screen
       (bl_client.screen four_in_log
        ++ [bl_client.Line bl_client.rule;
            bl_client.Line
              (pretty (who_n_clients (bl_client.who (bl_client.log four_in_log)))
               +:+ " CLIENTS" +:+ bl_client.nl)]
        ++ bl_client_reader.who_lines 0
             (take (Z.to_nat (who_n_clients (bl_client.who (bl_client.log four_in_log))))
                   (names (bl_client.who (bl_client.log four_in_log))))
        ++ [bl_client.Line bl_client.rule]) four_in_log).
Proof.
  apply (user_worker_who (H := example_h) four_in_log "%who").
  - discriminate.
  - reflexivity.
  - simpl. lia.
Defined.

(** X24 for "%last 6" typed after four messages. *)
Lemma user_worker_last_six_of_four :
  bl_client.user_worker (H := example_h) "%last 6" false four_in_log =
  Done false
    (bl_client.set_screen
       (bl_client.screen four_in_log
        ++ [bl_client.Line bl_client.rule;
            bl_client.Line ("LAST " +:+ pretty 6 +:+ " MESSAGES" +:+ bl_client.nl)]
        ++ replicate (Z.to_nat 6 - length (bl_client.mesgs (bl_client.log four_in_log)))
             bl_client.Garbage
        ++ map bl_client.render (bl_client.mesgs (bl_client.log four_in_log))
        ++ [bl_client.Line bl_client.rule]) four_in_log).
Proof.
  apply (user_worker_last_too_many (H := example_h) four_in_log 6 "").
  - reflexivity.
  - discriminate.
  - discriminate.
  - discriminate.
  - split; discriminate.
  - discriminate.
  - reflexivity.
  - exact I.
Defined.

(** X25 for the shutdown notice. *)
Lemma server_worker_shows_shutdown :
  bl_client_reader.server_worker (H := example_h) (alice_reading [(4, shutdown_mesg)]) =
  Done (kind_eqb (kind shutdown_mesg) BL_SHUTDOWN)
    {| bl_client_reader.me :=
         bl_client.set_screen
           (bl_client.screen (bl_client_reader.me (alice_reading [(4, shutdown_mesg)]))
            ++ bl_client_reader.shown shutdown_mesg)
           (bl_client_reader.me (alice_reading [(4, shutdown_mesg)]));
       bl_client_reader.env :=
         set_mesg_in [] (bl_client_reader.env (alice_reading [(4, shutdown_mesg)])) |}.
Proof.
  apply (server_worker_shows (H := example_h) (alice_reading [(4, shutdown_mesg)])
           shutdown_mesg []).
  - split; [reflexivity|]. split; [simpl; lia|]. split; [compute_done | reflexivity].
  - discriminate.
Defined.

(** X26 for a PING. *)
Lemma server_worker_answers_ping_alice :
  bl_client_reader.server_worker (H := example_h) (alice_reading [(4, ping)]) =
  Done false
    {| bl_client_reader.me :=
         bl_client.set_sent
           (bl_client.sent (bl_client_reader.me (alice_reading [(4, ping)]))
            ++ [{| kind := BL_PING;
                   mesg_name :=
                     name (bl_client.client (bl_client_reader.me (alice_reading [(4, ping)])));
                   body := "" |}])
           (bl_client_reader.me (alice_reading [(4, ping)]));
       bl_client_reader.env :=
         set_mesg_in [] (bl_client_reader.env (alice_reading [(4, ping)])) |}.
Proof.
  apply (server_worker_answers_ping (H := example_h) (alice_reading [(4, ping)]) ping []).
  - split; [reflexivity|]. split; [simpl; lia|]. split; [compute_done | reflexivity].
  - reflexivity.
  - reflexivity.
  - reflexivity.
Defined.

(** X27 for alice's client with nothing to read. *)
Lemma server_worker_waits_alice :
  bl_client_reader.server_worker (H := example_h) (alice_reading []) =
  Hang (alice_reading []).
Proof.
  apply (server_worker_waits (H := example_h) (alice_reading [])).
  - reflexivity.
  - compute_done.
  - reflexivity.
Defined.
